(** * OAuth proxy provider, bearer-auth middleware and metadata assembly

    A shallow embedding of the authorization layer of the TypeScript SDK:
    - [proxyProvider.ts]: the provider that forwards every operation to
      statically configured upstream endpoints (module [Proxy]);
    - the variant of that provider that resolves endpoints lazily from
      upstream discovery metadata (module [LazyProxy]), and the interleaving
      of concurrent calls of its [getMetadata] (module [Interleaving]);
    - the bearer-auth middleware [requireBearerAuth] (module [Bearer]);
    - the metadata handler that knows the proxy class (module [Metadata]),
      the one written against the provider contract (module
      [LocalMetadata]) and the router that assembles the document itself
      (module [RouterMetadata]).

    JavaScript strings are modelled by [string], read as the UTF-8 bytes of
    the text; an optional property [x?: T] is an [option T]; a promise that
    settles is a [Completion]; code that awaits network calls lives in the
    [Async] monad, which threads the log of requests handed to [fetch].
    The platform's [URL] parser is modelled on the texts it leaves
    unchanged ([Url.plain]), and [String(v)] on the values
    [Js.convertible] accepts; statements about a URL's text or a converted
    value carry these conditions. *)

From Stdlib Require Import String Ascii List NArith Bool Lia.
From Stdlib Require Import DecimalString DecimalN.
Import ListNotations.
Open Scope string_scope.

(* ================================================================== *)
(** * JavaScript values used by the code *)

Module Js.

(** Truthiness of a [string | undefined]: [undefined] and the empty string
    are falsy. *)
Definition truthy (o : option string) : bool :=
  match o with
  | Some s => negb (s =? "")
  | None => false
  end.

(** [a || b] on [string | undefined]. *)
Definition or_else (a b : option string) : option string :=
  if truthy a then a else b.

(** [s || ""]. *)
Definition or_empty (a : option string) : string :=
  match a with
  | Some s => s
  | None => ""
  end.

(** [`${n}`] for a non-negative integer. *)
Definition string_of_N (n : N) : string :=
  NilEmpty.string_of_uint (N.to_uint n).

(** [xs.join(sep)]. *)
Fixpoint join (sep : string) (xs : list string) : string :=
  match xs with
  | [] => ""
  | [x] => x
  | x :: rest => x ++ sep ++ join sep rest
  end.

(** [xs?.length] as a condition, for an optional array. *)
Definition has_length {A : Type} (xs : option (list A)) : bool :=
  match xs with
  | Some (_ :: _) => true
  | _ => false
  end.

(** [x !== undefined] for an optional member. *)
Definition is_some {A : Type} (o : option A) : bool :=
  match o with
  | Some _ => true
  | None => false
  end.

(** The values [response.json()] can produce. Numbers are restricted to
    integers; nothing below depends on fractions. *)
#[warnings="-register-all"]
Inductive Json : Type :=
| JNull
| JBool (b : bool)
| JNumber (n : N)
| JString (s : string)
| JArray (items : list Json)
| JObject (fields : list (string * Json)).

(** Property lookup [obj[key]] on a parsed object; the last duplicate wins,
    as in [JSON.parse]. *)
Fixpoint assoc_last (key : string) (fields : list (string * Json)) : option Json :=
  match fields with
  | [] => None
  | (k, v) :: rest =>
      match assoc_last key rest with
      | Some v' => Some v'
      | None => if k =? key then Some v else None
      end
  end.

Definition get_field (key : string) (j : Json) : option Json :=
  match j with
  | JObject fields => assoc_last key fields
  | _ => None
  end.

(** [String(v)], the conversion [fetch] and [new URL] apply to an argument
    that is not a string already: an array is its elements joined by
    commas, with [null] elements left empty; an object is
    [[object Object]]. The conversion is the language's on the values
    [convertible] accepts. *)
Fixpoint ToString (v : Json) : string :=
  match v with
  | JNull => "null"
  | JBool b => if b then "true" else "false"
  | JNumber n => string_of_N n
  | JString s => s
  | JArray items =>
      join "," (map (fun item => match item with JNull => "" | _ => ToString item end) items)
  | JObject _ => "[object Object]"
  end.


End Js.

(* ================================================================== *)
(** * Errors ([errors.js]) *)

Module Errors.

(** What a [throw] can carry. [JsError] is a plain [new Error(message)];
    [TypeError], [SyntaxError] and [ZodError] are raised by [new URL],
    [response.json()] and [OAuthTokensSchema.parse]; the remaining
    constructors are [OAuthError] and its subclasses. *)
Inductive Throwable : Type :=
| JsError (message : string)
| TypeError
| SyntaxError
| ZodError
| InvalidTokenError (message : string)
| InsufficientScopeError (message : string)
| ServerError (message : string)
| OtherOAuthError (code message : string).

(** [error instanceof InvalidTokenError] and friends.
    Modelled from the spec: the class hierarchy of [errors.js], which is
    not part of the sources. The three named errors are kinds of OAuth
    error (the middleware tests them before their superclass [OAuthError]);
    a plain [Error] and the platform's errors are not. *)
Definition instanceof_InvalidTokenError (e : Throwable) : bool :=
  match e with InvalidTokenError _ => true | _ => false end.

Definition instanceof_InsufficientScopeError (e : Throwable) : bool :=
  match e with InsufficientScopeError _ => true | _ => false end.

Definition instanceof_ServerError (e : Throwable) : bool :=
  match e with ServerError _ => true | _ => false end.

Definition instanceof_OAuthError (e : Throwable) : bool :=
  match e with
  | InvalidTokenError _ | InsufficientScopeError _ | ServerError _
  | OtherOAuthError _ _ => true
  | _ => false
  end.

(** Modelled from the spec: the [errorCode] constants of [errors.js], which
    is not part of the sources. Section 7 of the specification gives
    [invalid_token] and [insufficient_scope] for the two challenge headers
    and [server_error] for the internal error. *)
Definition errorCode (e : Throwable) : string :=
  match e with
  | InvalidTokenError _ => "invalid_token"
  | InsufficientScopeError _ => "insufficient_scope"
  | ServerError _ => "server_error"
  | OtherOAuthError code _ => code
  | _ => ""
  end.

Definition message (e : Throwable) : string :=
  match e with
  | JsError m | InvalidTokenError m | InsufficientScopeError m
  | ServerError m | OtherOAuthError _ m => m
  | _ => ""
  end.

(** Modelled from the spec: [toResponseObject()] of [errors.js], the body
    [{error, error_description}]. *)
Definition toResponseObject (e : Throwable) : Js.Json :=
  Js.JObject [("error", Js.JString (errorCode e));
              ("error_description", Js.JString (message e))].

End Errors.

(* ================================================================== *)
(** * Promises and [fetch] *)

Module Net.
Import Errors.

Inductive Payload : Type :=
| NoBody
| FormBody (entries : list (string * string))
| JsonBody (value : Js.Json).

Record Request : Type := mkRequest {
  req_url : string;
  req_method : string;
  req_content_type : option string;
  req_body : Payload
}.

(** An upstream response: its status and, when the body is JSON, the parsed
    body. *)
Record Response : Type := mkResponse {
  status : N;
  body : option Js.Json
}.

(** [response.ok]: the status is in the range 200-299. *)
Definition ok (r : Response) : bool :=
  (200 <=? status r)%N && (status r <=? 299)%N.

(** The settled state of a promise. *)
Inductive Completion (A : Type) : Type :=
| Resolved (value : A)
| Rejected (reason : Throwable).
Arguments Resolved {A} value.
Arguments Rejected {A} reason.

(** The world an async function runs in: the upstream server, the requests
    handed to [fetch] so far (oldest first) and the mutable fields of the
    provider object. *)
Record World (H : Type) : Type := mkWorld {
  upstream : Request -> Response;
  sent : list Request;
  heap : H
}.
Arguments mkWorld {H} upstream sent heap.
Arguments upstream {H} w.
Arguments sent {H} w.
Arguments heap {H} w.

Definition Async (H A : Type) : Type := World H -> Completion A * World H.

Definition ret {H A : Type} (a : A) : Async H A :=
  fun w => (Resolved a, w).

Definition throw {H A : Type} (e : Throwable) : Async H A :=
  fun w => (Rejected e, w).

Definition bind {H A B : Type} (c : Async H A) (k : A -> Async H B) : Async H B :=
  fun w =>
    match c w with
    | (Resolved a, w') => k a w'
    | (Rejected e, w') => (Rejected e, w')
    end.

(** [await fetch(url, init)]: the request is recorded and the upstream
    server answers it. A request that never gets an answer (the promise of
    [fetch] rejecting) is not modelled. *)
Definition fetch {H : Type} (r : Request) : Async H Response :=
  fun w => (Resolved (upstream w r), mkWorld (upstream w) (sent w ++ [r]) (heap w)).

(** [await response.json()]. *)
Definition json {H : Type} (r : Response) : Async H Js.Json :=
  match body r with
  | Some j => ret j
  | None => throw SyntaxError
  end.

Definition get_heap {H : Type} : Async H H :=
  fun w => (Resolved (heap w), w).

Definition set_heap {H : Type} (h : H) : Async H unit :=
  fun w => (Resolved tt, mkWorld (upstream w) (sent w) h).

(** An async function that settles at once with [c] and sends nothing. *)
Definition settle {H A : Type} (c : Completion A) : Async H A :=
  fun w => (c, w).

Definition post_form (url : string) (entries : list (string * string)) : Request :=
  mkRequest url "POST" (Some "application/x-www-form-urlencoded") (FormBody entries).

Definition post_json (url : string) (value : Js.Json) : Request :=
  mkRequest url "POST" (Some "application/json") (JsonBody value).

Definition get (url : string) : Request :=
  mkRequest url "GET" None NoBody.

End Net.

Declare Scope async_scope.
Delimit Scope async_scope with async.
Notation "x <- c ;; k" := (Net.bind c (fun x => k))
  (at level 61, c at next level, right associativity) : async_scope.
Notation "c ;;; k" := (Net.bind c (fun _ => k))
  (at level 61, right associativity) : async_scope.

(* ================================================================== *)
(** * [URL] and [URLSearchParams] *)

Module Url.

(** [s.split(sep)] for a one-character separator: the list is never empty. *)
Fixpoint split_on (sep : ascii) (s : string) : list string :=
  match s with
  | EmptyString => [EmptyString]
  | String c rest =>
      if Ascii.eqb c sep then EmptyString :: split_on sep rest
      else
        match split_on sep rest with
        | seg :: segs => String c seg :: segs
        | [] => [String c EmptyString]
        end
  end.

(** The text before the first [sep] and, when there is one, the text after
    it. *)
Fixpoint cut (sep : ascii) (s : string) : string * option string :=
  match s with
  | EmptyString => (EmptyString, None)
  | String c rest =>
      if Ascii.eqb c sep then (EmptyString, Some rest)
      else let '(before, after) := cut sep rest in (String c before, after)
  end.

(** ** The form-urlencoded serializer *)

Definition hex_digit (n : N) : ascii :=
  ascii_of_N (if (n <? 10)%N then 48 + n else 55 + n)%N.


(** Bytes the serializer leaves alone: ASCII letters and digits and
    [*], [-], [.], [_]. *)
Definition unreserved (c : ascii) : bool :=
  let n := N_of_ascii c in
  ((48 <=? n)%N && (n <=? 57)%N) || ((65 <=? n)%N && (n <=? 90)%N)
  || ((97 <=? n)%N && (n <=? 122)%N)
  || (n =? 42)%N || (n =? 45)%N || (n =? 46)%N || (n =? 95)%N.

Definition encode_byte (c : ascii) : string :=
  if unreserved c then String c EmptyString
  else if Ascii.eqb c " " then "+"
  else
    let n := N_of_ascii c in
    String "%" (String (hex_digit (n / 16)) (String (hex_digit (n mod 16)) EmptyString)).

Fixpoint encode (s : string) : string :=
  match s with
  | EmptyString => EmptyString
  | String c rest => encode_byte c ++ encode rest
  end.

(** A [URLSearchParams] object is its list of name-value pairs, in order. *)
Definition URLSearchParams : Type := list (string * string).

(** [params.toString()]. *)
Definition toString (params : URLSearchParams) : string :=
  Js.join "&" (map (fun kv => encode (fst kv) ++ "=" ++ encode (snd kv)) params).

(** [params.set(name, value)]: the first pair called [name] takes the value
    and later ones are dropped; without one the pair is appended. *)
Fixpoint set (name value : string) (params : URLSearchParams) : URLSearchParams :=
  match params with
  | [] => [(name, value)]
  | (k, v) :: rest =>
      if k =? name
      then (k, value) :: filter (fun kv => negb (fst kv =? name)) rest
      else (k, v) :: set name value rest
  end.

(** ** The form-urlencoded parser *)






(** ** URLs *)

(** A parsed URL. [protocol] ends with the colon, [host] carries the port
    when there is one, [pathname] starts with a slash. *)
Record URL : Type := mkURL {
  protocol : string;
  host : string;
  pathname : string;
  query : option string;
  fragment : option string
}.

Definition starts_with_slashes (s : string) : option string :=
  match s with
  | String "/" (String "/" rest) => Some rest
  | _ => None
  end.

(** [new URL(text)] for a text of the shape
    [scheme://host/path?query#fragment] (path, query and fragment
    optional); any other text is refused. The platform's normalisation of
    case, ports, dots and escapes is not modelled: the text is taken to be
    a serialised URL already, and [plain] below delimits texts for which
    that is so. *)
Definition URL_parse (text : string) : option URL :=
  let '(no_fragment, frag) := cut "#" text in
  let '(no_query, q) := cut "?" no_fragment in
  match cut ":" no_query with
  | (scheme, Some after_colon) =>
      match starts_with_slashes after_colon with
      | Some authority_path =>
          let '(h, path) := cut "/" authority_path in
          if (scheme =? "") || (h =? "") then None
          else Some (mkURL (scheme ++ ":") h
                       (match path with Some p => String "/" p | None => "/" end)
                       q frag)
      | None => None
      end
  | (_, None) => None
  end.

(** [url.href], which is also [url.toString()]. *)
Definition href (u : URL) : string :=
  protocol u ++ "//" ++ host u ++ pathname u
  ++ match query u with Some q => String "?" q | None => "" end
  ++ match fragment u with Some f => String "#" f | None => "" end.

(** ** Texts the platform's parser leaves as they are *)











(** [url.search = text]: the empty text removes the query, one leading
    question mark is dropped. *)
Definition set_search (u : URL) (text : string) : URL :=
  let q :=
    match text with
    | EmptyString => None
    | String "?" rest => Some rest
    | _ => Some text
    end in
  mkURL (protocol u) (host u) (pathname u) q (fragment u).

(** [new URL(path, base)] for a [path] that starts with a single slash, the
    only references the metadata handlers resolve: scheme and host come from
    the base, the path replaces the base's path, query and fragment go. *)
Definition URL_resolve (path : string) (base : URL) : URL :=
  mkURL (protocol base) (host base) path None None.

End Url.

(* ================================================================== *)
(** * Protocol types ([shared/auth.js], [types.js], [provider.js]) *)

Module Client.
Record OAuthClientInformationFull : Type := mk {
  client_id : string;
  client_secret : option string;
  redirect_uris : list string
}.

(** The value [JSON.stringify(client)] encodes: an absent secret leaves no
    property behind. *)
Definition to_json (c : OAuthClientInformationFull) : Js.Json :=
  Js.JObject
    ([("client_id", Js.JString (client_id c))]
     ++ match client_secret c with
        | Some s => [("client_secret", Js.JString s)]
        | None => []
        end
     ++ [("redirect_uris", Js.JArray (map Js.JString (redirect_uris c)))]).
End Client.

Module Revocation.
Record OAuthTokenRevocationRequest : Type := mk {
  token : string;
  token_type_hint : option string
}.
End Revocation.

Module AuthInfo.
Record AuthInfo : Type := mk {
  token : string;
  clientId : string;
  scopes : list string;
  expiresAt : option N
}.
End AuthInfo.

Module AuthorizationParams.
Record AuthorizationParams : Type := mk {
  state : option string;
  scopes : option (list string);
  codeChallenge : string;
  redirectUri : string
}.
End AuthorizationParams.

Module Tokens.
Record OAuthTokens : Type := mk {
  access_token : string;
  token_type : string;
  expires_in : option N;
  refresh_token : option string
}.

Definition optional_string (v : option Js.Json) : option (option string) :=
  match v with
  | None => Some None
  | Some (Js.JString s) => Some (Some s)
  | Some _ => None
  end.

Definition optional_number (v : option Js.Json) : option (option N) :=
  match v with
  | None => Some None
  | Some (Js.JNumber n) => Some (Some n)
  | Some _ => None
  end.

(** Modelled from the spec: [OAuthTokensSchema] of [shared/auth.js], which
    is not part of the sources. The specification's token set has a
    required access token and token type and an optional lifetime and
    refresh token; the property names are those of the test suite. [None]
    stands for the [ZodError] that [parse] throws. *)
Definition OAuthTokensSchema_parse (data : Js.Json) : option OAuthTokens :=
  match Js.get_field "access_token" data, Js.get_field "token_type" data with
  | Some (Js.JString a), Some (Js.JString t) =>
      match optional_number (Js.get_field "expires_in" data),
            optional_string (Js.get_field "refresh_token" data) with
      | Some e, Some r => Some (mk a t e r)
      | _, _ => None
      end
  | _, _ => None
  end.

Definition to_json (t : OAuthTokens) : Js.Json :=
  Js.JObject
    ([("access_token", Js.JString (access_token t));
      ("token_type", Js.JString (token_type t))]
     ++ match expires_in t with Some n => [("expires_in", Js.JNumber n)] | None => [] end
     ++ match refresh_token t with Some r => [("refresh_token", Js.JString r)] | None => [] end).
End Tokens.

(* ================================================================== *)
(** * The provider with configured endpoints ([proxyProvider.ts]) *)

Module Proxy.
Import Errors Net Client Revocation.
Local Open Scope async_scope.

Record ProxyEndpoints : Type := mkEndpoints {
  authorizationUrl : option string;
  tokenUrl : option string;
  revocationUrl : option string;
  registrationUrl : option string
}.

(** This provider has no mutable field. *)
Definition Task (A : Type) : Type := Async unit A.

(** [verifyToken] and [getClient] are async functions of the application:
    they run in the same world and may send requests of their own. *)
Record ProxyOptions : Type := mkOptions {
  endpoints : ProxyEndpoints;
  verifyToken : string -> Task AuthInfo.AuthInfo;
  getClient : string -> Task (option OAuthClientInformationFull)
}.

(** [if (!url) throw new Error(message)], after which [url] is a string. *)
Definition require (url : option string) (message : string) : Task string :=
  if negb (Js.truthy url) then throw (JsError message)
  else ret (Js.or_empty url).

Record ProxyOAuthServerProvider : Type := mkProvider {
  _endpoints : ProxyEndpoints;
  _verifyToken : string -> Task AuthInfo.AuthInfo;
  _getClient : string -> Task (option OAuthClientInformationFull);
  revokeToken : option (OAuthClientInformationFull -> OAuthTokenRevocationRequest -> Task unit)
}.

(** The body of the arrow function the constructor assigns to
    [this.revokeToken]; it reads [this._endpoints] when it is called. *)
Definition revokeToken_body (this_endpoints : ProxyEndpoints)
    (client : OAuthClientInformationFull) (request : OAuthTokenRevocationRequest)
    : Task unit :=
  revocationUrl <- require (revocationUrl this_endpoints) "No revocation endpoint configured" ;;
  let params := [] in
  let params := Url.set "token" (token request) params in
  let params := Url.set "client_id" (client_id client) params in
  let params := Url.set "client_secret" (Js.or_empty (client_secret client)) params in
  let params :=
    if Js.truthy (token_type_hint request)
    then Url.set "token_type_hint" (Js.or_empty (token_type_hint request)) params
    else params in
  response <- fetch (post_form revocationUrl params) ;;
  if negb (ok response)
  then throw (ServerError ("Token revocation failed: " ++ Js.string_of_N (status response)))
  else ret tt.

(** [new ProxyOAuthServerProvider(options)]. *)
Definition new (options : ProxyOptions) : ProxyOAuthServerProvider :=
  mkProvider (endpoints options) (verifyToken options) (getClient options)
    (if Js.truthy (revocationUrl (endpoints options))
     then Some (revokeToken_body (endpoints options))
     else None).

Record OAuthRegisteredClientsStore : Type := mkStore {
  store_getClient : string -> Task (option OAuthClientInformationFull);
  registerClient : option (OAuthClientInformationFull -> Task Js.Json)
}.

Definition registerClient_body (registrationUrl : string)
    (client : OAuthClientInformationFull) : Task Js.Json :=
  response <- fetch (post_json registrationUrl (Client.to_json client)) ;;
  if negb (ok response)
  then throw (ServerError ("Client registration failed: " ++ Js.string_of_N (status response)))
  else json response.

(** [get clientsStore()]: the spread adds [registerClient] only for a
    truthy registration URL. *)
Definition clientsStore (this : ProxyOAuthServerProvider) : OAuthRegisteredClientsStore :=
  let registrationUrl := registrationUrl (_endpoints this) in
  mkStore (_getClient this)
    (if Js.truthy registrationUrl
     then Some (registerClient_body (Js.or_empty registrationUrl))
     else None).

(** The search parameters [authorize] builds. *)
Definition authorize_params (client : OAuthClientInformationFull)
    (params : AuthorizationParams.AuthorizationParams) : Url.URLSearchParams :=
  let searchParams :=
    [("client_id", client_id client);
     ("response_type", "code");
     ("redirect_uri", AuthorizationParams.redirectUri params);
     ("code_challenge", AuthorizationParams.codeChallenge params);
     ("code_challenge_method", "S256")] in
  let searchParams :=
    if Js.truthy (AuthorizationParams.state params)
    then Url.set "state" (Js.or_empty (AuthorizationParams.state params)) searchParams
    else searchParams in
  if Js.has_length (AuthorizationParams.scopes params)
  then Url.set "scope"
         (Js.join " " (match AuthorizationParams.scopes params with Some l => l | None => [] end))
         searchParams
  else searchParams.

(** The URL object [authorize] ends with, after [targetUrl.search] is set. *)
Definition authorize_target (targetUrl : Url.URL) (client : OAuthClientInformationFull)
    (params : AuthorizationParams.AuthorizationParams) : Url.URL :=
  Url.set_search targetUrl (Url.toString (authorize_params client params)).

(** [authorize]: the result is the text handed to [res.redirect]. *)
Definition authorize (this : ProxyOAuthServerProvider) (client : OAuthClientInformationFull)
    (params : AuthorizationParams.AuthorizationParams) : Task string :=
  authorizationUrl <- require (authorizationUrl (_endpoints this)) "No authorization endpoint configured" ;;
  match Url.URL_parse authorizationUrl with
  | None => throw TypeError
  | Some targetUrl => ret (Url.href (authorize_target targetUrl client params))
  end.

Definition challengeForAuthorizationCode (_client : OAuthClientInformationFull)
    (_authorizationCode : string) : Task string :=
  ret "".

Definition exchangeAuthorizationCode (this : ProxyOAuthServerProvider)
    (client : OAuthClientInformationFull) (authorizationCode : string)
    : Task Tokens.OAuthTokens :=
  tokenUrl <- require (tokenUrl (_endpoints this)) "No token endpoint configured" ;;
  response <- fetch (post_form tokenUrl
                  [("grant_type", "authorization_code");
                   ("client_id", client_id client);
                   ("client_secret", Js.or_empty (client_secret client));
                   ("code", authorizationCode)]) ;;
  if negb (ok response)
  then throw (ServerError ("Token exchange failed: " ++ Js.string_of_N (status response)))
  else
    data <- json response ;;
    match Tokens.OAuthTokensSchema_parse data with
    | Some tokens => ret tokens
    | None => throw ZodError
    end.

Definition exchangeRefreshToken (this : ProxyOAuthServerProvider)
    (client : OAuthClientInformationFull) (refreshToken : string)
    (scopes : option (list string)) : Task Tokens.OAuthTokens :=
  tokenUrl <- require (tokenUrl (_endpoints this)) "No token endpoint configured" ;;
  let params :=
    [("grant_type", "refresh_token");
     ("client_id", client_id client);
     ("client_secret", Js.or_empty (client_secret client));
     ("refresh_token", refreshToken)] in
  let params :=
    if Js.has_length scopes
    then Url.set "scope" (Js.join " " (match scopes with Some l => l | None => [] end)) params
    else params in
  response <- fetch (post_form tokenUrl params) ;;
  if negb (ok response)
  then throw (ServerError ("Token refresh failed: " ++ Js.string_of_N (status response)))
  else
    data <- json response ;;
    match Tokens.OAuthTokensSchema_parse data with
    | Some tokens => ret tokens
    | None => throw ZodError
    end.

Definition verifyAccessToken (this : ProxyOAuthServerProvider) (token : string)
    : Task AuthInfo.AuthInfo :=
  _verifyToken this token.

(** A fresh world: nothing sent yet. *)
Definition start (server : Request -> Response) : World unit :=
  mkWorld server [] tt.

End Proxy.

(* ================================================================== *)
(** * The provider that discovers endpoints lazily from upstream metadata *)

Module LazyProxy.
Import Errors Net Client Revocation.
Local Open Scope async_scope.

Record ProxyEndpoints : Type := mkEndpoints {
  authorizationUrl : option string;
  tokenUrl : option string;
  revokeUrl : option string;
  registerUrl : option string
}.

(** The endpoints object [{}]. *)
Definition no_endpoints : ProxyEndpoints := mkEndpoints None None None None.

(** The one mutable field, [this._metadata]: [None] is [undefined]. *)
Definition Task (A : Type) : Type := Async (option Js.Json) A.

Record ProxyOptions : Type := mkOptions {
  metadataUrl : option string;
  endpoints : option ProxyEndpoints;
  verifyToken : string -> Task AuthInfo.AuthInfo
}.

Record ProxyOAuthServerProvider : Type := mkProvider {
  _metadataUrl : option string;
  _endpoints : ProxyEndpoints;
  _verifyToken : string -> Task AuthInfo.AuthInfo
}.

(** Truthiness of a parsed JSON value. *)
Definition truthy_json (j : Js.Json) : bool :=
  match j with
  | Js.JNull => false
  | Js.JBool b => b
  | Js.JNumber n => negb (n =? 0)%N
  | Js.JString s => negb (s =? "")
  | Js.JArray _ | Js.JObject _ => true
  end.

Definition truthy_metadata (m : option Js.Json) : bool :=
  match m with
  | Some j => truthy_json j
  | None => false
  end.

(** [new ProxyOAuthServerProvider(options)]; an object given as [endpoints]
    is truthy even when it is empty. *)
Definition new (options : ProxyOptions) : Completion ProxyOAuthServerProvider :=
  if negb (Js.truthy (metadataUrl options))
     && negb (match endpoints options with Some _ => true | None => false end)
  then Rejected (JsError "Either metadataUrl or at least one endpoint must be provided")
  else Resolved (mkProvider (metadataUrl options)
                   (match endpoints options with Some e => e | None => no_endpoints end)
                   (verifyToken options)).

(** [metadata?.key]: [undefined] when there is no document, and also when
    the document is not an object or has no such property. *)
Definition property (key : string) (metadata : option Js.Json) : option Js.Json :=
  match metadata with
  | Some document => Js.get_field key document
  | None => None
  end.

(** [configured || metadata?.key]: a truthy configured URL, and otherwise
    whatever the document holds under [key]. [OAuthMetadata] types the
    property as a string, but the document is [response.json()] unchecked,
    so the value can be of any type. *)
Definition endpoint (configured : option string) (key : string)
    (metadata : option Js.Json) : option Js.Json :=
  if Js.truthy configured then option_map Js.JString configured
  else property key metadata.

(** [if (!url) throw new Error(message)], after which [url] is truthy. *)
Definition require (url : option Js.Json) (message : string) : Task Js.Json :=
  match url with
  | Some value => if negb (truthy_json value) then throw (JsError message) else ret value
  | None => throw (JsError message)
  end.

(** [getMetadata]. *)
Definition getMetadata (this : ProxyOAuthServerProvider) : Task (option Js.Json) :=
  if negb (Js.truthy (_metadataUrl this)) then ret None
  else
    cached <- get_heap ;;
    (if negb (truthy_metadata cached)
     then
       response <- fetch (get (Js.or_empty (_metadataUrl this))) ;;
       if negb (ok response)
       then throw (ServerError ("Failed to fetch OAuth metadata: " ++ Js.string_of_N (status response)))
       else
         fetched <- json response ;;
         set_heap (Some fetched)
     else ret tt) ;;;
    get_heap.

Definition registerClient (this : ProxyOAuthServerProvider)
    (client : OAuthClientInformationFull) : Task Js.Json :=
  metadata <- getMetadata this ;;
  let registerUrl := endpoint (registerUrl (_endpoints this)) "registration_endpoint" metadata in
  match registerUrl with
  | Some value =>
      if truthy_json value
      then
        response <- fetch (post_json (Js.ToString value) (Client.to_json client)) ;;
        if negb (ok response)
        then throw (ServerError ("Client registration failed: " ++ Js.string_of_N (status response)))
        else json response
      else throw (JsError "Client registration not supported")
  | None => throw (JsError "Client registration not supported")
  end.

Definition authorize (this : ProxyOAuthServerProvider) (client : OAuthClientInformationFull)
    (params : AuthorizationParams.AuthorizationParams) : Task string :=
  metadata <- getMetadata this ;;
  authorizationUrl <-
    require (endpoint (authorizationUrl (_endpoints this)) "authorization_endpoint" metadata)
      "No authorization endpoint configured" ;;
  match Url.URL_parse (Js.ToString authorizationUrl) with
  | None => throw TypeError
  | Some targetUrl => ret (Url.href (Proxy.authorize_target targetUrl client params))
  end.

Definition challengeForAuthorizationCode (_client : OAuthClientInformationFull)
    (_authorizationCode : string) : Task string :=
  ret "".

(** The exchanges return [response.json()] as it is. *)
Definition exchangeAuthorizationCode (this : ProxyOAuthServerProvider)
    (client : OAuthClientInformationFull) (authorizationCode : string)
    : Task Js.Json :=
  metadata <- getMetadata this ;;
  tokenUrl <-
    require (endpoint (tokenUrl (_endpoints this)) "token_endpoint" metadata)
      "No token endpoint configured" ;;
  response <- fetch (post_form (Js.ToString tokenUrl)
                  [("grant_type", "authorization_code");
                   ("client_id", client_id client);
                   ("client_secret", Js.or_empty (client_secret client));
                   ("code", authorizationCode)]) ;;
  if negb (ok response)
  then throw (ServerError ("Token exchange failed: " ++ Js.string_of_N (status response)))
  else json response.

Definition exchangeRefreshToken (this : ProxyOAuthServerProvider)
    (client : OAuthClientInformationFull) (refreshToken : string)
    (scopes : option (list string)) : Task Js.Json :=
  metadata <- getMetadata this ;;
  tokenUrl <-
    require (endpoint (tokenUrl (_endpoints this)) "token_endpoint" metadata)
      "No token endpoint configured" ;;
  let params :=
    [("grant_type", "refresh_token");
     ("client_id", client_id client);
     ("client_secret", Js.or_empty (client_secret client));
     ("refresh_token", refreshToken)] in
  let params :=
    if Js.has_length scopes
    then Url.set "scope" (Js.join " " (match scopes with Some l => l | None => [] end)) params
    else params in
  response <- fetch (post_form (Js.ToString tokenUrl) params) ;;
  if negb (ok response)
  then throw (ServerError ("Token refresh failed: " ++ Js.string_of_N (status response)))
  else json response.

Definition revokeToken (this : ProxyOAuthServerProvider)
    (client : OAuthClientInformationFull) (request : OAuthTokenRevocationRequest)
    : Task unit :=
  metadata <- getMetadata this ;;
  revokeUrl <-
    require (endpoint (revokeUrl (_endpoints this)) "revocation_endpoint" metadata)
      "No revocation endpoint configured" ;;
  let params := [] in
  let params := Url.set "token" (token request) params in
  let params := Url.set "client_id" (client_id client) params in
  let params := Url.set "client_secret" (Js.or_empty (client_secret client)) params in
  let params :=
    if Js.truthy (token_type_hint request)
    then Url.set "token_type_hint" (Js.or_empty (token_type_hint request)) params
    else params in
  response <- fetch (post_form (Js.ToString revokeUrl) params) ;;
  if negb (ok response)
  then throw (ServerError ("Token revocation failed: " ++ Js.string_of_N (status response)))
  else ret tt.

Definition verifyAccessToken (this : ProxyOAuthServerProvider) (token : string)
    : Task AuthInfo.AuthInfo :=
  _verifyToken this token.

(** A fresh world: nothing sent, nothing cached. *)
Definition start (server : Request -> Response) : World (option Js.Json) :=
  mkWorld server [] None.

End LazyProxy.

(* ================================================================== *)
(** * Concurrent calls of the lazy provider's [getMetadata] *)

Module Interleaving.
Import Errors Net.

(** Where one call of [getMetadata] is suspended. *)
Inductive Pc : Type :=
| AwaitingFetch
| AwaitingJson (response : Response)
| Settled (result : Completion (option Js.Json)).

(** The provider object shared by the calls, with the calls made so far
    (oldest first), the number of metadata requests handed to [fetch] and
    the number of those still unanswered. *)
Record System : Type := mkSystem {
  _metadata : option Js.Json;
  calls : list Pc;
  issued : nat;
  in_flight : nat
}.

Definition cold : System := mkSystem None [] 0 0.

(** What the event loop does next: a caller invokes [getMetadata], or the
    promise call [i] awaits settles and the call runs to its next [await]. *)
Inductive Event : Type :=
| Invoke
| Deliver (i : nat).

Fixpoint replace {A : Type} (i : nat) (a : A) (l : list A) : list A :=
  match l, i with
  | [], _ => []
  | _ :: rest, O => a :: rest
  | x :: rest, S j => x :: replace j a rest
  end.

(** The code between two suspension points runs without interruption. *)
Definition step (this : LazyProxy.ProxyOAuthServerProvider)
    (server : Request -> Response) (s : System) (e : Event) : System :=
  match e with
  | Invoke =>
      if negb (Js.truthy (LazyProxy._metadataUrl this))
      then mkSystem (_metadata s) (calls s ++ [Settled (Resolved None)]) (issued s) (in_flight s)
      else if negb (LazyProxy.truthy_metadata (_metadata s))
      then mkSystem (_metadata s) (calls s ++ [AwaitingFetch]) (S (issued s)) (S (in_flight s))
      else mkSystem (_metadata s) (calls s ++ [Settled (Resolved (_metadata s))])
             (issued s) (in_flight s)
  | Deliver i =>
      match nth_error (calls s) i with
      | Some AwaitingFetch =>
          let response := server (get (Js.or_empty (LazyProxy._metadataUrl this))) in
          if negb (ok response)
          then mkSystem (_metadata s)
                 (replace i (Settled (Rejected (ServerError
                    ("Failed to fetch OAuth metadata: " ++ Js.string_of_N (status response)))))
                    (calls s))
                 (issued s) (pred (in_flight s))
          else mkSystem (_metadata s) (replace i (AwaitingJson response) (calls s))
                 (issued s) (pred (in_flight s))
      | Some (AwaitingJson response) =>
          match body response with
          | Some fetched =>
              mkSystem (Some fetched) (replace i (Settled (Resolved (Some fetched))) (calls s))
                (issued s) (in_flight s)
          | None =>
              mkSystem (_metadata s) (replace i (Settled (Rejected SyntaxError)) (calls s))
                (issued s) (in_flight s)
          end
      | Some (Settled _) | None => s
      end
  end.

Definition run (this : LazyProxy.ProxyOAuthServerProvider)
    (server : Request -> Response) (schedule : list Event) (s : System) : System :=
  fold_left (step this server) schedule s.

End Interleaving.

(* ================================================================== *)
(** * The bearer-auth middleware ([requireBearerAuth]) *)

Module Bearer.
Import Errors Net.

Definition quote : string := String "034" EmptyString.

Definition lower (c : ascii) : ascii :=
  let n := N_of_ascii c in
  if (65 <=? n)%N && (n <=? 90)%N then ascii_of_N (n + 32) else c.

(** [s.toLowerCase()] on the ASCII letters. No other character lowers to a
    letter of the word the middleware compares with. *)
Fixpoint toLowerCase (s : string) : string :=
  match s with
  | EmptyString => EmptyString
  | String c rest => String (lower c) (toLowerCase rest)
  end.

(** [xs.includes(x)] on strings. *)
Definition includes (x : string) (xs : list string) : bool :=
  existsb (String.eqb x) xs.

(** The two shapes of the options: a provider, or the verification
    function itself. *)
Inductive Verifier : Type :=
| WithProvider (verifyAccessToken : string -> Completion AuthInfo.AuthInfo)
| WithVerifyToken (verifyToken : string -> Completion AuthInfo.AuthInfo).

Record BearerAuthMiddlewareOptions : Type := mkOptions {
  requiredScopes : option (list string);
  verifier : Verifier
}.

Record HttpResponse : Type := mkHttp {
  http_status : N;
  www_authenticate : option string;
  http_body : Js.Json
}.

(** What the middleware does with a request: it sets [req.auth] and calls
    [next], or it answers itself. *)
Inductive Outcome : Type :=
| Next (auth : AuthInfo.AuthInfo)
| Respond (response : HttpResponse).

(** The outcome together with the tokens handed to the verification
    function. *)
Record Handled : Type := mkHandled {
  verified : list string;
  outcome : Outcome
}.

Definition challenge (error : Throwable) : string :=
  "Bearer error=" ++ quote ++ errorCode error ++ quote
  ++ ", error_description=" ++ quote ++ message error ++ quote.

(** The [try] block. *)
Definition attempt (verifyToken : string -> Completion AuthInfo.AuthInfo)
    (requiredScopes : list string) (authHeader : option string)
    : list string * Completion AuthInfo.AuthInfo :=
  if negb (Js.truthy authHeader)
  then ([], Rejected (InvalidTokenError "Missing Authorization header"))
  else
    let segments := Url.split_on " " (Js.or_empty authHeader) in
    let type := nth 0 segments "" in
    let token := nth_error segments 1 in
    if negb (toLowerCase type =? "bearer") || negb (Js.truthy token)
    then ([], Rejected (InvalidTokenError
                 "Invalid Authorization header format, expected 'Bearer TOKEN'"))
    else
      match verifyToken (Js.or_empty token) with
      | Rejected e => ([Js.or_empty token], Rejected e)
      | Resolved authInfo =>
          if Nat.ltb 0 (List.length requiredScopes)
          then
            let hasAllScopes :=
              forallb (fun scope => includes scope (AuthInfo.scopes authInfo)) requiredScopes in
            if negb hasAllScopes
            then ([Js.or_empty token], Rejected (InsufficientScopeError "Insufficient scope"))
            else ([Js.or_empty token], Resolved authInfo)
          else ([Js.or_empty token], Resolved authInfo)
      end.

(** The [catch] block. *)
Definition recover (error : Throwable) : HttpResponse :=
  if instanceof_InvalidTokenError error
  then mkHttp 401 (Some (challenge error)) (toResponseObject error)
  else if instanceof_InsufficientScopeError error
  then mkHttp 403 (Some (challenge error)) (toResponseObject error)
  else if instanceof_ServerError error
  then mkHttp 500 None (toResponseObject error)
  else if instanceof_OAuthError error
  then mkHttp 400 None (toResponseObject error)
  else mkHttp 500 None (toResponseObject (ServerError "Internal Server Error")).

Definition requireBearerAuth (options : BearerAuthMiddlewareOptions)
    (authHeader : option string) : Handled :=
  let verifyToken :=
    match verifier options with
    | WithProvider verifyAccessToken => fun token => verifyAccessToken token
    | WithVerifyToken verifyToken => verifyToken
    end in
  let requiredScopes :=
    match requiredScopes options with Some l => l | None => [] end in
  match attempt verifyToken requiredScopes authHeader with
  | (tokens, Resolved authInfo) => mkHandled tokens (Next authInfo)
  | (tokens, Rejected error) => mkHandled tokens (Respond (recover error))
  end.

End Bearer.

(* ================================================================== *)
(** * Discovery metadata ([metadataHandler]) *)

Module Router.
Definition DEFAULT_AUTHORIZATION_ENDPOINT : string := "/authorize".
Definition DEFAULT_TOKEN_ENDPOINT : string := "/token".
Definition DEFAULT_REGISTRATION_ENDPOINT : string := "/register".
Definition DEFAULT_REVOCATION_ENDPOINT : string := "/revoke".
Definition DEFAULT_METADATA_ENDPOINT : string := "/.well-known/oauth-authorization-server".
End Router.

Module Metadata.
Import Router.

(** A provider as a metadata handler sees it: an instance of the proxy
    class, or any other implementation of the contract, of which only the
    presence of the two optional members matters. *)
Inductive OAuthServerProvider : Type :=
| ProxyInstance (p : Proxy.ProxyOAuthServerProvider)
| OtherProvider (has_revokeToken has_registerClient : bool).

(** [provider instanceof ProxyOAuthServerProvider]. *)
Definition isProxy (provider : OAuthServerProvider) : bool :=
  match provider with ProxyInstance _ => true | OtherProvider _ _ => false end.

(** [provider.revokeToken] as a condition. *)
Definition has_revokeToken (provider : OAuthServerProvider) : bool :=
  match provider with
  | ProxyInstance p => match Proxy.revokeToken p with Some _ => true | None => false end
  | OtherProvider r _ => r
  end.

(** [provider.clientsStore.registerClient] as a condition. *)
Definition has_registerClient (provider : OAuthServerProvider) : bool :=
  match provider with
  | ProxyInstance p =>
      match Proxy.registerClient (Proxy.clientsStore p) with Some _ => true | None => false end
  | OtherProvider _ r => r
  end.

(** The four getters of the proxy class; other providers have none. *)
Definition authorizationUrl (provider : OAuthServerProvider) : option string :=
  match provider with
  | ProxyInstance p => Proxy.authorizationUrl (Proxy._endpoints p)
  | OtherProvider _ _ => None
  end.

Definition tokenUrl (provider : OAuthServerProvider) : option string :=
  match provider with
  | ProxyInstance p => Proxy.tokenUrl (Proxy._endpoints p)
  | OtherProvider _ _ => None
  end.

Definition revocationUrl (provider : OAuthServerProvider) : option string :=
  match provider with
  | ProxyInstance p => Proxy.revocationUrl (Proxy._endpoints p)
  | OtherProvider _ _ => None
  end.

Definition registrationUrl (provider : OAuthServerProvider) : option string :=
  match provider with
  | ProxyInstance p => Proxy.registrationUrl (Proxy._endpoints p)
  | OtherProvider _ _ => None
  end.

Record OAuthMetadata : Type := mkMetadata {
  issuer : string;
  service_documentation : option string;
  authorization_endpoint : string;
  response_types_supported : list string;
  code_challenge_methods_supported : list string;
  token_endpoint : string;
  token_endpoint_auth_methods_supported : list string;
  grant_types_supported : list string;
  revocation_endpoint : option string;
  revocation_endpoint_auth_methods_supported : option (list string);
  registration_endpoint : option string
}.

Definition optional_property (key : string) (value : option Js.Json) : list (string * Js.Json) :=
  match value with
  | Some v => [(key, v)]
  | None => []
  end.

Definition strings (l : list string) : Js.Json := Js.JArray (map Js.JString l).

(** The document [res.status(200).json(metadata)] sends: a property whose
    value is [undefined] is left out. *)
Definition document (m : OAuthMetadata) : list (string * Js.Json) :=
  [("issuer", Js.JString (issuer m))]
  ++ optional_property "service_documentation" (option_map Js.JString (service_documentation m))
  ++ [("authorization_endpoint", Js.JString (authorization_endpoint m));
      ("response_types_supported", strings (response_types_supported m));
      ("code_challenge_methods_supported", strings (code_challenge_methods_supported m));
      ("token_endpoint", Js.JString (token_endpoint m));
      ("token_endpoint_auth_methods_supported", strings (token_endpoint_auth_methods_supported m));
      ("grant_types_supported", strings (grant_types_supported m))]
  ++ optional_property "revocation_endpoint" (option_map Js.JString (revocation_endpoint m))
  ++ optional_property "revocation_endpoint_auth_methods_supported"
       (option_map strings (revocation_endpoint_auth_methods_supported m))
  ++ optional_property "registration_endpoint" (option_map Js.JString (registration_endpoint m)).

Definition has_property (key : string) (doc : list (string * Js.Json)) : bool :=
  existsb (fun kv => fst kv =? key) doc.

(** The handler that knows the proxy class. *)
Definition metadataHandler (provider : OAuthServerProvider) (issuer : Url.URL)
    (serviceDocumentationUrl : option Url.URL) : OAuthMetadata :=
  let isProxy := isProxy provider in
  let buildUrl := fun path : string => Url.href (Url.URL_resolve path issuer) in
  let authorization_endpoint := buildUrl DEFAULT_AUTHORIZATION_ENDPOINT in
  let authorization_endpoint :=
    if isProxy && Js.truthy (authorizationUrl provider)
    then Js.or_empty (authorizationUrl provider)
    else authorization_endpoint in
  let token_endpoint := buildUrl DEFAULT_TOKEN_ENDPOINT in
  let token_endpoint :=
    if isProxy && Js.truthy (tokenUrl provider)
    then Js.or_empty (tokenUrl provider)
    else token_endpoint in
  let revocation_endpoint :=
    if has_revokeToken provider
    then
      if isProxy && Js.truthy (revocationUrl provider)
      then revocationUrl provider
      else Some (buildUrl DEFAULT_REVOCATION_ENDPOINT)
    else None in
  let registration_endpoint :=
    if has_registerClient provider
    then
      if isProxy && Js.truthy (registrationUrl provider)
      then registrationUrl provider
      else Some (buildUrl DEFAULT_REGISTRATION_ENDPOINT)
    else None in
  mkMetadata (Url.href issuer) (option_map Url.href serviceDocumentationUrl)
    authorization_endpoint ["code"] ["S256"]
    token_endpoint ["client_secret_post"] ["authorization_code"; "refresh_token"]
    revocation_endpoint
    (if Js.truthy revocation_endpoint then Some ["client_secret_post"] else None)
    registration_endpoint.

End Metadata.

Module LocalMetadata.
Import Router Metadata.

(** The handler written against the provider contract alone. *)
Definition metadataHandler (provider : OAuthServerProvider) (issuer : Url.URL)
    (serviceDocumentationUrl : option Url.URL) : OAuthMetadata :=
  let buildUrl := fun path : string => Url.href (Url.URL_resolve path issuer) in
  mkMetadata (Url.href issuer) (option_map Url.href serviceDocumentationUrl)
    (buildUrl DEFAULT_AUTHORIZATION_ENDPOINT) ["code"] ["S256"]
    (buildUrl DEFAULT_TOKEN_ENDPOINT) ["client_secret_post"]
    ["authorization_code"; "refresh_token"]
    (if has_revokeToken provider then Some (buildUrl DEFAULT_REVOCATION_ENDPOINT) else None)
    (if has_revokeToken provider then Some ["client_secret_post"] else None)
    (if has_registerClient provider then Some (buildUrl DEFAULT_REGISTRATION_ENDPOINT) else None).

End LocalMetadata.

Module RouterMetadata.
Import Metadata.

(** [getEndpointUrl] of the router that assembles the metadata itself. *)
Definition getEndpointUrl (isProxyProvider : bool) (issuer : Url.URL)
    (localPath : option string) (proxyUrl_of_provider : option string) : option string :=
  if negb (Js.truthy localPath) then None
  else
    let proxyUrl := if isProxyProvider then proxyUrl_of_provider else None in
    Js.or_else proxyUrl (Some (Url.href (Url.URL_resolve (Js.or_empty localPath) issuer))).

(** The metadata object [mcpAuthRouter] builds in that router. *)
Definition metadata (provider : OAuthServerProvider) (issuer : Url.URL)
    (serviceDocumentationUrl : option Url.URL) : OAuthMetadata :=
  let isProxyProvider := isProxy provider in
  let authorization_endpoint := "/authorize" in
  let token_endpoint := "/token" in
  let registration_endpoint :=
    if has_registerClient provider then Some "/register" else None in
  let revocation_endpoint :=
    if has_revokeToken provider then Some "/revoke" else None in
  mkMetadata (Url.href issuer) (option_map Url.href serviceDocumentationUrl)
    (Js.or_empty
       (Js.or_else
          (getEndpointUrl isProxyProvider issuer (Some authorization_endpoint)
             (authorizationUrl provider))
          (Some (Url.href (Url.URL_resolve authorization_endpoint issuer)))))
    ["code"] ["S256"]
    (Js.or_empty
       (Js.or_else
          (getEndpointUrl isProxyProvider issuer (Some token_endpoint) (tokenUrl provider))
          (Some (Url.href (Url.URL_resolve token_endpoint issuer)))))
    ["client_secret_post"] ["authorization_code"; "refresh_token"]
    (getEndpointUrl isProxyProvider issuer revocation_endpoint (revocationUrl provider))
    (if Js.truthy revocation_endpoint then Some ["client_secret_post"] else None)
    (getEndpointUrl isProxyProvider issuer registration_endpoint (registrationUrl provider)).

End RouterMetadata.

(* ================================================================== *)
(** * The routers *)

Module Location.

(** [url.hostname]: the host without the port; an IPv6 literal keeps its
    brackets. *)
Definition hostname (u : Url.URL) : string :=
  match Url.host u with
  | String "[" _ => fst (Url.cut "]" (Url.host u)) ++ "]"
  | _ => fst (Url.cut ":" (Url.host u))
  end.

(** [url.hash] and [url.search] as conditions: an absent and an empty
    component both read as the empty text. *)
Definition has_hash (u : Url.URL) : bool := Js.truthy (Url.fragment u).

Definition has_search (u : Url.URL) : bool := Js.truthy (Url.query u).

(** [url.origin] of an http or https URL. *)
Definition origin (u : Url.URL) : string :=
  Url.protocol u ++ "//" ++ Url.host u.

End Location.

Module AuthRouter.
Import Errors Net Router.

(** What [router.use] mounts. The handlers of [handlers/] are not part of
    the sources; a route records which one is mounted, and for the metadata
    route the document it serves. *)
Inductive Handler : Type :=
| AuthorizationHandler
| TokenHandler
| MetadataHandler (metadata : Metadata.OAuthMetadata)
| ClientRegistrationHandler
| RevocationHandler.

Definition Route : Type := (string * Handler)%type.

(** [router.use(path, handler)]. *)
Definition use {H : Type} (router : list (string * H)) (path : string) (handler : H)
    : list (string * H) :=
  (router ++ [(path, handler)])%list.

Record AuthRouterOptions : Type := mkOptions {
  provider : Metadata.OAuthServerProvider;
  issuerUrl : Url.URL;
  serviceDocumentationUrl : option Url.URL
}.

(** The three checks on the issuer, in the order of the code. *)
Definition check_issuer (issuer : Url.URL) : option Throwable :=
  if negb (Url.protocol issuer =? "https:")
     && negb (Location.hostname issuer =? "localhost")
     && negb (Location.hostname issuer =? "127.0.0.1")
  then Some (JsError "Issuer URL must be HTTPS")
  else if Location.has_hash issuer
  then Some (JsError "Issuer URL must not have a fragment")
  else if Location.has_search issuer
  then Some (JsError "Issuer URL must not have a query string")
  else None.

(** [mcpAuthRouter] of the router that leaves the document to
    [metadataHandler]; the handler is the one [handlers/metadata.js]
    exports. The result is the list of mounted routes, in order. *)
Definition mcpAuthRouter
    (metadataHandler : Metadata.OAuthServerProvider -> Url.URL -> option Url.URL
                       -> Metadata.OAuthMetadata)
    (options : AuthRouterOptions) : Completion (list Route) :=
  let issuer := issuerUrl options in
  let provider := provider options in
  let serviceDocumentationUrl := serviceDocumentationUrl options in
  match check_issuer issuer with
  | Some error => Rejected error
  | None =>
      let router := [] in
      let router := use router DEFAULT_AUTHORIZATION_ENDPOINT AuthorizationHandler in
      let router := use router DEFAULT_TOKEN_ENDPOINT TokenHandler in
      let router :=
        use router DEFAULT_METADATA_ENDPOINT
          (MetadataHandler (metadataHandler provider issuer serviceDocumentationUrl)) in
      let router :=
        if Metadata.has_registerClient provider
        then use router DEFAULT_REGISTRATION_ENDPOINT ClientRegistrationHandler
        else router in
      let router :=
        if Metadata.has_revokeToken provider
        then use router DEFAULT_REVOCATION_ENDPOINT RevocationHandler
        else router in
      Resolved router
  end.

End AuthRouter.

Module InlineRouter.
Import Errors Net AuthRouter.

(** [mcpAuthRouter] of the router that assembles the document itself
    ([RouterMetadata.metadata]) and mounts the optional routes by the local
    paths it computed. *)
Definition mcpAuthRouter (options : AuthRouterOptions) : Completion (list Route) :=
  let issuer := issuerUrl options in
  let provider := provider options in
  if negb (Url.protocol issuer =? "https:")
     && negb (Location.hostname issuer =? "localhost")
     && negb (Location.hostname issuer =? "127.0.0.1")
  then Rejected (JsError "Issuer URL must be HTTPS")
  else if Location.has_hash issuer
  then Rejected (JsError "Issuer URL must not have a fragment")
  else if Location.has_search issuer
  then Rejected (JsError "Issuer URL must not have a query string")
  else
    let registration_endpoint :=
      if Metadata.has_registerClient provider then Some "/register" else None in
    let revocation_endpoint :=
      if Metadata.has_revokeToken provider then Some "/revoke" else None in
    let metadata := RouterMetadata.metadata provider issuer (serviceDocumentationUrl options) in
    let router := [] in
    let router := use router "/authorize" AuthorizationHandler in
    let router := use router "/token" TokenHandler in
    let router :=
      use router "/.well-known/oauth-authorization-server" (MetadataHandler metadata) in
    let router :=
      if Js.truthy registration_endpoint
      then use router "/register" ClientRegistrationHandler
      else router in
    let router :=
      if Js.truthy revocation_endpoint
      then use router "/revoke" RevocationHandler
      else router in
    Resolved router.

End InlineRouter.

Module ProxyRouter.
Import Errors Net.

(** The options of [createProxyMiddleware]. *)
Record ProxyMiddleware : Type := mkProxy {
  target : string;
  changeOrigin : bool;
  pathRewrite : option (string * string)
}.

(** [endpoints] is a JavaScript object: its entries in insertion order, a
    key possibly holding [undefined]. *)
Record ProxyOptions : Type := mkOptions {
  metadataUrl : option Url.URL;
  endpoints : option (list (string * option Url.URL))
}.

(** [mcpAuthProxyRouter]: the mounted routes, in order. *)
Definition mcpAuthProxyRouter (options : ProxyOptions)
    : Completion (list (string * ProxyMiddleware)) :=
  let metadataUrl := metadataUrl options in
  let endpoints := match endpoints options with Some e => e | None => [] end in
  if negb (Js.is_some metadataUrl) && Nat.eqb (List.length (map fst endpoints)) 0
  then Rejected (JsError "At least one of metadataUrl or an endpoint must be provided.")
  else
    let router := [] in
    let router :=
      match metadataUrl with
      | Some metadataUrl =>
          AuthRouter.use router "/.well-known/oauth-authorization-server"
            (mkProxy (Location.origin metadataUrl) true
               (Some ("^/.well-known/oauth-authorization-server",
                      "/.well-known/oauth-authorization-server")))
      | None => router
      end in
    let router :=
      fold_left
        (fun router entry =>
           match snd entry with
           | Some url =>
               AuthRouter.use router ("/" ++ fst entry)
                 (mkProxy (Location.origin url) true None)
           | None => router
           end)
        endpoints router in
    Resolved router.

End ProxyRouter.

(* ================================================================== *)
(** * Vocabulary of the statements *)

(** ** Upstream calls *)

(** An async function surfaces upstream failures when, from any world, it
    sends one request to [url], and a non-2xx answer to that request makes
    it reject with a [ServerError] whose message ends with the status. *)
Definition surfaces_upstream_failure {H A : Type} (op : Net.Async H A)
    (url prefix : string) : Prop :=
  forall w : Net.World H,
  exists request : Net.Request,
    Net.req_url request = url
    /\ Net.sent (snd (op w)) = (Net.sent w ++ [request])%list
    /\ (Net.ok (Net.upstream w request) = false ->
        fst (op w) = Net.Rejected (Errors.ServerError
          (prefix ++ Js.string_of_N (Net.status (Net.upstream w request))))).

(** An operation of the lazy provider stops where [getMetadata] left the
    world, with the configuration error, when no truthy URL is configured
    and the metadata holds no truthy value under [key]; a truthy value of
    whatever type does not stop it. *)
Definition stops_after_metadata {A : Type} (this : LazyProxy.ProxyOAuthServerProvider)
    (op : LazyProxy.Task A) (explicit : option string) (key message : string) : Prop :=
  forall w metadata w',
    LazyProxy.getMetadata this w = (Net.Resolved metadata, w') ->
    (Js.truthy explicit = false ->
     LazyProxy.truthy_metadata (LazyProxy.property key metadata) = false ->
     op w = (Net.Rejected (Errors.JsError message), w'))
    /\ (Js.truthy explicit = true
        \/ LazyProxy.truthy_metadata (LazyProxy.property key metadata) = true ->
        fst (op w) <> Net.Rejected (Errors.JsError message)).

(** An upstream server that gives every request the same answer. *)
Definition answers (status : N) (body : option Js.Json) : Net.Request -> Net.Response :=
  fun _ => Net.mkResponse status body.

(** ** Texts *)

(** [has_char c s]: the character [c] occurs in [s]. *)
Fixpoint has_char (c : ascii) (s : string) : bool :=
  match s with
  | EmptyString => false
  | String d rest => Ascii.eqb d c || has_char c rest
  end.

(** [contains needle s]: the text [needle] occurs in [s]. *)
Fixpoint contains (needle s : string) : bool :=
  String.prefix needle s
  || match s with
     | EmptyString => false
     | String _ rest => contains needle rest
     end.


(** ** The authorization redirect *)




(** ** The metadata document *)

(** The URL to advertise for one endpoint: the explicit upstream URL when
    there is a non-empty one, the local path resolved against the issuer
    otherwise. *)
Definition advertised (explicit : option string) (localPath : string) (issuer : Url.URL)
    : string :=
  match explicit with
  | Some url => if url =? "" then Url.href (Url.URL_resolve localPath issuer) else url
  | None => Url.href (Url.URL_resolve localPath issuer)
  end.

(** A document leaves out the revocation endpoint and its auth methods
    exactly when the provider has no [revokeToken], and the registration
    endpoint exactly when the clients store has no [registerClient]. *)
Definition omits_exactly (provider : Metadata.OAuthServerProvider)
    (doc : list (string * Js.Json)) : Prop :=
  Metadata.has_property "revocation_endpoint" doc = Metadata.has_revokeToken provider
  /\ Metadata.has_property "revocation_endpoint_auth_methods_supported" doc
     = Metadata.has_revokeToken provider
  /\ Metadata.has_property "registration_endpoint" doc = Metadata.has_registerClient provider.

(** ** The middleware *)

(** The verification function and the required scopes the middleware
    works with. *)
Definition effective_verifyToken (options : Bearer.BearerAuthMiddlewareOptions)
    : string -> Net.Completion AuthInfo.AuthInfo :=
  match Bearer.verifier options with
  | Bearer.WithProvider verifyAccessToken => verifyAccessToken
  | Bearer.WithVerifyToken verifyToken => verifyToken
  end.

Definition effective_requiredScopes (options : Bearer.BearerAuthMiddlewareOptions)
    : list string :=
  match Bearer.requiredScopes options with Some l => l | None => [] end.

(** A header of the shape the middleware accepts: the first segment is the
    scheme in any letter case, the second segment is a non-empty token. *)
Definition well_formed (header token : string) : Prop :=
  exists type rest,
    Url.split_on " " header = type :: token :: rest
    /\ Bearer.toLowerCase type = "bearer"
    /\ token <> "".

(** The two errors the middleware raises about the header. *)
Definition missing : Errors.Throwable :=
  Errors.InvalidTokenError "Missing Authorization header".

Definition malformed : Errors.Throwable :=
  Errors.InvalidTokenError "Invalid Authorization header format, expected 'Bearer TOKEN'".

(** The 401 answer to an invalid token, given before any verification. *)
Definition unauthorized (e : Errors.Throwable) : Bearer.Handled :=
  Bearer.mkHandled []
    (Bearer.Respond
       (Bearer.mkHttp 401 (Some (Bearer.challenge e)) (Errors.toResponseObject e))).

(** The response the middleware gives for each kind of error. *)
Definition mapped (e : Errors.Throwable) : Bearer.HttpResponse :=
  match e with
  | Errors.InvalidTokenError _ =>
      Bearer.mkHttp 401 (Some (Bearer.challenge e)) (Errors.toResponseObject e)
  | Errors.InsufficientScopeError _ =>
      Bearer.mkHttp 403 (Some (Bearer.challenge e)) (Errors.toResponseObject e)
  | Errors.ServerError _ => Bearer.mkHttp 500 None (Errors.toResponseObject e)
  | Errors.OtherOAuthError _ _ => Bearer.mkHttp 400 None (Errors.toResponseObject e)
  | _ =>
      Bearer.mkHttp 500 None
        (Errors.toResponseObject (Errors.ServerError "Internal Server Error"))
  end.

(** The error raised in the [try] block, by where it comes from: no header,
    a header that is not well formed, the rejection of the verification
    function, or an identity that lacks a required scope. *)
Definition raised_by (options : Bearer.BearerAuthMiddlewareOptions)
    (authHeader : option string) (raised : Errors.Throwable) : Prop :=
  (raised = missing /\ Js.truthy authHeader = false)
  \/ (raised = malformed
      /\ exists header, authHeader = Some header
                        /\ forall token, ~ well_formed header token)
  \/ exists header token,
       authHeader = Some header /\ well_formed header token
       /\ (effective_verifyToken options token = Net.Rejected raised
           \/ exists auth,
                effective_verifyToken options token = Net.Resolved auth
                /\ forallb (fun scope => Bearer.includes scope (AuthInfo.scopes auth))
                     (effective_requiredScopes options) = false
                /\ raised = Errors.InsufficientScopeError "Insufficient scope").

(** The part of the challenge header that names the error. *)
Definition insufficient_scope_token : string :=
  "error=" ++ Bearer.quote ++ "insufficient_scope" ++ Bearer.quote.

(* ================================================================== *)
(** * Scenarios *)

(** ** From the specification *)

(** Authorization and token endpoints configured, client [c1]. *)
Definition scenario_options : Proxy.ProxyOptions :=
  Proxy.mkOptions
    (Proxy.mkEndpoints (Some "https://a.example/authorize") (Some "https://a.example/token")
       None None)
    (fun _ => Net.throw (Errors.JsError "Invalid token"))
    (fun _ => Net.ret None).

Definition scenario_client : Client.OAuthClientInformationFull :=
  Client.mk "c1" None ["https://cb"].

Definition scenario_params : AuthorizationParams.AuthorizationParams :=
  AuthorizationParams.mk (Some "xyz") (Some ["read"; "write"]) "abc" "https://cb".

(** Header [Bearer abc123], granted scope [read], required scopes [read]
    and [write]. *)
Definition read_only : AuthInfo.AuthInfo := AuthInfo.mk "abc123" "c1" ["read"] None.

Definition read_write_required : Bearer.BearerAuthMiddlewareOptions :=
  Bearer.mkOptions (Some ["read"; "write"])
    (Bearer.WithVerifyToken (fun _ => Net.Resolved read_only)).

(** ** From the test suite *)

(** Every upstream endpoint configured. *)
Definition test_options : Proxy.ProxyOptions :=
  Proxy.mkOptions
    (Proxy.mkEndpoints (Some "https://auth.example.com/authorize")
       (Some "https://auth.example.com/token")
       (Some "https://auth.example.com/revoke") (Some "https://auth.example.com/register"))
    (fun _ => Net.throw (Errors.JsError "Invalid token"))
    (fun _ => Net.ret None).

(** The same with the authorization URL removed. *)
Definition options_without_authorization : Proxy.ProxyOptions :=
  Proxy.mkOptions
    (Proxy.mkEndpoints None (Some "https://auth.example.com/token")
       (Some "https://auth.example.com/revoke") (Some "https://auth.example.com/register"))
    (fun _ => Net.throw (Errors.JsError "Invalid token"))
    (fun _ => Net.ret None).

(** The verification function: one token is valid, any other makes it
    throw a plain [Error]. *)
Definition test_verifyToken (token : string) : Net.Completion AuthInfo.AuthInfo :=
  if token =? "valid-token"
  then Net.Resolved (AuthInfo.mk token "test-client" ["read"; "write"] None)
  else Net.Rejected (Errors.JsError "Invalid token").

Definition test_middleware : Bearer.BearerAuthMiddlewareOptions :=
  Bearer.mkOptions None (Bearer.WithVerifyToken test_verifyToken).

(** The same function as the [verifyToken] option of a provider. *)
Definition test_verifier {H : Type} (token : string) : Net.Async H AuthInfo.AuthInfo :=
  Net.settle (test_verifyToken token).

(** ** Others *)

(** The issuer of a resource server that mounts the local handlers. *)
Definition local_issuer : Url.URL := Url.mkURL "https:" "mcp.example.com" "/" None None.

(** A lazy provider with a metadata URL and no endpoint of its own. *)
Definition lazy_only_metadata : LazyProxy.ProxyOAuthServerProvider :=
  LazyProxy.mkProvider (Some "https://up.example/.well-known/oauth-authorization-server")
    LazyProxy.no_endpoints (fun _ => Net.throw (Errors.JsError "Invalid token")).

(** An upstream server whose metadata names an authorization endpoint. *)
Definition metadata_server : Net.Request -> Net.Response :=
  answers 200 (Some (Js.JObject
    [("authorization_endpoint", Js.JString "https://up.example/authorize")])).

(** A lazy provider with a token endpoint of its own, and the body of a 2xx
    answer that is no token set. *)
Definition lazy_with_token_endpoint : LazyProxy.ProxyOAuthServerProvider :=
  LazyProxy.mkProvider None
    (LazyProxy.mkEndpoints None (Some "https://auth.example.com/token") None None)
    (fun _ => Net.throw (Errors.JsError "Invalid token")).

Definition not_a_token_set : Js.Json := Js.JObject [("error", Js.JString "invalid_grant")].

(** A metadata document that names its token endpoint in a list, not as
    the string the protocol asks for. *)
Definition listed_token_endpoint : Js.Json :=
  Js.JObject [("token_endpoint", Js.JArray [Js.JString "https://up.example/token"])].

(* ================================================================== *)
(** * Vocabulary of the further properties *)

(** ** Routers *)

(** An issuer the routers accept: https, or a loopback host, and neither a
    fragment nor a query that is not empty. *)
Definition acceptable_issuer (issuer : Url.URL) : Prop :=
  (Url.protocol issuer = "https:"
   \/ Location.hostname issuer = "localhost"
   \/ Location.hostname issuer = "127.0.0.1")
  /\ Js.truthy (Url.fragment issuer) = false
  /\ Js.truthy (Url.query issuer) = false.

(** A route is mounted at [path]. *)
Definition mounted {H : Type} (path : string) (routes : list (string * H)) : Prop :=
  In path (map fst routes).

(** The options of a router for the proxy provider built from [options]. *)
Definition router_options_for (options : Proxy.ProxyOptions) (issuer : Url.URL)
    : AuthRouter.AuthRouterOptions :=
  AuthRouter.mkOptions (Metadata.ProxyInstance (Proxy.new options)) issuer None.

(** The document served by the metadata route, when there is one. *)
Fixpoint served (routes : list AuthRouter.Route) : option Metadata.OAuthMetadata :=
  match routes with
  | [] => None
  | (_, AuthRouter.MetadataHandler m) :: _ => Some m
  | _ :: rest => served rest
  end.

(** The entries of the [endpoints] object of the proxying router. *)
Definition proxied_entries (options : ProxyRouter.ProxyOptions)
    : list (string * option Url.URL) :=
  match ProxyRouter.endpoints options with Some e => e | None => [] end.

(** The route the proxying router mounts for the metadata URL. *)
Definition metadata_proxy (url : Url.URL) : string * ProxyRouter.ProxyMiddleware :=
  ("/.well-known/oauth-authorization-server",
   ProxyRouter.mkProxy (Location.origin url) true
     (Some ("^/.well-known/oauth-authorization-server",
            "/.well-known/oauth-authorization-server"))).

(** The route it mounts for an endpoint. *)
Definition endpoint_proxy (key : string) (url : Url.URL)
    : string * ProxyRouter.ProxyMiddleware :=
  ("/" ++ key, ProxyRouter.mkProxy (Location.origin url) true None).

(** ** Requests *)

(** An async function that leaves the world as it found it. *)
Definition sends_nothing {H A : Type} (op : Net.Async H A) : Prop :=
  forall w, snd (op w) = w.

(** An async function that sends nothing, or one POST to the endpoint
    [url], which is then a non-empty text. *)
Definition posts_at_most_once_to {H A : Type} (url : option string) (op : Net.Async H A)
    : Prop :=
  forall w,
    Net.sent (snd (op w)) = Net.sent w
    \/ exists request,
         Net.sent (snd (op w)) = (Net.sent w ++ [request])%list
         /\ Net.req_method request = "POST"
         /\ url = Some (Net.req_url request)
         /\ Net.req_url request <> "".

(** The value of the form field [name] of a request. *)
Definition form_field (name : string) (request : Net.Request) : option string :=
  match Net.req_body request with
  | Net.FormBody entries =>
      option_map snd (find (fun kv => fst kv =? name) entries)
  | _ => None
  end.

(** The names of the form fields of a request, in order. *)
Definition form_names (request : Net.Request) : list string :=
  match Net.req_body request with
  | Net.FormBody entries => map fst entries
  | _ => []
  end.

(** How an exchange ends once the token endpoint has answered: the parsed
    token set for a 2xx answer that the schema accepts, and an error
    otherwise. *)
Definition token_outcome (prefix : string) (response : Net.Response)
    : Net.Completion Tokens.OAuthTokens :=
  if Net.ok response
  then match Net.body response with
       | None => Net.Rejected Errors.SyntaxError
       | Some data =>
           match Tokens.OAuthTokensSchema_parse data with
           | Some tokens => Net.Resolved tokens
           | None => Net.Rejected Errors.ZodError
           end
       end
  else Net.Rejected (Errors.ServerError (prefix ++ Js.string_of_N (Net.status response))).

(** The request of an authorization-code exchange. *)
Definition code_request (url : string) (client : Client.OAuthClientInformationFull)
    (code : string) : Net.Request :=
  Net.post_form url
    [("grant_type", "authorization_code");
     ("client_id", Client.client_id client);
     ("client_secret", Js.or_empty (Client.client_secret client));
     ("code", code)].


(** The world after one more request. *)
Definition after_request {H : Type} (w : Net.World H) (request : Net.Request) (h : H)
    : Net.World H :=
  Net.mkWorld (Net.upstream w) (Net.sent w ++ [request]) h.

(** The request for the metadata document. *)
Definition metadata_request (this : LazyProxy.ProxyOAuthServerProvider) : Net.Request :=
  Net.get (Js.or_empty (LazyProxy._metadataUrl this)).

(** What a failed metadata fetch makes every operation reject with. *)
Definition metadata_failure (response : Net.Response) : Errors.Throwable :=
  if Net.ok response then Errors.SyntaxError
  else Errors.ServerError
         ("Failed to fetch OAuth metadata: " ++ Js.string_of_N (Net.status response)).

(** Two calls of [getMetadata], one after the other. *)
Definition getMetadata_twice (this : LazyProxy.ProxyOAuthServerProvider)
    : LazyProxy.Task (option Js.Json) :=
  Net.bind (LazyProxy.getMetadata this) (fun _ => LazyProxy.getMetadata this).


(** ** Interleavings *)

(** The number of calls suspended at [await fetch]. *)
Definition awaiting_fetch (calls : list Interleaving.Pc) : nat :=
  List.length
    (filter (fun pc => match pc with Interleaving.AwaitingFetch => true | _ => false end) calls).

(** The number of invocations in a schedule. *)
Definition invocations (schedule : list Interleaving.Event) : nat :=
  List.length
    (filter (fun e => match e with Interleaving.Invoke => true | _ => false end) schedule).

(** What holds of the counters whatever the schedule: every unanswered
    request belongs to a call suspended at [fetch], and no call has sent
    more than one request. *)
Definition counters_consistent (s : Interleaving.System) : Prop :=
  Interleaving.in_flight s = awaiting_fetch (Interleaving.calls s)
  /\ Interleaving.in_flight s <= Interleaving.issued s
  /\ Interleaving.issued s <= List.length (Interleaving.calls s).

(** ** Scenarios *)

(** The token response of the test suite. *)
Definition test_token_response : Js.Json :=
  Js.JObject [("access_token", Js.JString "new-access-token");
              ("token_type", Js.JString "Bearer");
              ("expires_in", Js.JNumber 3600);
              ("refresh_token", Js.JString "new-refresh-token")].

(** The client of the test suite. *)
Definition test_client : Client.OAuthClientInformationFull :=
  Client.mk "test-client" (Some "test-secret") ["https://example.com/callback"].

(* ================================================================== *)
(** * Basic facts *)

Lemma truthy_spec (o : option string) :
  Js.truthy o = true <-> exists s, o = Some s /\ s <> "".
Proof.
  destruct o as [s|]; simpl.
  - rewrite negb_true_iff. split.
    + intros E. exists s. split; [reflexivity|]. now apply String.eqb_neq.
    + intros (s' & [= <-] & N). now apply String.eqb_neq.
  - split; [discriminate|]. now intros (s & E & _).
Qed.

Lemma truthy_some (o : option string) :
  Js.truthy o = true -> o = Some (Js.or_empty o).
Proof. destruct o; simpl; [reflexivity | discriminate]. Qed.

(** The decimal rendering of a status code determines the code. *)
Lemma string_of_N_inj (a b : N) : Js.string_of_N a = Js.string_of_N b -> a = b.
Proof.
  unfold Js.string_of_N. intros E.
  apply (f_equal NilEmpty.uint_of_string) in E.
  rewrite !NilEmpty.usu in E. injection E as E.
  apply (f_equal N.of_uint) in E.
  now rewrite !DecimalN.Unsigned.of_to in E.
Qed.

Lemma not_ok_iff (r : Net.Response) :
  Net.ok r = false <-> (Net.status r < 200 \/ 299 < Net.status r)%N.
Proof.
  unfold Net.ok. rewrite andb_false_iff, !N.leb_gt. tauto.
Qed.

(** Running an async function: unfold the monad and compute. *)
Ltac run_async :=
  unfold Net.bind, Net.ret, Net.throw, Net.fetch, Net.json, Net.get_heap,
    Net.set_heap, Net.settle; simpl.

(* ================================================================== *)
(** * Non-2xx upstream responses *)

Lemma exchangeAuthorizationCode_surfaces this client code url :
  Proxy.tokenUrl (Proxy._endpoints this) = Some url -> url <> "" ->
  surfaces_upstream_failure (Proxy.exchangeAuthorizationCode this client code)
    url "Token exchange failed: ".
Proof.
  intros E N w. unfold Proxy.exchangeAuthorizationCode, Proxy.require.
  rewrite E. simpl. apply String.eqb_neq in N. rewrite N. run_async.
  eexists. split; [|split].
  2:{ destruct (Net.ok _); [|reflexivity].
      destruct (Net.body _); simpl; [|reflexivity].
      now destruct (Tokens.OAuthTokensSchema_parse _). }
  - reflexivity.
  - intros F. now rewrite F.
Qed.

Lemma exchangeRefreshToken_surfaces this client refreshToken scopes url :
  Proxy.tokenUrl (Proxy._endpoints this) = Some url -> url <> "" ->
  surfaces_upstream_failure (Proxy.exchangeRefreshToken this client refreshToken scopes)
    url "Token refresh failed: ".
Proof.
  intros E N w. unfold Proxy.exchangeRefreshToken, Proxy.require.
  rewrite E. simpl. apply String.eqb_neq in N. rewrite N. run_async.
  eexists. split; [|split].
  2:{ destruct (Net.ok _); [|reflexivity].
      destruct (Net.body _); simpl; [|reflexivity].
      now destruct (Tokens.OAuthTokensSchema_parse _). }
  - reflexivity.
  - intros F. now rewrite F.
Qed.

Lemma revokeToken_body_surfaces endpoints client request url :
  Proxy.revocationUrl endpoints = Some url -> url <> "" ->
  surfaces_upstream_failure (Proxy.revokeToken_body endpoints client request)
    url "Token revocation failed: ".
Proof.
  intros E N w. unfold Proxy.revokeToken_body, Proxy.require.
  rewrite E. simpl. apply String.eqb_neq in N. rewrite N. run_async.
  eexists. split; [|split].
  2:{ now destruct (Net.ok _). }
  - reflexivity.
  - intros F. now rewrite F.
Qed.

Lemma registerClient_body_surfaces url client :
  surfaces_upstream_failure (Proxy.registerClient_body url client)
    url "Client registration failed: ".
Proof.
  intros w. unfold Proxy.registerClient_body. run_async.
  eexists. split; [|split].
  2:{ destruct (Net.ok _); [|reflexivity]. now destruct (Net.body _). }
  - reflexivity.
  - intros F. now rewrite F.
Qed.

(** C1. With the endpoint configured, each proxied call of the provider
    (code exchange, refresh, revocation, registration) sends one request to
    that endpoint, and any non-2xx answer makes the call reject with a
    [ServerError] whose message is the operation's prefix followed by the
    decimal status the upstream server answered with; a rejected call is not
    a success, and the message determines the status. *)
Theorem upstream_failure_carries_status
    (options : Proxy.ProxyOptions) (client : Client.OAuthClientInformationFull)
    (code refreshToken : string) (scopes : option (list string))
    (request : Revocation.OAuthTokenRevocationRequest) :
  (forall url, Proxy.tokenUrl (Proxy.endpoints options) = Some url -> url <> "" ->
     surfaces_upstream_failure
       (Proxy.exchangeAuthorizationCode (Proxy.new options) client code)
       url "Token exchange failed: "
     /\ surfaces_upstream_failure
       (Proxy.exchangeRefreshToken (Proxy.new options) client refreshToken scopes)
       url "Token refresh failed: ")
  /\ (forall url, Proxy.revocationUrl (Proxy.endpoints options) = Some url -> url <> "" ->
     exists revoke, Proxy.revokeToken (Proxy.new options) = Some revoke
       /\ surfaces_upstream_failure (revoke client request) url "Token revocation failed: ")
  /\ (forall url, Proxy.registrationUrl (Proxy.endpoints options) = Some url -> url <> "" ->
     exists register,
       Proxy.registerClient (Proxy.clientsStore (Proxy.new options)) = Some register
       /\ surfaces_upstream_failure (register client) url "Client registration failed: ")
  /\ (forall a b, Js.string_of_N a = Js.string_of_N b -> a = b).
Proof.
  repeat split.
  - now apply exchangeAuthorizationCode_surfaces.
  - now apply exchangeRefreshToken_surfaces.
  - intros url E N. simpl. rewrite E. simpl.
    apply String.eqb_neq in N as N'. rewrite N'. simpl.
    eexists. split; [reflexivity|]. now apply revokeToken_body_surfaces.
  - intros url E N. simpl. rewrite E. simpl.
    apply String.eqb_neq in N as N'. rewrite N'. simpl.
    eexists. split; [reflexivity|]. apply registerClient_body_surfaces.
  - apply string_of_N_inj.
Qed.

(** The scenario of the specification: the token endpoint answers 400 and
    the exchange rejects with the error that carries 400. *)
Lemma upstream_failure_carries_status_witness :
  fst (Proxy.exchangeAuthorizationCode (Proxy.new scenario_options) scenario_client "code"
         (Proxy.start (answers 400 None)))
  = Net.Rejected (Errors.ServerError "Token exchange failed: 400").
Proof.
  destruct (upstream_failure_carries_status scenario_options scenario_client "code" "refresh"
              None (Revocation.mk "t" None)) as [Htoken _].
  destruct (Htoken "https://a.example/token" eq_refl ltac:(discriminate)) as [Hexchange _].
  destruct (Hexchange (Proxy.start (answers 400 None))) as (request & _ & _ & Hfail).
  exact (Hfail eq_refl).
Defined.

(* ================================================================== *)
(** * Unconfigured endpoints *)

Lemma require_missing (url : option string) (msg : string) (w : Net.World unit) :
  Js.truthy url = false -> Proxy.require url msg w = (Net.Rejected (Errors.JsError msg), w).
Proof. intros E. unfold Proxy.require. now rewrite E. Qed.

Lemma authorize_unconfigured this client params w :
  Js.truthy (Proxy.authorizationUrl (Proxy._endpoints this)) = false ->
  Proxy.authorize this client params w
  = (Net.Rejected (Errors.JsError "No authorization endpoint configured"), w).
Proof.
  intros E. unfold Proxy.authorize, Net.bind. now rewrite require_missing.
Qed.

Lemma exchangeAuthorizationCode_unconfigured this client code w :
  Js.truthy (Proxy.tokenUrl (Proxy._endpoints this)) = false ->
  Proxy.exchangeAuthorizationCode this client code w
  = (Net.Rejected (Errors.JsError "No token endpoint configured"), w).
Proof.
  intros E. unfold Proxy.exchangeAuthorizationCode, Net.bind. now rewrite require_missing.
Qed.

Lemma exchangeRefreshToken_unconfigured this client refreshToken scopes w :
  Js.truthy (Proxy.tokenUrl (Proxy._endpoints this)) = false ->
  Proxy.exchangeRefreshToken this client refreshToken scopes w
  = (Net.Rejected (Errors.JsError "No token endpoint configured"), w).
Proof.
  intros E. unfold Proxy.exchangeRefreshToken, Net.bind. now rewrite require_missing.
Qed.

Lemma revokeToken_body_unconfigured endpoints client request w :
  Js.truthy (Proxy.revocationUrl endpoints) = false ->
  Proxy.revokeToken_body endpoints client request w
  = (Net.Rejected (Errors.JsError "No revocation endpoint configured"), w).
Proof.
  intros E. unfold Proxy.revokeToken_body, Net.bind. now rewrite require_missing.
Qed.

(** What [getMetadata] sends: nothing when no metadata URL is set or the
    metadata is cached, and otherwise the one GET of the metadata URL. *)
Lemma getMetadata_sent this (w : Net.World (option Js.Json)) :
  (Js.truthy (LazyProxy._metadataUrl this) = false
   \/ LazyProxy.truthy_metadata (Net.heap w) = true ->
   Net.sent (snd (LazyProxy.getMetadata this w)) = Net.sent w)
  /\ (Js.truthy (LazyProxy._metadataUrl this) = true ->
      LazyProxy.truthy_metadata (Net.heap w) = false ->
      Net.sent (snd (LazyProxy.getMetadata this w))
      = (Net.sent w ++ [Net.get (Js.or_empty (LazyProxy._metadataUrl this))])%list).
Proof.
  unfold LazyProxy.getMetadata. split.
  - intros [E|E].
    + now rewrite E.
    + destruct (Js.truthy _); [|reflexivity]. run_async. now rewrite E.
  - intros E1 E2. rewrite E1. run_async. rewrite E2. simpl.
    destruct (Net.ok _); [|reflexivity]. now destruct (Net.body _).
Qed.

Lemma lazy_require_missing (url : option Js.Json) (msg : string) w :
  LazyProxy.truthy_metadata url = false ->
  LazyProxy.require url msg w = (Net.Rejected (Errors.JsError msg), w).
Proof.
  intros E. unfold LazyProxy.require. destruct url as [value|]; [|reflexivity].
  simpl in E. now rewrite E.
Qed.

Lemma lazy_require_truthy (url : option Js.Json) (msg : string) w :
  LazyProxy.truthy_metadata url = true ->
  exists value, url = Some value /\ LazyProxy.truthy_json value = true
                /\ LazyProxy.require url msg w = (Net.Resolved value, w).
Proof.
  intros E. destruct url as [value|]; [|discriminate]. exists value.
  simpl in E. unfold LazyProxy.require. now rewrite E.
Qed.

(** [a || b] is truthy exactly when one of the two is. *)
Lemma endpoint_truthy (explicit : option string) (key : string) (metadata : option Js.Json) :
  LazyProxy.truthy_metadata (LazyProxy.endpoint explicit key metadata)
  = Js.truthy explicit || LazyProxy.truthy_metadata (LazyProxy.property key metadata).
Proof.
  unfold LazyProxy.endpoint. destruct (Js.truthy explicit) eqn:T; [|reflexivity].
  destruct explicit as [url|]; [|discriminate]. exact T.
Qed.

Lemma endpoint_falsy explicit key metadata :
  Js.truthy explicit = false ->
  LazyProxy.truthy_metadata (LazyProxy.property key metadata) = false ->
  LazyProxy.truthy_metadata (LazyProxy.endpoint explicit key metadata) = false.
Proof. intros E P. now rewrite endpoint_truthy, E, P. Qed.

Lemma endpoint_usable explicit key metadata :
  Js.truthy explicit = true
  \/ LazyProxy.truthy_metadata (LazyProxy.property key metadata) = true ->
  LazyProxy.truthy_metadata (LazyProxy.endpoint explicit key metadata) = true.
Proof. intros [E|E]; rewrite endpoint_truthy, E; [reflexivity | apply orb_true_r]. Qed.


Lemma lazy_authorize_stops this client params :
  stops_after_metadata this (LazyProxy.authorize this client params)
    (LazyProxy.authorizationUrl (LazyProxy._endpoints this))
    "authorization_endpoint" "No authorization endpoint configured".
Proof.
  intros w metadata w' G. unfold LazyProxy.authorize, Net.bind. rewrite G. split.
  - intros E P. now rewrite lazy_require_missing by now apply endpoint_falsy.
  - intros T. apply endpoint_usable in T.
    destruct (lazy_require_truthy _ "No authorization endpoint configured" w' T)
      as (value & _ & _ & ->).
    now destruct (Url.URL_parse _).
Qed.

Lemma lazy_exchangeAuthorizationCode_stops this client code :
  stops_after_metadata this (LazyProxy.exchangeAuthorizationCode this client code)
    (LazyProxy.tokenUrl (LazyProxy._endpoints this))
    "token_endpoint" "No token endpoint configured".
Proof.
  intros w metadata w' G. unfold LazyProxy.exchangeAuthorizationCode, Net.bind.
  rewrite G. split.
  - intros E P. now rewrite lazy_require_missing by now apply endpoint_falsy.
  - intros T. apply endpoint_usable in T.
    destruct (lazy_require_truthy _ "No token endpoint configured" w' T)
      as (value & _ & _ & ->).
    run_async. destruct (Net.ok _); [|discriminate]. now destruct (Net.body _).
Qed.

Lemma lazy_exchangeRefreshToken_stops this client refreshToken scopes :
  stops_after_metadata this (LazyProxy.exchangeRefreshToken this client refreshToken scopes)
    (LazyProxy.tokenUrl (LazyProxy._endpoints this))
    "token_endpoint" "No token endpoint configured".
Proof.
  intros w metadata w' G. unfold LazyProxy.exchangeRefreshToken, Net.bind.
  rewrite G. split.
  - intros E P. now rewrite lazy_require_missing by now apply endpoint_falsy.
  - intros T. apply endpoint_usable in T.
    destruct (lazy_require_truthy _ "No token endpoint configured" w' T)
      as (value & _ & _ & ->).
    run_async. destruct (Net.ok _); [|discriminate]. now destruct (Net.body _).
Qed.

Lemma lazy_revokeToken_stops this client request :
  stops_after_metadata this (LazyProxy.revokeToken this client request)
    (LazyProxy.revokeUrl (LazyProxy._endpoints this))
    "revocation_endpoint" "No revocation endpoint configured".
Proof.
  intros w metadata w' G. unfold LazyProxy.revokeToken, Net.bind.
  rewrite G. split.
  - intros E P. now rewrite lazy_require_missing by now apply endpoint_falsy.
  - intros T. apply endpoint_usable in T.
    destruct (lazy_require_truthy _ "No revocation endpoint configured" w' T)
      as (value & _ & _ & ->).
    run_async. now destruct (Net.ok _).
Qed.

(** C2, as stated, fails: the lazy provider has no authorization endpoint
    configured, [authorize] fails with the configuration error, and a
    request to the upstream server is observed on that path. *)
Lemma unconfigured_lazy_authorize_fetches :
  let run := LazyProxy.authorize lazy_only_metadata scenario_client scenario_params
               (LazyProxy.start (answers 200 (Some (Js.JObject [])))) in
  fst run = Net.Rejected (Errors.JsError "No authorization endpoint configured")
  /\ Net.sent (snd run)
     = [Net.get "https://up.example/.well-known/oauth-authorization-server"]
  /\ Net.sent (snd run) <> [].
Proof. repeat split. discriminate. Qed.

(** C2, amended. In the provider with configured endpoints, an operation
    whose endpoint is missing (or empty) rejects with the plain error
    "No ... endpoint configured" and leaves the world as it was: no request
    is sent (a provider built without a revocation URL has no [revokeToken]
    to call at all). In the lazy provider the operation first runs [getMetadata];
    when that resolves, no non-empty URL is configured and the metadata
    holds no truthy value under the endpoint's name, the operation rejects
    with the same error in the world [getMetadata] left, so the only request
    that can precede the failure is the GET of the metadata URL, and there
    is none when no metadata URL is set or the metadata is already cached.
    A truthy value in the metadata, of whatever type, is taken for the
    endpoint: the operation then does not fail with that error. *)
Theorem unconfigured_endpoint_fails_before_endpoint_call :
  (forall this client params code refreshToken scopes (w : Net.World unit),
     (Js.truthy (Proxy.authorizationUrl (Proxy._endpoints this)) = false ->
      Proxy.authorize this client params w
      = (Net.Rejected (Errors.JsError "No authorization endpoint configured"), w))
     /\ (Js.truthy (Proxy.tokenUrl (Proxy._endpoints this)) = false ->
         Proxy.exchangeAuthorizationCode this client code w
         = (Net.Rejected (Errors.JsError "No token endpoint configured"), w)
         /\ Proxy.exchangeRefreshToken this client refreshToken scopes w
            = (Net.Rejected (Errors.JsError "No token endpoint configured"), w)))
  /\ (forall endpoints client request (w : Net.World unit),
        Js.truthy (Proxy.revocationUrl endpoints) = false ->
        Proxy.revokeToken_body endpoints client request w
        = (Net.Rejected (Errors.JsError "No revocation endpoint configured"), w))
  /\ (forall options,
        Js.truthy (Proxy.revocationUrl (Proxy.endpoints options)) = false ->
        Proxy.revokeToken (Proxy.new options) = None)
  /\ (forall this client params code refreshToken scopes request,
        stops_after_metadata this (LazyProxy.authorize this client params)
          (LazyProxy.authorizationUrl (LazyProxy._endpoints this))
          "authorization_endpoint" "No authorization endpoint configured"
        /\ stops_after_metadata this (LazyProxy.exchangeAuthorizationCode this client code)
          (LazyProxy.tokenUrl (LazyProxy._endpoints this))
          "token_endpoint" "No token endpoint configured"
        /\ stops_after_metadata this
          (LazyProxy.exchangeRefreshToken this client refreshToken scopes)
          (LazyProxy.tokenUrl (LazyProxy._endpoints this))
          "token_endpoint" "No token endpoint configured"
        /\ stops_after_metadata this (LazyProxy.revokeToken this client request)
          (LazyProxy.revokeUrl (LazyProxy._endpoints this))
          "revocation_endpoint" "No revocation endpoint configured")
  /\ (forall this (w : Net.World (option Js.Json)),
        (Js.truthy (LazyProxy._metadataUrl this) = false
         \/ LazyProxy.truthy_metadata (Net.heap w) = true ->
         Net.sent (snd (LazyProxy.getMetadata this w)) = Net.sent w)
        /\ (Js.truthy (LazyProxy._metadataUrl this) = true ->
            LazyProxy.truthy_metadata (Net.heap w) = false ->
            Net.sent (snd (LazyProxy.getMetadata this w))
            = (Net.sent w ++ [Net.get (Js.or_empty (LazyProxy._metadataUrl this))])%list)).
Proof.
  split; [|split; [|split; [|split]]].
  - intros. split; [|intros E; split].
    + apply authorize_unconfigured.
    + now apply exchangeAuthorizationCode_unconfigured.
    + now apply exchangeRefreshToken_unconfigured.
  - intros. now apply revokeToken_body_unconfigured.
  - intros options E. simpl. now rewrite E.
  - intros. split; [|split; [|split]].
    + apply lazy_authorize_stops.
    + apply lazy_exchangeAuthorizationCode_stops.
    + apply lazy_exchangeRefreshToken_stops.
    + apply lazy_revokeToken_stops.
  - apply getMetadata_sent.
Qed.

(** The test suite's provider without an authorization URL sends nothing;
    the lazy provider has fetched the metadata when it fails; and when the
    metadata names the token endpoint in a list, the exchange does not fail
    for want of an endpoint. *)
Lemma unconfigured_endpoint_fails_before_endpoint_call_witness :
  Proxy.authorize (Proxy.new options_without_authorization) scenario_client scenario_params
    (Proxy.start (answers 200 None))
  = (Net.Rejected (Errors.JsError "No authorization endpoint configured"),
     Proxy.start (answers 200 None))
  /\ LazyProxy.authorize lazy_only_metadata scenario_client scenario_params
       (LazyProxy.start (answers 200 (Some (Js.JObject []))))
     = (Net.Rejected (Errors.JsError "No authorization endpoint configured"),
        Net.mkWorld (answers 200 (Some (Js.JObject [])))
          [Net.get "https://up.example/.well-known/oauth-authorization-server"]
          (Some (Js.JObject [])))
  /\ fst (LazyProxy.exchangeAuthorizationCode lazy_only_metadata scenario_client "code"
            (LazyProxy.start (answers 200 (Some listed_token_endpoint))))
     <> Net.Rejected (Errors.JsError "No token endpoint configured").
Proof.
  destruct unconfigured_endpoint_fails_before_endpoint_call
    as (Hstatic & _ & _ & Hlazy & _).
  split; [|split].
  - destruct (Hstatic (Proxy.new options_without_authorization) scenario_client
                scenario_params "code" "refresh" None (Proxy.start (answers 200 None)))
      as [Hauthorize _].
    exact (Hauthorize eq_refl).
  - destruct (Hlazy lazy_only_metadata scenario_client scenario_params "code" "refresh" None
                (Revocation.mk "t" None)) as [Hauthorize _].
    exact (proj1 (Hauthorize (LazyProxy.start (answers 200 (Some (Js.JObject []))))
                    (Some (Js.JObject []))
                    (Net.mkWorld (answers 200 (Some (Js.JObject [])))
                       [Net.get "https://up.example/.well-known/oauth-authorization-server"]
                       (Some (Js.JObject [])))
                    eq_refl) eq_refl eq_refl).
  - destruct (Hlazy lazy_only_metadata scenario_client scenario_params "code" "refresh" None
                (Revocation.mk "t" None)) as (_ & Hexchange & _).
    exact (proj2 (Hexchange (LazyProxy.start (answers 200 (Some listed_token_endpoint)))
                    (Some listed_token_endpoint)
                    (Net.mkWorld (answers 200 (Some listed_token_endpoint))
                       [Net.get "https://up.example/.well-known/oauth-authorization-server"]
                       (Some listed_token_endpoint))
                    eq_refl) (or_intror eq_refl)).
Defined.

(* ================================================================== *)
(** * Optional capabilities *)

(** C3. The provider built from any options has [revokeToken] exactly when
    the options carry a revocation URL (a non-empty string), and its clients
    store has [registerClient] exactly when they carry a registration URL;
    otherwise the member is missing, not a function that does nothing. *)
Theorem capability_iff_url_configured (options : Proxy.ProxyOptions) :
  (Proxy.revokeToken (Proxy.new options) <> None
   <-> exists url, Proxy.revocationUrl (Proxy.endpoints options) = Some url /\ url <> "")
  /\ (Proxy.registerClient (Proxy.clientsStore (Proxy.new options)) <> None
      <-> exists url, Proxy.registrationUrl (Proxy.endpoints options) = Some url /\ url <> "")
  /\ (Proxy.revokeToken (Proxy.new options) = None
      <-> Js.truthy (Proxy.revocationUrl (Proxy.endpoints options)) = false)
  /\ (Proxy.registerClient (Proxy.clientsStore (Proxy.new options)) = None
      <-> Js.truthy (Proxy.registrationUrl (Proxy.endpoints options)) = false).
Proof.
  rewrite <- !truthy_spec. simpl.
  destruct (Js.truthy (Proxy.revocationUrl _)), (Js.truthy (Proxy.registrationUrl _));
    repeat split; intros; try congruence; try discriminate.
Qed.

(* ================================================================== *)
(** * Endpoint advertisement *)

Lemma href_nonempty (u : Url.URL) : Url.href u <> "".
Proof. unfold Url.href. destruct (Url.protocol u); discriminate. Qed.

(** Resolving a local path keeps the issuer's scheme and host and nothing
    else. *)
Lemma href_resolve (path : string) (issuer : Url.URL) :
  Url.href (Url.URL_resolve path issuer)
  = Url.protocol issuer ++ "//" ++ Url.host issuer ++ path.
Proof.
  unfold Url.href. simpl.
  assert (E : forall s, s ++ "" = s) by (induction s; simpl; congruence).
  now rewrite !E.
Qed.

Lemma truthy_advertised explicit localPath issuer :
  Js.truthy (Some (advertised explicit localPath issuer)) = true.
Proof.
  unfold advertised. apply truthy_spec. eexists. split; [reflexivity|].
  destruct explicit as [url|]; [destruct (String.eqb_spec url "")|];
    auto using href_nonempty.
Qed.

Lemma has_property_optional key k v rest :
  Metadata.has_property key (Metadata.optional_property k v ++ rest)
  = (match v with Some _ => k =? key | None => false end) || Metadata.has_property key rest.
Proof. destruct v; simpl; [reflexivity|reflexivity]. Qed.

(** What both handlers agree on: the three optional properties are sent
    exactly when the matching field is set. *)
Lemma document_optional (m : Metadata.OAuthMetadata) :
  Metadata.has_property "revocation_endpoint" (Metadata.document m)
  = Js.is_some (Metadata.revocation_endpoint m)
  /\ Metadata.has_property "revocation_endpoint_auth_methods_supported" (Metadata.document m)
     = Js.is_some (Metadata.revocation_endpoint_auth_methods_supported m)
  /\ Metadata.has_property "registration_endpoint" (Metadata.document m)
     = Js.is_some (Metadata.registration_endpoint m).
Proof.
  unfold Metadata.document.
  destruct (Metadata.service_documentation m), (Metadata.revocation_endpoint m),
    (Metadata.revocation_endpoint_auth_methods_supported m),
    (Metadata.registration_endpoint m); repeat split.
Qed.

Section Advertisement.

Variable provider : Metadata.OAuthServerProvider.
Variable issuer : Url.URL.
Variable documentation : option Url.URL.

Lemma metadataHandler_fields :
  let m := Metadata.metadataHandler provider issuer documentation in
  Metadata.authorization_endpoint m
  = advertised (Metadata.authorizationUrl provider) "/authorize" issuer
  /\ Metadata.token_endpoint m = advertised (Metadata.tokenUrl provider) "/token" issuer
  /\ Metadata.revocation_endpoint m
     = (if Metadata.has_revokeToken provider
        then Some (advertised (Metadata.revocationUrl provider) "/revoke" issuer)
        else None)
  /\ Metadata.revocation_endpoint_auth_methods_supported m
     = (if Metadata.has_revokeToken provider then Some ["client_secret_post"] else None)
  /\ Metadata.registration_endpoint m
     = (if Metadata.has_registerClient provider
        then Some (advertised (Metadata.registrationUrl provider) "/register" issuer)
        else None).
Proof.
  assert (A : forall explicit path,
             (if Metadata.isProxy provider && Js.truthy explicit
              then Js.or_empty explicit
              else Url.href (Url.URL_resolve path issuer))
             = advertised explicit path issuer
             \/ (Metadata.isProxy provider = false /\ explicit <> None)).
  { intros [url|] path; unfold advertised; simpl.
    - destruct (Metadata.isProxy provider); simpl.
      + left. now destruct (url =? "").
      + right. split; [reflexivity | discriminate].
    - left. now rewrite andb_false_r. }
  assert (B : forall explicit path,
             (if Metadata.isProxy provider && Js.truthy explicit
              then explicit
              else Some (Url.href (Url.URL_resolve path issuer)))
             = Some (advertised explicit path issuer)
             \/ (Metadata.isProxy provider = false /\ explicit <> None)).
  { intros [url|] path; unfold advertised; simpl.
    - destruct (Metadata.isProxy provider); simpl.
      + left. now destruct (url =? "").
      + right. split; [reflexivity | discriminate].
    - left. now rewrite andb_false_r. }
  assert (O : forall getter, Metadata.isProxy provider = false ->
              (getter = Metadata.authorizationUrl provider \/ getter = Metadata.tokenUrl provider
               \/ getter = Metadata.revocationUrl provider
               \/ getter = Metadata.registrationUrl provider) -> getter = None).
  { intros getter P. destruct provider; [discriminate|].
    simpl. intros [-> | [-> | [-> | ->]]]; reflexivity. }
  simpl. unfold Metadata.metadataHandler. simpl.
  repeat split.
  - destruct (A (Metadata.authorizationUrl provider) Router.DEFAULT_AUTHORIZATION_ENDPOINT)
      as [E | [P N]]; [exact E|]. exfalso. apply N, O; auto.
  - destruct (A (Metadata.tokenUrl provider) Router.DEFAULT_TOKEN_ENDPOINT)
      as [E | [P N]]; [exact E|]. exfalso. apply N, O; auto.
  - destruct (Metadata.has_revokeToken provider); [|reflexivity].
    destruct (B (Metadata.revocationUrl provider) Router.DEFAULT_REVOCATION_ENDPOINT)
      as [E | [P N]]; [exact E|]. exfalso. apply N, O; auto.
  - destruct (Metadata.has_revokeToken provider); [|reflexivity].
    destruct (B (Metadata.revocationUrl provider) Router.DEFAULT_REVOCATION_ENDPOINT)
      as [E | [P N]]; [|exfalso; apply N, O; auto].
    rewrite E. now rewrite truthy_advertised.
  - destruct (Metadata.has_registerClient provider); [|reflexivity].
    destruct (B (Metadata.registrationUrl provider) Router.DEFAULT_REGISTRATION_ENDPOINT)
      as [E | [P N]]; [exact E|]. exfalso. apply N, O; auto.
Qed.

Lemma local_metadataHandler_fields :
  let m := LocalMetadata.metadataHandler provider issuer documentation in
  Metadata.authorization_endpoint m = advertised None "/authorize" issuer
  /\ Metadata.token_endpoint m = advertised None "/token" issuer
  /\ Metadata.revocation_endpoint m
     = (if Metadata.has_revokeToken provider
        then Some (advertised None "/revoke" issuer) else None)
  /\ Metadata.revocation_endpoint_auth_methods_supported m
     = (if Metadata.has_revokeToken provider then Some ["client_secret_post"] else None)
  /\ Metadata.registration_endpoint m
     = (if Metadata.has_registerClient provider
        then Some (advertised None "/register" issuer) else None).
Proof. repeat split. Qed.

(** The router that assembles the metadata itself produces what the
    proxy-aware handler produces. *)
Lemma router_metadata_agrees :
  RouterMetadata.metadata provider issuer documentation
  = Metadata.metadataHandler provider issuer documentation.
Proof.
  unfold RouterMetadata.metadata, Metadata.metadataHandler, RouterMetadata.getEndpointUrl,
    Js.or_else, Js.truthy, Router.DEFAULT_AUTHORIZATION_ENDPOINT, Router.DEFAULT_TOKEN_ENDPOINT,
    Router.DEFAULT_REVOCATION_ENDPOINT, Router.DEFAULT_REGISTRATION_ENDPOINT.
  pose proof (href_nonempty (Url.URL_resolve "/authorize" issuer)) as NA.
  pose proof (href_nonempty (Url.URL_resolve "/token" issuer)) as NT.
  pose proof (href_nonempty (Url.URL_resolve "/revoke" issuer)) as NR.
  apply String.eqb_neq in NA, NT, NR.
  destruct provider as [p | r c]; simpl.
  - destruct (Proxy.revokeToken p) as [revoke|],
      (Proxy.registrationUrl (Proxy._endpoints p)) as [g|],
      (Proxy.authorizationUrl (Proxy._endpoints p)) as [a|],
      (Proxy.tokenUrl (Proxy._endpoints p)) as [k|],
      (Proxy.revocationUrl (Proxy._endpoints p)) as [v|]; simpl;
      try destruct (g =? "") eqn:Eg; try destruct (a =? "") eqn:Ea;
      try destruct (k =? "") eqn:Ek; try destruct (v =? "") eqn:Ev;
      simpl; rewrite ?NA, ?NT, ?NR;
      try rewrite Eg; try rewrite Ea; try rewrite Ek; try rewrite Ev;
      simpl; rewrite ?NA, ?NT, ?NR; reflexivity.
  - rewrite NA, NT. destruct r, c; simpl; rewrite ?NR; reflexivity.
Qed.

(** C4, amended. The handler that recognises the proxy class advertises,
    for each endpoint, the proxy's upstream URL verbatim when it is a
    non-empty string and otherwise the local path resolved against the
    issuer (the issuer's scheme and host followed by the path); the handler
    written against the provider contract alone advertises the resolved
    local path for every endpoint. In both, the revocation endpoint and its
    auth-methods field are set, and sent in the document, exactly when the
    provider has [revokeToken], and the registration endpoint exactly when
    the clients store has [registerClient]. *)
Theorem metadata_endpoint_advertisement :
  let m := Metadata.metadataHandler provider issuer documentation in
  let l := LocalMetadata.metadataHandler provider issuer documentation in
  (Metadata.authorization_endpoint m
   = advertised (Metadata.authorizationUrl provider) "/authorize" issuer
   /\ Metadata.token_endpoint m = advertised (Metadata.tokenUrl provider) "/token" issuer
   /\ Metadata.revocation_endpoint m
      = (if Metadata.has_revokeToken provider
         then Some (advertised (Metadata.revocationUrl provider) "/revoke" issuer)
         else None)
   /\ Metadata.registration_endpoint m
      = (if Metadata.has_registerClient provider
         then Some (advertised (Metadata.registrationUrl provider) "/register" issuer)
         else None))
  /\ (Metadata.authorization_endpoint l = advertised None "/authorize" issuer
      /\ Metadata.token_endpoint l = advertised None "/token" issuer
      /\ Metadata.revocation_endpoint l
         = (if Metadata.has_revokeToken provider
            then Some (advertised None "/revoke" issuer) else None)
      /\ Metadata.registration_endpoint l
         = (if Metadata.has_registerClient provider
            then Some (advertised None "/register" issuer) else None))
  /\ (forall path, advertised None path issuer
                   = Url.protocol issuer ++ "//" ++ Url.host issuer ++ path)
  /\ omits_exactly provider (Metadata.document m)
  /\ omits_exactly provider (Metadata.document l).
Proof.
  intros m l.
  destruct metadataHandler_fields as (M1 & M2 & M3 & M4 & M5).
  destruct local_metadataHandler_fields as (L1 & L2 & L3 & L4 & L5).
  fold m in M1, M2, M3, M4, M5. fold l in L1, L2, L3, L4, L5.
  split; [tauto|]. split; [tauto|]. split.
  { intros path. apply href_resolve. }
  unfold omits_exactly. split.
  - destruct (document_optional m) as (D1 & D2 & D3).
    rewrite D1, D2, D3, M3, M4, M5.
    now destruct (Metadata.has_revokeToken provider), (Metadata.has_registerClient provider).
  - destruct (document_optional l) as (D1 & D2 & D3).
    rewrite D1, D2, D3, L3, L4, L5.
    now destruct (Metadata.has_revokeToken provider), (Metadata.has_registerClient provider).
Qed.

End Advertisement.

(** C4, as stated, fails: the handler written against the provider contract
    is given a proxy provider that exposes an upstream authorization URL and
    advertises the local endpoint all the same. *)
Lemma local_handler_ignores_upstream_url :
  let provider := Metadata.ProxyInstance (Proxy.new test_options) in
  Metadata.authorizationUrl provider = Some "https://auth.example.com/authorize"
  /\ Metadata.authorization_endpoint (LocalMetadata.metadataHandler provider local_issuer None)
     = "https://mcp.example.com/authorize"
  /\ Metadata.authorization_endpoint (LocalMetadata.metadataHandler provider local_issuer None)
     <> "https://auth.example.com/authorize".
Proof. repeat split. discriminate. Qed.

(* ================================================================== *)
(** * The bearer-auth middleware *)

Lemma split_on_nonempty (sep : ascii) (s : string) : Url.split_on sep s <> [].
Proof.
  destruct s as [|c rest]; simpl; [discriminate|].
  destruct (Ascii.eqb c sep); [discriminate|].
  destruct (Url.split_on sep rest); discriminate.
Qed.

Lemma join_cons (sep x : string) (xs : list string) :
  xs <> [] -> Js.join sep (x :: xs) = x ++ sep ++ Js.join sep xs.
Proof. destruct xs; [contradiction | reflexivity]. Qed.

(** Splitting loses nothing: joining the segments with the separator gives
    the text back. *)
Lemma join_split_on (sep : ascii) (s : string) :
  Js.join (String sep EmptyString) (Url.split_on sep s) = s.
Proof.
  induction s as [|c rest IH]; [reflexivity|]. simpl.
  pose proof (split_on_nonempty sep rest) as NE.
  destruct (Ascii.eqb_spec c sep) as [->|N].
  - rewrite join_cons by assumption. simpl. now rewrite IH.
  - destruct (Url.split_on sep rest) as [|seg segs]; [contradiction|].
    destruct segs as [|seg' segs].
    + simpl in *. now rewrite IH.
    + rewrite join_cons by discriminate. rewrite join_cons in IH by discriminate.
      rewrite <- IH. reflexivity.
Qed.

(** No segment holds the separator. *)
Lemma split_on_segments (sep : ascii) (s : string) :
  Forall (fun seg => has_char sep seg = false) (Url.split_on sep s).
Proof.
  induction s as [|c rest IH]; simpl.
  - now constructor.
  - destruct (Ascii.eqb c sep) eqn:E.
    + now constructor.
    + destruct (Url.split_on sep rest) as [|seg segs].
      * constructor; [|constructor]. simpl. now rewrite E.
      * inversion IH; subst. constructor; [|assumption]. simpl. now rewrite E.
Qed.

(** [every]/[includes] is containment of the required scopes in the granted
    ones, by equality of strings. *)
Lemma hasAllScopes_incl (required granted : list string) :
  forallb (fun scope => Bearer.includes scope granted) required = true
  <-> incl required granted.
Proof.
  rewrite forallb_forall. unfold incl, Bearer.includes.
  split; intros H scope I; specialize (H scope I).
  - apply existsb_exists in H as (x & Ix & E). apply String.eqb_eq in E. now subst.
  - apply existsb_exists. exists scope. split; [assumption | apply String.eqb_refl].
Qed.

Lemma requireBearerAuth_unfold options authHeader :
  Bearer.requireBearerAuth options authHeader
  = match Bearer.attempt (effective_verifyToken options) (effective_requiredScopes options)
            authHeader with
    | (tokens, Net.Resolved authInfo) => Bearer.mkHandled tokens (Bearer.Next authInfo)
    | (tokens, Net.Rejected error) =>
        Bearer.mkHandled tokens (Bearer.Respond (Bearer.recover error))
    end.
Proof.
  unfold Bearer.requireBearerAuth, effective_verifyToken, effective_requiredScopes.
  now destruct (Bearer.verifier options).
Qed.

(** With a well-formed header the middleware reaches the verification
    function, with the second segment and nothing else. *)
Lemma attempt_well_formed verifyToken required header token :
  well_formed header token ->
  Bearer.attempt verifyToken required (Some header)
  = match verifyToken token with
    | Net.Rejected e => ([token], Net.Rejected e)
    | Net.Resolved authInfo =>
        if forallb (fun scope => Bearer.includes scope (AuthInfo.scopes authInfo)) required
        then ([token], Net.Resolved authInfo)
        else ([token], Net.Rejected (Errors.InsufficientScopeError "Insufficient scope"))
    end.
Proof.
  intros (type & rest & S & L & N). unfold Bearer.attempt.
  assert (H : header <> "") by (intros ->; discriminate S).
  assert (TH : Js.truthy (Some header) = true)
    by (apply truthy_spec; eexists; split; [reflexivity | assumption]).
  rewrite TH. cbn [negb]. cbv beta iota zeta.
  change (Js.or_empty (Some header)) with header. rewrite S.
  cbn [nth nth_error]. rewrite L.
  assert (TT : Js.truthy (Some token) = true)
    by (apply truthy_spec; eexists; split; [reflexivity | assumption]).
  rewrite TT. change ("bearer" =? "bearer") with true. cbn [negb orb Js.or_empty].
  destruct (verifyToken token) as [authInfo|e]; [|reflexivity].
  destruct required as [|r required]; [reflexivity|].
  change (Nat.ltb 0 (List.length (r :: required))) with true. cbv iota.
  now destruct (forallb _ (r :: required)).
Qed.

(** A header whose second segment is missing or empty never reaches the
    verification function. *)
Lemma attempt_malformed verifyToken required header :
  header <> "" ->
  nth_error (Url.split_on " " header) 1 = None
  \/ nth_error (Url.split_on " " header) 1 = Some "" ->
  Bearer.attempt verifyToken required (Some header) = ([], Net.Rejected malformed).
Proof.
  intros H T. unfold Bearer.attempt.
  assert (TH : Js.truthy (Some header) = true)
    by (apply truthy_spec; eexists; split; [reflexivity | assumption]).
  rewrite TH. cbn [negb]. cbv beta iota zeta.
  change (Js.or_empty (Some header)) with header.
  assert (F : Js.truthy (nth_error (Url.split_on " " header) 1) = false)
    by (destruct T as [-> | ->]; reflexivity).
  rewrite F. cbn [negb]. now rewrite orb_true_r.
Qed.

(** C5. Once the header is well formed and verification has returned the
    granted scopes, the middleware calls the downstream handler exactly when
    every required scope is among the granted ones (equality of strings,
    order and repetition irrelevant); when one is missing it answers 403
    with a [WWW-Authenticate] header that contains
    [error="insufficient_scope"]. *)
Theorem authorizes_iff_scopes_subset
    (options : Bearer.BearerAuthMiddlewareOptions) (header token : string)
    (authInfo : AuthInfo.AuthInfo) :
  well_formed header token ->
  effective_verifyToken options token = Net.Resolved authInfo ->
  let required := effective_requiredScopes options in
  let granted := AuthInfo.scopes authInfo in
  let result := Bearer.outcome (Bearer.requireBearerAuth options (Some header)) in
  (result = Bearer.Next authInfo <-> incl required granted)
  /\ ((exists auth, result = Bearer.Next auth) <-> incl required granted)
  /\ (~ incl required granted ->
      exists challenge body,
        result = Bearer.Respond (Bearer.mkHttp 403 (Some challenge) body)
        /\ contains insufficient_scope_token challenge = true).
Proof.
  intros W V required granted result. subst result.
  rewrite requireBearerAuth_unfold, (attempt_well_formed _ _ _ _ W), V.
  fold required. fold granted.
  pose proof (hasAllScopes_incl required granted) as I.
  destruct (forallb _ required); simpl.
  - assert (incl required granted) by now apply I.
    repeat split; auto; try contradiction. eauto.
  - assert (N : ~ incl required granted) by (intros C; apply I in C; discriminate).
    repeat split; try (intros; contradiction); try discriminate.
    + now intros (auth & E).
    + intros _. do 2 eexists. split; reflexivity.
Qed.

(** The scenario of the specification: [write] is required and not
    granted, the answer is 403 with the challenge. *)
Lemma authorizes_iff_scopes_subset_witness :
  exists challenge body,
    Bearer.outcome (Bearer.requireBearerAuth read_write_required (Some "Bearer abc123"))
    = Bearer.Respond (Bearer.mkHttp 403 (Some challenge) body)
    /\ contains insufficient_scope_token challenge = true.
Proof.
  assert (W : well_formed "Bearer abc123" "abc123").
  { exists "Bearer", []. repeat split. discriminate. }
  destruct (authorizes_iff_scopes_subset read_write_required "Bearer abc123" "abc123"
              read_only W eq_refl) as (_ & _ & H).
  apply H. intros C. specialize (C "write" (or_intror (or_introl eq_refl))).
  simpl in C. destruct C as [C | []]. discriminate C.
Defined.

Lemma recover_mapped (e : Errors.Throwable) : Bearer.recover e = mapped e.
Proof. now destruct e. Qed.

(** C8, as stated, fails: verification throws an error that is not an OAuth
    error, and the middleware answers 500 [server_error] without a
    challenge instead of treating it as an invalid token and answering 401. *)
Lemma unrecognized_verification_error_is_500 :
  Bearer.requireBearerAuth test_middleware (Some "Bearer invalid-token")
  = Bearer.mkHandled ["invalid-token"]
      (Bearer.Respond
         (Bearer.mkHttp 500 None
            (Js.JObject [("error", Js.JString "server_error");
                         ("error_description", Js.JString "Internal Server Error")])))
  /\ Bearer.outcome (Bearer.requireBearerAuth test_middleware (Some "Bearer invalid-token"))
     <> Bearer.Respond (Bearer.recover (Errors.InvalidTokenError "Invalid token")).
Proof. split; [reflexivity | discriminate]. Qed.

(** C8, amended. An error raised by the verification function reaches the
    error mapping as it is. An [InvalidTokenError] gives 401 and an
    [InsufficientScopeError] 403, both with a challenge header, a
    [ServerError] gives 500 and any other OAuth error 400, each with the
    error's own body; an error that is not an OAuth error is not re-tagged:
    the answer is 500 with the body of a [server_error] "Internal Server
    Error" and no challenge header. *)
Theorem verification_error_mapping
    (options : Bearer.BearerAuthMiddlewareOptions) (header token : string)
    (e : Errors.Throwable) :
  well_formed header token ->
  effective_verifyToken options token = Net.Rejected e ->
  Bearer.requireBearerAuth options (Some header)
  = Bearer.mkHandled [token] (Bearer.Respond (mapped e))
  /\ (Errors.instanceof_OAuthError e = false ->
      mapped e = Bearer.mkHttp 500 None
                   (Errors.toResponseObject (Errors.ServerError "Internal Server Error")))
  /\ (Errors.instanceof_InvalidTokenError e = true <-> Bearer.http_status (mapped e) = 401%N).
Proof.
  intros W V.
  rewrite requireBearerAuth_unfold, (attempt_well_formed _ _ _ _ W), V, recover_mapped.
  split; [reflexivity|]. split.
  - now destruct e.
  - destruct e; simpl; split; intros; congruence.
Qed.

(** The verification function of the test suite throws a plain error for
    an unknown token. *)
Lemma verification_error_mapping_witness :
  Bearer.requireBearerAuth test_middleware (Some "Bearer invalid-token")
  = Bearer.mkHandled ["invalid-token"]
      (Bearer.Respond (mapped (Errors.JsError "Invalid token"))).
Proof.
  assert (W : well_formed "Bearer invalid-token" "invalid-token").
  { exists "Bearer", []. repeat split. discriminate. }
  exact (proj1 (verification_error_mapping test_middleware "Bearer invalid-token"
                  "invalid-token" (Errors.JsError "Invalid token") W eq_refl)).
Defined.

(** C10. The header is cut at every single space: the segments hold no
    space and joined by spaces give the header back. When the first segment
    is the scheme and the second is not empty, the verification function is
    called once, with exactly the second segment, whatever follows it, and
    what the middleware does is decided by what the function returns for
    that segment: its rejection is answered as the error it is, its
    identity is attached to the request when it holds every required scope
    and answered with 403 otherwise. When the second segment is missing or
    empty the middleware answers 401 with an [InvalidTokenError] and the
    verification function is not called; the error is the one for a
    malformed header, unless the header is the empty text, which counts as
    a missing header. *)
Theorem token_is_second_segment
    (options : Bearer.BearerAuthMiddlewareOptions) (header : string) :
  Js.join " " (Url.split_on " " header) = header
  /\ Forall (fun segment => has_char " " segment = false) (Url.split_on " " header)
  /\ (forall token, well_formed header token ->
        Bearer.verified (Bearer.requireBearerAuth options (Some header)) = [token]
        /\ Bearer.outcome (Bearer.requireBearerAuth options (Some header))
           = match effective_verifyToken options token with
             | Net.Resolved auth =>
                 if forallb (fun scope => Bearer.includes scope (AuthInfo.scopes auth))
                      (effective_requiredScopes options)
                 then Bearer.Next auth
                 else Bearer.Respond
                        (mapped (Errors.InsufficientScopeError "Insufficient scope"))
             | Net.Rejected e => Bearer.Respond (mapped e)
             end)
  /\ (nth_error (Url.split_on " " header) 1 = None
      \/ nth_error (Url.split_on " " header) 1 = Some "" ->
      Bearer.requireBearerAuth options (Some header)
      = unauthorized (if header =? "" then missing else malformed)).
Proof.
  split; [apply join_split_on|]. split; [apply split_on_segments|]. split.
  - intros token W.
    rewrite requireBearerAuth_unfold, (attempt_well_formed _ _ _ _ W).
    destruct (effective_verifyToken options token) as [auth|e].
    + now destruct (forallb _ _).
    + simpl. now rewrite recover_mapped.
  - intros T. rewrite requireBearerAuth_unfold.
    destruct (String.eqb_spec header "") as [->|N]; [reflexivity|].
    now rewrite attempt_malformed.
Qed.

(** Three headers: the valid token of the test suite followed by another
    segment gets through with its identity, two spaces after the scheme
    and a lone scheme are refused unverified. *)
Lemma token_is_second_segment_witness :
  Bearer.requireBearerAuth test_middleware (Some "Bearer valid-token y")
  = Bearer.mkHandled ["valid-token"]
      (Bearer.Next (AuthInfo.mk "valid-token" "test-client" ["read"; "write"] None))
  /\ Bearer.verified (Bearer.requireBearerAuth test_middleware (Some "Bearer  x")) = []
  /\ Bearer.verified (Bearer.requireBearerAuth test_middleware (Some "Bearer")) = [].
Proof.
  split; [|split].
  - destruct (token_is_second_segment test_middleware "Bearer valid-token y")
      as (_ & _ & H & _).
    destruct (H "valid-token") as [V O].
    { exists "Bearer", ["y"]. repeat split. discriminate. }
    destruct (Bearer.requireBearerAuth test_middleware (Some "Bearer valid-token y"))
      as [tokens result].
    simpl in V, O. now rewrite V, O.
  - destruct (token_is_second_segment test_middleware "Bearer  x") as (_ & _ & _ & H).
    now rewrite H; [|right].
  - destruct (token_is_second_segment test_middleware "Bearer") as (_ & _ & _ & H).
    now rewrite H; [|left].
Defined.

(* ================================================================== *)
(** * The form-urlencoded round trip *)













(* ================================================================== *)
(** * The authorization redirect *)
















(* ================================================================== *)
(** * Validation of token responses *)

(** In the provider with configured endpoints an exchange resolves only
    with a token set the schema accepted; a 2xx body that is not JSON or
    that the schema refuses makes the exchange reject. *)
Lemma exchangeAuthorizationCode_validates this client code url (w : Net.World unit) :
  Proxy.tokenUrl (Proxy._endpoints this) = Some url -> url <> "" ->
  let request :=
    Net.post_form url
      [("grant_type", "authorization_code");
       ("client_id", Client.client_id client);
       ("client_secret", Js.or_empty (Client.client_secret client));
       ("code", code)] in
  Net.ok (Net.upstream w request) = true ->
  fst (Proxy.exchangeAuthorizationCode this client code w)
  = match Net.body (Net.upstream w request) with
    | None => Net.Rejected Errors.SyntaxError
    | Some data =>
        match Tokens.OAuthTokensSchema_parse data with
        | Some tokens => Net.Resolved tokens
        | None => Net.Rejected Errors.ZodError
        end
    end.
Proof.
  intros E N request O. unfold Proxy.exchangeAuthorizationCode, Proxy.require.
  rewrite E. simpl. apply String.eqb_neq in N. rewrite N. run_async.
  fold request. rewrite O. simpl.
  destruct (Net.body _); simpl; [|reflexivity].
  now destruct (Tokens.OAuthTokensSchema_parse _).
Qed.

Lemma exchangeRefreshToken_validates this client refreshToken scopes url (w : Net.World unit) :
  Proxy.tokenUrl (Proxy._endpoints this) = Some url -> url <> "" ->
  forall request,
    Net.sent (snd (Proxy.exchangeRefreshToken this client refreshToken scopes w))
    = (Net.sent w ++ [request])%list ->
    Net.ok (Net.upstream w request) = true ->
    fst (Proxy.exchangeRefreshToken this client refreshToken scopes w)
    = match Net.body (Net.upstream w request) with
      | None => Net.Rejected Errors.SyntaxError
      | Some data =>
          match Tokens.OAuthTokensSchema_parse data with
          | Some tokens => Net.Resolved tokens
          | None => Net.Rejected Errors.ZodError
          end
      end.
Proof.
  intros E N request. unfold Proxy.exchangeRefreshToken, Proxy.require.
  rewrite E. simpl. apply String.eqb_neq in N. rewrite N. run_async.
  match goal with |- context [Net.upstream w ?r] => set (sent_request := r) end.
  intros S O.
  assert (request = sent_request) as ->.
  { destruct (Net.ok (Net.upstream w sent_request));
      [destruct (Net.body (Net.upstream w sent_request)); simpl in S;
       [destruct (Tokens.OAuthTokensSchema_parse _)|]|];
      simpl in S; apply app_inv_head in S; congruence. }
  rewrite O. destruct (Net.body _); simpl; [|reflexivity].
  now destruct (Tokens.OAuthTokensSchema_parse _).
Qed.

(** C7 fails in the lazy provider. Once the token endpoint is known, by
    configuration or from the metadata, and the upstream server answers
    200 with some JSON body, both exchanges resolve with that body as it
    came, whether or not it is a token set. *)
Theorem lazy_exchange_returns_unvalidated_body
    (this : LazyProxy.ProxyOAuthServerProvider) (client : Client.OAuthClientInformationFull)
    (code refreshToken : string) (scopes : option (list string)) (url : string)
    (w w' : Net.World (option Js.Json)) (metadata : option Js.Json) (data : Js.Json) :
  LazyProxy.getMetadata this w = (Net.Resolved metadata, w') ->
  LazyProxy.endpoint (LazyProxy.tokenUrl (LazyProxy._endpoints this))
    "token_endpoint" metadata = Some (Js.JString url) ->
  url <> "" ->
  (forall request, Net.req_url request = url ->
     Net.upstream w' request = Net.mkResponse 200 (Some data)) ->
  fst (LazyProxy.exchangeAuthorizationCode this client code w) = Net.Resolved data
  /\ fst (LazyProxy.exchangeRefreshToken this client refreshToken scopes w)
     = Net.Resolved data.
Proof.
  intros G E N R. apply String.eqb_neq in N. split.
  - unfold LazyProxy.exchangeAuthorizationCode, LazyProxy.require, Net.bind.
    rewrite G, E. simpl. rewrite N. run_async. now rewrite R.
  - unfold LazyProxy.exchangeRefreshToken, LazyProxy.require, Net.bind.
    rewrite G, E. simpl. rewrite N. run_async. now rewrite R.
Qed.

(** The token endpoint answers 200 with an error object: the schema refuses
    it, the provider with configured endpoints rejects, the lazy provider
    resolves with it. *)
Lemma lazy_exchange_returns_unvalidated_body_witness :
  Tokens.OAuthTokensSchema_parse not_a_token_set = None
  /\ fst (Proxy.exchangeAuthorizationCode (Proxy.new test_options) scenario_client "code"
            (Proxy.start (answers 200 (Some not_a_token_set))))
     = Net.Rejected Errors.ZodError
  /\ fst (LazyProxy.exchangeAuthorizationCode lazy_with_token_endpoint scenario_client "code"
            (LazyProxy.start (answers 200 (Some not_a_token_set))))
     = Net.Resolved not_a_token_set
  /\ fst (LazyProxy.exchangeRefreshToken lazy_with_token_endpoint scenario_client "refresh"
            None (LazyProxy.start (answers 200 (Some not_a_token_set))))
     = Net.Resolved not_a_token_set.
Proof.
  split; [reflexivity|]. split; [reflexivity|].
  apply (lazy_exchange_returns_unvalidated_body lazy_with_token_endpoint scenario_client
           "code" "refresh" None "https://auth.example.com/token"
           (LazyProxy.start (answers 200 (Some not_a_token_set)))
           (LazyProxy.start (answers 200 (Some not_a_token_set))) None not_a_token_set);
    [reflexivity | reflexivity | discriminate | reflexivity].
Defined.

(* ================================================================== *)
(** * Concurrent first calls of [getMetadata] *)

(** One call run to its end does what the sequential reading of
    [getMetadata] does: same result, same cache, as many requests. *)
Lemma single_call_agrees this server :
  let s := Interleaving.run this server
             [Interleaving.Invoke; Interleaving.Deliver 0; Interleaving.Deliver 0]
             Interleaving.cold in
  let r := LazyProxy.getMetadata this (LazyProxy.start server) in
  Interleaving.calls s = [Interleaving.Settled (fst r)]
  /\ Interleaving._metadata s = Net.heap (snd r)
  /\ Interleaving.issued s = List.length (Net.sent (snd r))
  /\ Interleaving.in_flight s = 0.
Proof.
  unfold Interleaving.run, LazyProxy.getMetadata. simpl.
  destruct (Js.truthy (LazyProxy._metadataUrl this)); simpl; [|repeat split].
  run_async.
  destruct (Net.ok (server _)); simpl; [|repeat split].
  destruct (Net.body (server _)); simpl; repeat split.
Qed.

(** Calls that do not overlap share the cache: a second call made after the
    first has stored a usable document sends nothing. *)
Lemma sequential_calls_fetch_once this server document :
  Js.truthy (LazyProxy._metadataUrl this) = true ->
  server (Net.get (Js.or_empty (LazyProxy._metadataUrl this)))
  = Net.mkResponse 200 (Some document) ->
  LazyProxy.truthy_json document = true ->
  let s := Interleaving.run this server
             [Interleaving.Invoke; Interleaving.Deliver 0; Interleaving.Deliver 0;
              Interleaving.Invoke]
             Interleaving.cold in
  Interleaving.issued s = 1
  /\ Interleaving.calls s
     = [Interleaving.Settled (Net.Resolved (Some document));
        Interleaving.Settled (Net.Resolved (Some document))].
Proof.
  intros U R T. destruct this as [[url|] e v]; simpl in U, R; [|discriminate].
  apply negb_true_iff in U.
  unfold Interleaving.run. simpl. rewrite !U. simpl. rewrite !R. simpl.
  rewrite T. simpl. split; reflexivity.
Qed.

Lemma overlapping_calls_from this server n (s : Interleaving.System) :
  Js.truthy (LazyProxy._metadataUrl this) = true ->
  Interleaving._metadata s = None ->
  let s' := Interleaving.run this server (repeat Interleaving.Invoke n) s in
  Interleaving._metadata s' = None
  /\ Interleaving.calls s' = (Interleaving.calls s ++ repeat Interleaving.AwaitingFetch n)%list
  /\ Interleaving.issued s' = Interleaving.issued s + n
  /\ Interleaving.in_flight s' = Interleaving.in_flight s + n.
Proof.
  intros U. revert s. unfold Interleaving.run.
  induction n as [|n IH]; intros s C; simpl.
  - rewrite app_nil_r. repeat split; [assumption | lia | lia].
  - rewrite U, C. simpl.
    specialize (IH (Interleaving.mkSystem None
                      (Interleaving.calls s ++ [Interleaving.AwaitingFetch])
                      (S (Interleaving.issued s)) (S (Interleaving.in_flight s)))
                  eq_refl).
    simpl in IH. destruct IH as (I1 & I2 & I3 & I4). rewrite I1, I2, I3, I4.
    rewrite <- app_assoc. repeat split; lia.
Qed.

(** C9 fails. However many calls of [getMetadata] are made on a fresh
    provider before the first answer arrives, each finds the cache empty and
    sends its own metadata request: with [n] overlapping calls, [n] requests
    are in flight at once. *)
Theorem concurrent_first_calls_each_fetch
    (this : LazyProxy.ProxyOAuthServerProvider) (server : Net.Request -> Net.Response)
    (n : nat) :
  Js.truthy (LazyProxy._metadataUrl this) = true ->
  let s := Interleaving.run this server (repeat Interleaving.Invoke n) Interleaving.cold in
  Interleaving.calls s = repeat Interleaving.AwaitingFetch n
  /\ Interleaving.issued s = n
  /\ Interleaving.in_flight s = n.
Proof.
  intros U. destruct (overlapping_calls_from this server n Interleaving.cold U eq_refl)
    as (_ & C & I & F).
  repeat split; assumption.
Qed.

(** Two overlapping calls: two requests in flight. *)
Lemma concurrent_first_calls_each_fetch_witness :
  let s := Interleaving.run lazy_only_metadata metadata_server
             [Interleaving.Invoke; Interleaving.Invoke] Interleaving.cold in
  Interleaving.calls s = [Interleaving.AwaitingFetch; Interleaving.AwaitingFetch]
  /\ Interleaving.issued s = 2
  /\ Interleaving.in_flight s = 2.
Proof.
  exact (concurrent_first_calls_each_fetch lazy_only_metadata metadata_server 2 eq_refl).
Defined.

(** When the two answers arrive both are stored, one over the other, and
    both calls resolve. *)
Example concurrent_first_calls_both_store :
  let s := Interleaving.run lazy_only_metadata metadata_server
             [Interleaving.Invoke; Interleaving.Invoke;
              Interleaving.Deliver 0; Interleaving.Deliver 1;
              Interleaving.Deliver 0; Interleaving.Deliver 1] Interleaving.cold in
  Interleaving.issued s = 2
  /\ Interleaving.in_flight s = 0
  /\ Interleaving.calls s
     = [Interleaving.Settled (Net.Resolved (Interleaving._metadata s));
        Interleaving.Settled (Net.Resolved (Interleaving._metadata s))].
Proof. repeat split. Qed.

(* ================================================================== *)
(** * Further runs of the middleware *)

(** Scopes are compared letter for letter: [Read] is not [read]. *)
Example scope_match_is_case_sensitive :
  Bearer.outcome
    (Bearer.requireBearerAuth
       (Bearer.mkOptions (Some ["Read"]) (Bearer.WithVerifyToken (fun _ => Net.Resolved read_only)))
       (Some "Bearer abc123"))
  = Bearer.Respond (mapped (Errors.InsufficientScopeError "Insufficient scope")).
Proof. reflexivity. Qed.

(** The order of the required scopes does not matter, nor does the order of
    the granted ones. *)
Example scope_order_is_irrelevant :
  Bearer.outcome
    (Bearer.requireBearerAuth
       (Bearer.mkOptions (Some ["write"; "read"]) (Bearer.WithVerifyToken test_verifyToken))
       (Some "bearer valid-token"))
  = Bearer.Next (AuthInfo.mk "valid-token" "test-client" ["read"; "write"] None).
Proof. reflexivity. Qed.

(** Without an [Authorization] header the answer is 401. *)
Example missing_header_is_401 :
  Bearer.requireBearerAuth test_middleware None = unauthorized missing.
Proof. reflexivity. Qed.

(* ================================================================== *)
(** * Further runs of the metadata handlers *)

(** A local path replaces the path of the issuer: the handlers are mounted
    at the root of the application. *)
Example local_path_replaces_issuer_path :
  Metadata.authorization_endpoint
    (Metadata.metadataHandler (Metadata.OtherProvider false false)
       (Url.mkURL "https:" "mcp.example.com" "/tenant" None None) None)
  = "https://mcp.example.com/authorize".
Proof. reflexivity. Qed.

(** A provider built without a revocation URL: no [revokeToken], and no
    [revocation_endpoint] in the document. *)
Example no_revocation_url_no_revocation_endpoint :
  let provider := Metadata.ProxyInstance (Proxy.new scenario_options) in
  Metadata.has_revokeToken provider = false
  /\ Metadata.has_property "revocation_endpoint"
       (Metadata.document (Metadata.metadataHandler provider local_issuer None)) = false
  /\ Metadata.authorization_endpoint (Metadata.metadataHandler provider local_issuer None)
     = "https://a.example/authorize".
Proof. repeat split. Qed.

(* ================================================================== *)
(** * The routers *)

Lemma check_issuer_none (issuer : Url.URL) :
  AuthRouter.check_issuer issuer = None <-> acceptable_issuer issuer.
Proof.
  unfold AuthRouter.check_issuer, acceptable_issuer, Location.has_hash, Location.has_search.
  destruct (String.eqb_spec (Url.protocol issuer) "https:") as [P|P];
    destruct (String.eqb_spec (Location.hostname issuer) "localhost") as [L|L];
    destruct (String.eqb_spec (Location.hostname issuer) "127.0.0.1") as [I|I];
    destruct (Js.truthy (Url.fragment issuer)), (Js.truthy (Url.query issuer)); simpl;
    split; intros H; try discriminate; try tauto;
    destruct H as (_ & F & Q); discriminate.
Qed.

Lemma auth_router_unfold handler options :
  AuthRouter.mcpAuthRouter handler options
  = match AuthRouter.check_issuer (AuthRouter.issuerUrl options) with
    | Some error => Net.Rejected error
    | None =>
        Net.Resolved
          ([("/authorize", AuthRouter.AuthorizationHandler);
            ("/token", AuthRouter.TokenHandler);
            ("/.well-known/oauth-authorization-server",
             AuthRouter.MetadataHandler
               (handler (AuthRouter.provider options) (AuthRouter.issuerUrl options)
                  (AuthRouter.serviceDocumentationUrl options)))]
           ++ (if Metadata.has_registerClient (AuthRouter.provider options)
               then [("/register", AuthRouter.ClientRegistrationHandler)] else [])
           ++ (if Metadata.has_revokeToken (AuthRouter.provider options)
               then [("/revoke", AuthRouter.RevocationHandler)] else []))%list
    end.
Proof.
  unfold AuthRouter.mcpAuthRouter.
  destruct (AuthRouter.check_issuer _); [reflexivity|].
  destruct (Metadata.has_registerClient _), (Metadata.has_revokeToken _); reflexivity.
Qed.

(** The router that assembles the document itself mounts what the other
    router mounts when that one is given the proxy-aware handler. *)
Lemma inline_router_agrees options :
  InlineRouter.mcpAuthRouter options
  = AuthRouter.mcpAuthRouter Metadata.metadataHandler options.
Proof.
  rewrite auth_router_unfold.
  unfold InlineRouter.mcpAuthRouter, AuthRouter.check_issuer.
  rewrite router_metadata_agrees.
  destruct (negb _ && negb _ && negb _); [reflexivity|].
  destruct (Location.has_hash _); [reflexivity|].
  destruct (Location.has_search _); [reflexivity|].
  destruct (Metadata.has_registerClient _), (Metadata.has_revokeToken _); reflexivity.
Qed.

(** X1. Both routers accept an issuer exactly when it is https or its host
    is [localhost] or [127.0.0.1], and it has no non-empty fragment and no
    non-empty query; an empty fragment or query passes. The checks run in
    that order, so an http issuer with a fragment is refused for not being
    https, and the two routers refuse with the same error. *)
Theorem issuer_validation
    (handler : Metadata.OAuthServerProvider -> Url.URL -> option Url.URL
               -> Metadata.OAuthMetadata)
    (options : AuthRouter.AuthRouterOptions) :
  let issuer := AuthRouter.issuerUrl options in
  ((exists routes, AuthRouter.mcpAuthRouter handler options = Net.Resolved routes)
   <-> acceptable_issuer issuer)
  /\ ((exists routes, InlineRouter.mcpAuthRouter options = Net.Resolved routes)
      <-> acceptable_issuer issuer)
  /\ (forall error,
        AuthRouter.mcpAuthRouter handler options = Net.Rejected error
        <-> InlineRouter.mcpAuthRouter options = Net.Rejected error)
  /\ (Url.protocol issuer <> "https:" /\ Location.hostname issuer <> "localhost"
      /\ Location.hostname issuer <> "127.0.0.1"
      <-> AuthRouter.mcpAuthRouter handler options
          = Net.Rejected (Errors.JsError "Issuer URL must be HTTPS")).
Proof.
  intros issuer. subst issuer.
  rewrite inline_router_agrees, !auth_router_unfold.
  pose proof (check_issuer_none (AuthRouter.issuerUrl options)) as A.
  split; [|split; [|split]].
  - destruct (AuthRouter.check_issuer _).
    + split; [intros (r & E); discriminate | intros H; apply A in H; discriminate].
    + split; [intros _; now apply A | eauto].
  - destruct (AuthRouter.check_issuer _).
    + split; [intros (r & E); discriminate | intros H; apply A in H; discriminate].
    + split; [intros _; now apply A | eauto].
  - intros error.
    destruct (AuthRouter.check_issuer _); split; intros H; first [exact H | discriminate H].
  - clear A. unfold AuthRouter.check_issuer.
    destruct (String.eqb_spec (Url.protocol (AuthRouter.issuerUrl options)) "https:");
      destruct (String.eqb_spec (Location.hostname (AuthRouter.issuerUrl options)) "localhost");
      destruct (String.eqb_spec (Location.hostname (AuthRouter.issuerUrl options)) "127.0.0.1");
      simpl; try tauto;
      (split; [tauto|]);
      destruct (Location.has_hash _); try discriminate;
      destruct (Location.has_search _); discriminate.
Qed.

Lemma handler_omits provider issuer documentation :
  omits_exactly provider
    (Metadata.document (Metadata.metadataHandler provider issuer documentation))
  /\ omits_exactly provider
       (Metadata.document (LocalMetadata.metadataHandler provider issuer documentation)).
Proof.
  destruct (metadataHandler_fields provider issuer documentation) as (_ & _ & M3 & M4 & M5).
  destruct (local_metadataHandler_fields provider issuer documentation)
    as (_ & _ & L3 & L4 & L5).
  unfold omits_exactly. split.
  - destruct (document_optional (Metadata.metadataHandler provider issuer documentation))
      as (D1 & D2 & D3).
    rewrite D1, D2, D3, M3, M4, M5.
    now destruct (Metadata.has_revokeToken provider), (Metadata.has_registerClient provider).
  - destruct (document_optional (LocalMetadata.metadataHandler provider issuer documentation))
      as (D1 & D2 & D3).
    rewrite D1, D2, D3, L3, L4, L5.
    now destruct (Metadata.has_revokeToken provider), (Metadata.has_registerClient provider).
Qed.

Lemma proxy_capabilities (options : Proxy.ProxyOptions) :
  Metadata.has_revokeToken (Metadata.ProxyInstance (Proxy.new options))
  = Js.truthy (Proxy.revocationUrl (Proxy.endpoints options))
  /\ Metadata.has_registerClient (Metadata.ProxyInstance (Proxy.new options))
     = Js.truthy (Proxy.registrationUrl (Proxy.endpoints options)).
Proof.
  simpl. now destruct (Js.truthy (Proxy.revocationUrl _)), (Js.truthy (Proxy.registrationUrl _)).
Qed.

(** X2. A router that starts mounts [/authorize], [/token] and the metadata
    route whatever the provider, [/register] exactly when the clients store
    has [registerClient] and [/revoke] exactly when the provider has
    [revokeToken], each path once. For the proxy provider built from
    options this means: [/revoke] is mounted exactly when a non-empty
    revocation URL was configured, [/register] exactly when a registration
    URL was. *)
Theorem routes_follow_capabilities
    (handler : Metadata.OAuthServerProvider -> Url.URL -> option Url.URL
               -> Metadata.OAuthMetadata)
    (options : AuthRouter.AuthRouterOptions) (routes : list AuthRouter.Route) :
  AuthRouter.mcpAuthRouter handler options = Net.Resolved routes
  \/ InlineRouter.mcpAuthRouter options = Net.Resolved routes ->
  mounted "/authorize" routes
  /\ mounted "/token" routes
  /\ mounted "/.well-known/oauth-authorization-server" routes
  /\ (mounted "/register" routes
      <-> Metadata.has_registerClient (AuthRouter.provider options) = true)
  /\ (mounted "/revoke" routes
      <-> Metadata.has_revokeToken (AuthRouter.provider options) = true)
  /\ NoDup (map fst routes)
  /\ (forall proxy_options,
        AuthRouter.provider options = Metadata.ProxyInstance (Proxy.new proxy_options) ->
        (mounted "/revoke" routes
         <-> Js.truthy (Proxy.revocationUrl (Proxy.endpoints proxy_options)) = true)
        /\ (mounted "/register" routes
            <-> Js.truthy (Proxy.registrationUrl (Proxy.endpoints proxy_options)) = true)).
Proof.
  intros R.
  assert (exists h, AuthRouter.mcpAuthRouter h options = Net.Resolved routes) as [h E].
  { destruct R as [R|R]; [eauto|]. rewrite inline_router_agrees in R. eauto. }
  clear R. rewrite auth_router_unfold in E.
  destruct (AuthRouter.check_issuer _); [discriminate|]. injection E as <-.
  assert (Core :
    (mounted "/register"
       ([("/authorize", AuthRouter.AuthorizationHandler); ("/token", AuthRouter.TokenHandler);
         ("/.well-known/oauth-authorization-server",
          AuthRouter.MetadataHandler
            (h (AuthRouter.provider options) (AuthRouter.issuerUrl options)
               (AuthRouter.serviceDocumentationUrl options)))]
        ++ (if Metadata.has_registerClient (AuthRouter.provider options)
            then [("/register", AuthRouter.ClientRegistrationHandler)] else [])
        ++ (if Metadata.has_revokeToken (AuthRouter.provider options)
            then [("/revoke", AuthRouter.RevocationHandler)] else []))%list
     <-> Metadata.has_registerClient (AuthRouter.provider options) = true)
    /\ (mounted "/revoke"
          ([("/authorize", AuthRouter.AuthorizationHandler); ("/token", AuthRouter.TokenHandler);
            ("/.well-known/oauth-authorization-server",
             AuthRouter.MetadataHandler
               (h (AuthRouter.provider options) (AuthRouter.issuerUrl options)
                  (AuthRouter.serviceDocumentationUrl options)))]
           ++ (if Metadata.has_registerClient (AuthRouter.provider options)
               then [("/register", AuthRouter.ClientRegistrationHandler)] else [])
           ++ (if Metadata.has_revokeToken (AuthRouter.provider options)
               then [("/revoke", AuthRouter.RevocationHandler)] else []))%list
        <-> Metadata.has_revokeToken (AuthRouter.provider options) = true)).
  { unfold mounted.
    destruct (Metadata.has_registerClient _), (Metadata.has_revokeToken _); simpl;
      split; split; intros H; try reflexivity; try discriminate; try tauto;
      repeat (destruct H as [H|H]; try discriminate H); try contradiction. }
  destruct Core as [CR CV].
  split; [unfold mounted; simpl; tauto|].
  split; [unfold mounted; simpl; tauto|].
  split; [unfold mounted; simpl; tauto|].
  split; [exact CR|]. split; [exact CV|]. split.
  - destruct (Metadata.has_registerClient _), (Metadata.has_revokeToken _); simpl;
      repeat constructor; simpl; intuition discriminate.
  - intros proxy_options P.
    destruct (proxy_capabilities proxy_options) as [V G].
    rewrite <- P in V, G. rewrite <- V, <- G. split; assumption.
Qed.

(** The provider of the specification's scenario has no revocation URL: the
    router starts and does not mount [/revoke]. *)
Lemma routes_follow_capabilities_witness :
  exists routes,
    AuthRouter.mcpAuthRouter LocalMetadata.metadataHandler
      (router_options_for scenario_options local_issuer) = Net.Resolved routes
    /\ ~ mounted "/revoke" routes
    /\ mounted "/token" routes.
Proof.
  eexists. split; [reflexivity|].
  match goal with
  | |- ~ mounted _ ?r /\ _ =>
      destruct (routes_follow_capabilities LocalMetadata.metadataHandler
                  (router_options_for scenario_options local_issuer) r
                  (or_introl eq_refl)) as (_ & T & _ & _ & _ & _ & P)
  end.
  destruct (P scenario_options eq_refl) as [V _].
  split; [|exact T]. intros M. apply V in M. discriminate M.
Defined.

(** X3. The document a router serves and the routes it mounts agree: with
    either metadata handler, and in the router that assembles the document
    itself, the document has [revocation_endpoint] exactly when [/revoke]
    is mounted and [registration_endpoint] exactly when [/register] is, and
    its issuer is the text of the issuer URL. *)
Theorem document_matches_routes
    (options : AuthRouter.AuthRouterOptions) (routes : list AuthRouter.Route) :
  AuthRouter.mcpAuthRouter Metadata.metadataHandler options = Net.Resolved routes
  \/ AuthRouter.mcpAuthRouter LocalMetadata.metadataHandler options = Net.Resolved routes
  \/ InlineRouter.mcpAuthRouter options = Net.Resolved routes ->
  exists metadata,
    served routes = Some metadata
    /\ Metadata.issuer metadata = Url.href (AuthRouter.issuerUrl options)
    /\ (Metadata.has_property "revocation_endpoint" (Metadata.document metadata) = true
        <-> mounted "/revoke" routes)
    /\ (Metadata.has_property "registration_endpoint" (Metadata.document metadata) = true
        <-> mounted "/register" routes).
Proof.
  intros R.
  assert (exists h, (h = Metadata.metadataHandler \/ h = LocalMetadata.metadataHandler)
                    /\ AuthRouter.mcpAuthRouter h options = Net.Resolved routes)
    as (h & Hh & E).
  { destruct R as [R|[R|R]]; [eauto | eauto |]. rewrite inline_router_agrees in R. eauto. }
  destruct (routes_follow_capabilities h options routes (or_introl E))
    as (_ & _ & _ & MR & MV & _).
  rewrite auth_router_unfold in E.
  destruct (AuthRouter.check_issuer _); [discriminate|]. injection E as <-.
  eexists. split; [reflexivity|].
  destruct (handler_omits (AuthRouter.provider options) (AuthRouter.issuerUrl options)
              (AuthRouter.serviceDocumentationUrl options)) as [(O1 & _ & O3) (L1 & _ & L3)].
  destruct Hh as [-> | ->].
  - split; [reflexivity|]. rewrite O1, O3. split; symmetry; assumption.
  - split; [reflexivity|]. rewrite L1, L3. split; symmetry; assumption.
Qed.

(** The provider of the test suite behind the router that assembles the
    document: [/revoke] is mounted and the document names the upstream
    revocation endpoint. *)
Lemma document_matches_routes_witness :
  exists routes metadata,
    InlineRouter.mcpAuthRouter (router_options_for test_options local_issuer)
    = Net.Resolved routes
    /\ served routes = Some metadata
    /\ Metadata.has_property "revocation_endpoint" (Metadata.document metadata) = true
    /\ mounted "/revoke" routes.
Proof.
  pose (routes :=
          match InlineRouter.mcpAuthRouter (router_options_for test_options local_issuer) with
          | Net.Resolved r => r
          | Net.Rejected _ => []
          end).
  assert (E : InlineRouter.mcpAuthRouter (router_options_for test_options local_issuer)
              = Net.Resolved routes) by reflexivity.
  destruct (document_matches_routes (router_options_for test_options local_issuer) routes
              (or_intror (or_intror E))) as (m & S & _ & V & _).
  exists routes, m. split; [exact E|]. split; [exact S|].
  assert (M : Metadata.has_property "revocation_endpoint" (Metadata.document m) = true).
  { unfold routes in S. simpl in S. injection S as <-. reflexivity. }
  split; [exact M | now apply V].
Defined.

(* ================================================================== *)
(** * The proxying router *)

Lemma fold_left_mounts (entries : list (string * option Url.URL))
    (router : list (string * ProxyRouter.ProxyMiddleware)) :
  fold_left
    (fun router entry =>
       match snd entry with
       | Some url =>
           AuthRouter.use router ("/" ++ fst entry)
             (ProxyRouter.mkProxy (Location.origin url) true None)
       | None => router
       end)
    entries router
  = (router
     ++ flat_map (fun entry => match snd entry with
                               | Some url => [endpoint_proxy (fst entry) url]
                               | None => []
                               end) entries)%list.
Proof.
  revert router. induction entries as [|[key [url|]] entries IH]; intros router; simpl.
  - now rewrite app_nil_r.
  - rewrite IH. unfold AuthRouter.use. now rewrite <- app_assoc.
  - apply IH.
Qed.

Lemma proxy_router_unfold (options : ProxyRouter.ProxyOptions) :
  ProxyRouter.mcpAuthProxyRouter options
  = match ProxyRouter.metadataUrl options, proxied_entries options with
    | None, [] =>
        Net.Rejected
          (Errors.JsError "At least one of metadataUrl or an endpoint must be provided.")
    | metadataUrl, entries =>
        Net.Resolved
          ((match metadataUrl with Some url => [metadata_proxy url] | None => [] end)
           ++ flat_map (fun entry => match snd entry with
                                     | Some url => [endpoint_proxy (fst entry) url]
                                     | None => []
                                     end) entries)%list
    end.
Proof.
  unfold ProxyRouter.mcpAuthProxyRouter, proxied_entries.
  rewrite fold_left_mounts.
  destruct (ProxyRouter.metadataUrl options) as [url|],
    (ProxyRouter.endpoints options) as [[|entry entries]|]; reflexivity.
Qed.

(** X4. The proxying router refuses to start exactly when there is no
    metadata URL and the endpoints object has no key. When it starts, its
    routes are the metadata route, if a metadata URL was given, and one
    route [/key] per endpoint whose URL is present, each proxying to the
    origin of its URL. Keys are counted, not URLs: an endpoints object whose
    keys all hold [undefined] lets the router start with no route at all. *)
Theorem proxy_router_routes (options : ProxyRouter.ProxyOptions) :
  (ProxyRouter.mcpAuthProxyRouter options
   = Net.Rejected (Errors.JsError "At least one of metadataUrl or an endpoint must be provided.")
   <-> ProxyRouter.metadataUrl options = None /\ proxied_entries options = [])
  /\ ((exists routes, ProxyRouter.mcpAuthProxyRouter options = Net.Resolved routes)
      <-> ProxyRouter.metadataUrl options <> None \/ proxied_entries options <> [])
  /\ (forall routes, ProxyRouter.mcpAuthProxyRouter options = Net.Resolved routes ->
      forall route,
        In route routes
        <-> (exists url, ProxyRouter.metadataUrl options = Some url
                         /\ route = metadata_proxy url)
            \/ (exists key url, In (key, Some url) (proxied_entries options)
                                /\ route = endpoint_proxy key url))
  /\ (ProxyRouter.metadataUrl options = None ->
      proxied_entries options <> [] ->
      Forall (fun entry => snd entry = None) (proxied_entries options) ->
      ProxyRouter.mcpAuthProxyRouter options = Net.Resolved []).
Proof.
  rewrite proxy_router_unfold.
  assert (F : forall route entries,
             In route (flat_map (fun entry : string * option Url.URL =>
                                   match snd entry with
                                   | Some url => [endpoint_proxy (fst entry) url]
                                   | None => []
                                   end) entries)
             <-> exists key url, In (key, Some url) entries /\ route = endpoint_proxy key url).
  { intros route entries. rewrite in_flat_map. split.
    - intros ([key [url|]] & I & R); simpl in R; [|contradiction].
      destruct R as [<-|[]]. eauto.
    - intros (key & url & I & ->). exists (key, Some url). split; [assumption|]. now left. }
  split; [|split; [|split]].
  - destruct (ProxyRouter.metadataUrl options), (proxied_entries options);
      (split; intros H;
       [first [discriminate H | split; reflexivity]
       |first [reflexivity
              | destruct H as [H1 H2]; first [discriminate H1 | discriminate H2]]]).
  - destruct (ProxyRouter.metadataUrl options), (proxied_entries options);
      (split;
       [intros (r & H);
        first [discriminate H | left; discriminate | right; discriminate]
       |intros [H|H];
        first [eexists; reflexivity | exfalso; apply H; reflexivity]]).
  - intros routes E route.
    assert (routes
            = ((match ProxyRouter.metadataUrl options with
                | Some url => [metadata_proxy url] | None => [] end)
               ++ flat_map (fun entry : string * option Url.URL =>
                              match snd entry with
                              | Some url => [endpoint_proxy (fst entry) url]
                              | None => []
                              end) (proxied_entries options))%list) as ->.
    { destruct (ProxyRouter.metadataUrl options), (proxied_entries options);
        try discriminate; now injection E. }
    rewrite in_app_iff, F. apply or_iff_compat_r.
    destruct (ProxyRouter.metadataUrl options) as [url|]; simpl.
    + split.
      * intros [<-|[]]. eauto.
      * intros (u & [= <-] & ->). now left.
    + split; [contradiction | intros (u & ? & _); discriminate].
  - intros M N A. rewrite M.
    destruct (proxied_entries options) as [|entry entries] eqn:P; [contradiction|].
    f_equal. simpl.
    assert (Z : forall l : list (string * option Url.URL),
               Forall (fun entry => snd entry = None) l ->
               flat_map (fun entry => match snd entry with
                                      | Some url => [endpoint_proxy (fst entry) url]
                                      | None => []
                                      end) l = []).
    { induction 1 as [|[k v] l H _ IH]; simpl in *; [reflexivity|]. now rewrite H. }
    apply (Z (entry :: entries) A).
Qed.

(** A token endpoint on another host is proxied to that host's origin; an
    object with an [undefined] endpoint and nothing else gives a router
    without routes. *)
Lemma proxy_router_routes_witness :
  ProxyRouter.mcpAuthProxyRouter
    (ProxyRouter.mkOptions None (Some [("authorize", None)])) = Net.Resolved []
  /\ In ("/token", ProxyRouter.mkProxy "https://auth.example.com" true None)
       (match ProxyRouter.mcpAuthProxyRouter
                (ProxyRouter.mkOptions None
                   (Some [("token", Some (Url.mkURL "https:" "auth.example.com" "/oauth/token"
                                            None None))]))
        with Net.Resolved routes => routes | Net.Rejected _ => [] end).
Proof.
  split.
  - destruct (proxy_router_routes (ProxyRouter.mkOptions None (Some [("authorize", None)])))
      as (_ & _ & _ & H).
    apply H; [reflexivity | discriminate | repeat constructor].
  - destruct (proxy_router_routes
                (ProxyRouter.mkOptions None
                   (Some [("token", Some (Url.mkURL "https:" "auth.example.com" "/oauth/token"
                                            None None))])))
      as (_ & _ & H & _).
    apply (H _ eq_refl). right. do 2 eexists. split; [left; reflexivity | reflexivity].
Defined.

(* ================================================================== *)
(** * What the provider with configured endpoints sends *)

Lemma require_present (url : option string) (msg : string) (w : Net.World unit) :
  Js.truthy url = true -> Proxy.require url msg w = (Net.Resolved (Js.or_empty url), w).
Proof. intros E. unfold Proxy.require. now rewrite E. Qed.

Lemma truthy_or_empty (url : option string) :
  Js.truthy url = true -> url = Some (Js.or_empty url) /\ Js.or_empty url <> "".
Proof.
  intros T. apply truthy_spec in T as (s & -> & N). now split.
Qed.

Lemma exchangeAuthorizationCode_posts this client code :
  posts_at_most_once_to (Proxy.tokenUrl (Proxy._endpoints this))
    (Proxy.exchangeAuthorizationCode this client code).
Proof.
  intros w. unfold Proxy.exchangeAuthorizationCode, Net.bind.
  destruct (Js.truthy (Proxy.tokenUrl (Proxy._endpoints this))) eqn:T.
  - rewrite require_present by assumption. right. run_async.
    destruct (truthy_or_empty _ T) as [U N]. eexists. split; [|split; [|split]].
    + destruct (Net.ok _); [|reflexivity].
      destruct (Net.body _); simpl; [|reflexivity].
      now destruct (Tokens.OAuthTokensSchema_parse _).
    + reflexivity.
    + exact U.
    + exact N.
  - rewrite require_missing by assumption. now left.
Qed.

Lemma exchangeRefreshToken_posts this client refreshToken scopes :
  posts_at_most_once_to (Proxy.tokenUrl (Proxy._endpoints this))
    (Proxy.exchangeRefreshToken this client refreshToken scopes).
Proof.
  intros w. unfold Proxy.exchangeRefreshToken, Net.bind.
  destruct (Js.truthy (Proxy.tokenUrl (Proxy._endpoints this))) eqn:T.
  - rewrite require_present by assumption. right. run_async.
    destruct (truthy_or_empty _ T) as [U N]. eexists. split; [|split; [|split]].
    + destruct (Net.ok _); [|reflexivity].
      destruct (Net.body _); simpl; [|reflexivity].
      now destruct (Tokens.OAuthTokensSchema_parse _).
    + reflexivity.
    + exact U.
    + exact N.
  - rewrite require_missing by assumption. now left.
Qed.

Lemma revokeToken_body_posts endpoints client request :
  posts_at_most_once_to (Proxy.revocationUrl endpoints)
    (Proxy.revokeToken_body endpoints client request).
Proof.
  intros w. unfold Proxy.revokeToken_body, Net.bind.
  destruct (Js.truthy (Proxy.revocationUrl endpoints)) eqn:T.
  - rewrite require_present by assumption. right. run_async.
    destruct (truthy_or_empty _ T) as [U N]. eexists. split; [|split; [|split]].
    + now destruct (Net.ok _).
    + reflexivity.
    + exact U.
    + exact N.
  - rewrite require_missing by assumption. now left.
Qed.

Lemma registerClient_body_posts url client :
  url <> "" ->
  posts_at_most_once_to (Some url) (Proxy.registerClient_body url client).
Proof.
  intros N w. right. unfold Proxy.registerClient_body. run_async.
  eexists. split; [|split; [|split]].
  - destruct (Net.ok _); [|reflexivity]. now destruct (Net.body _).
  - reflexivity.
  - reflexivity.
  - exact N.
Qed.

(** X5. The provider with configured endpoints never contacts a URL it was
    not configured with. [authorize] and [challengeForAuthorizationCode]
    send nothing; [verifyAccessToken] runs the application's [verifyToken]
    on the token and nothing else, so whatever is sent then is sent by that
    function; each exchange sends at most one request, a POST to the token
    URL; [revokeToken], when the provider has it, at most one POST to the
    revocation URL; [registerClient], when the clients store has it, at
    most one POST to the registration URL. *)
Theorem provider_contacts_only_its_endpoints
    (options : Proxy.ProxyOptions) (client : Client.OAuthClientInformationFull)
    (params : AuthorizationParams.AuthorizationParams)
    (code refreshToken token : string) (scopes : option (list string))
    (request : Revocation.OAuthTokenRevocationRequest) :
  let this := Proxy.new options in
  sends_nothing (Proxy.authorize this client params)
  /\ sends_nothing (Proxy.challengeForAuthorizationCode client code)
  /\ (forall w, Proxy.verifyAccessToken this token w = Proxy.verifyToken options token w)
  /\ posts_at_most_once_to (Proxy.tokenUrl (Proxy.endpoints options))
       (Proxy.exchangeAuthorizationCode this client code)
  /\ posts_at_most_once_to (Proxy.tokenUrl (Proxy.endpoints options))
       (Proxy.exchangeRefreshToken this client refreshToken scopes)
  /\ (forall revoke, Proxy.revokeToken this = Some revoke ->
        posts_at_most_once_to (Proxy.revocationUrl (Proxy.endpoints options))
          (revoke client request))
  /\ (forall register, Proxy.registerClient (Proxy.clientsStore this) = Some register ->
        posts_at_most_once_to (Proxy.registrationUrl (Proxy.endpoints options))
          (register client)).
Proof.
  intros this. split; [|split; [|split; [|split; [|split; [|split]]]]].
  - intros w. unfold Proxy.authorize, Proxy.require, Net.bind.
    destruct (Js.truthy _); simpl; [|reflexivity].
    now destruct (Url.URL_parse _).
  - intros w. reflexivity.
  - intros w. reflexivity.
  - apply exchangeAuthorizationCode_posts.
  - apply exchangeRefreshToken_posts.
  - intros revoke E. subst this. simpl in E.
    destruct (Js.truthy (Proxy.revocationUrl (Proxy.endpoints options))); [|discriminate].
    injection E as <-. apply revokeToken_body_posts.
  - intros register E. subst this. simpl in E.
    destruct (Js.truthy (Proxy.registrationUrl (Proxy.endpoints options))) eqn:T;
      [|discriminate].
    injection E as <-. destruct (truthy_or_empty _ T) as [U N].
    rewrite U at 1. now apply registerClient_body_posts.
Qed.

(** The provider of the test suite revokes a token: one POST, to the
    revocation URL. *)
Lemma provider_contacts_only_its_endpoints_witness :
  Net.sent (snd (Proxy.revokeToken_body (Proxy.endpoints test_options) test_client
                   (Revocation.mk "token-to-revoke" (Some "access_token"))
                   (Proxy.start (answers 200 None))))
  = [Net.post_form "https://auth.example.com/revoke"
       [("token", "token-to-revoke"); ("client_id", "test-client");
        ("client_secret", "test-secret"); ("token_type_hint", "access_token")]]
  /\ posts_at_most_once_to (Some "https://auth.example.com/revoke")
       (Proxy.revokeToken_body (Proxy.endpoints test_options) test_client
          (Revocation.mk "token-to-revoke" (Some "access_token"))).
Proof.
  split; [reflexivity|].
  destruct (provider_contacts_only_its_endpoints test_options test_client scenario_params
              "code" "refresh" "token" None
              (Revocation.mk "token-to-revoke" (Some "access_token")))
    as (_ & _ & _ & _ & _ & H & _).
  exact (H _ eq_refl).
Defined.

(* ================================================================== *)
(** * How the proxied calls end *)

Lemma token_outcome_resolved prefix response :
  (exists tokens, token_outcome prefix response = Net.Resolved tokens)
  <-> Net.ok response = true
      /\ exists data, Net.body response = Some data
                      /\ Tokens.OAuthTokensSchema_parse data <> None.
Proof.
  unfold token_outcome. destruct (Net.ok response); simpl.
  - destruct (Net.body response) as [data|].
    + destruct (Tokens.OAuthTokensSchema_parse data) as [t|] eqn:P.
      * split; [|eauto]. intros _. split; [reflexivity|]. exists data. split; congruence.
      * split; [intros (t & E); discriminate|].
        intros (_ & d & [= <-] & N). congruence.
    + split; [intros (t & E); discriminate | intros (_ & d & E & _); discriminate].
  - split; [intros (t & E); discriminate | intros (E & _); discriminate].
Qed.

(** X6. With the token URL configured, an authorization-code exchange sends
    one form POST with exactly the fields [grant_type], [client_id],
    [client_secret] and [code] (no PKCE verifier is forwarded, and a client
    without a secret sends the empty text), and it resolves exactly when
    the answer is 2xx, its body is JSON and the token schema accepts it;
    otherwise it rejects: non-2xx with the status, a body that is not JSON
    with the parser's error, a refused body with the schema's error. The
    refresh exchange ends the same way. *)
Theorem exchange_outcomes
    (this : Proxy.ProxyOAuthServerProvider) (client : Client.OAuthClientInformationFull)
    (code refreshToken : string) (scopes : option (list string)) (url : string)
    (w : Net.World unit) :
  Proxy.tokenUrl (Proxy._endpoints this) = Some url -> url <> "" ->
  let request := code_request url client code in
  Net.sent (snd (Proxy.exchangeAuthorizationCode this client code w))
  = (Net.sent w ++ [request])%list
  /\ form_names request = ["grant_type"; "client_id"; "client_secret"; "code"]
  /\ (Client.client_secret client = None -> form_field "client_secret" request = Some "")
  /\ fst (Proxy.exchangeAuthorizationCode this client code w)
     = token_outcome "Token exchange failed: " (Net.upstream w request)
  /\ ((exists tokens,
         fst (Proxy.exchangeAuthorizationCode this client code w) = Net.Resolved tokens)
      <-> Net.ok (Net.upstream w request) = true
          /\ exists data, Net.body (Net.upstream w request) = Some data
                          /\ Tokens.OAuthTokensSchema_parse data <> None)
  /\ (exists refresh_request,
        Net.sent (snd (Proxy.exchangeRefreshToken this client refreshToken scopes w))
        = (Net.sent w ++ [refresh_request])%list
        /\ form_field "grant_type" refresh_request = Some "refresh_token"
        /\ form_field "refresh_token" refresh_request = Some refreshToken
        /\ fst (Proxy.exchangeRefreshToken this client refreshToken scopes w)
           = token_outcome "Token refresh failed: " (Net.upstream w refresh_request)).
Proof.
  intros E N request.
  assert (T : Js.truthy (Proxy.tokenUrl (Proxy._endpoints this)) = true)
    by (apply truthy_spec; eauto).
  assert (O : fst (Proxy.exchangeAuthorizationCode this client code w)
              = token_outcome "Token exchange failed: " (Net.upstream w request)
              /\ Net.sent (snd (Proxy.exchangeAuthorizationCode this client code w))
                 = (Net.sent w ++ [request])%list).
  { unfold Proxy.exchangeAuthorizationCode, Net.bind, token_outcome.
    rewrite require_present by assumption. rewrite E. run_async. fold request.
    destruct (Net.ok _); simpl; [|split; reflexivity].
    destruct (Net.body _); simpl; [|split; reflexivity].
    destruct (Tokens.OAuthTokensSchema_parse _); split; reflexivity. }
  destruct O as [O1 O2].
  split; [exact O2|]. split; [reflexivity|]. split.
  { intros S. unfold form_field. simpl. now rewrite S. }
  split; [exact O1|]. split.
  { rewrite O1. apply token_outcome_resolved. }
  unfold Proxy.exchangeRefreshToken, Net.bind, token_outcome.
  rewrite require_present by assumption. rewrite E. run_async.
  eexists. split; [|split; [|split]].
  - destruct (Net.ok _); simpl; [|reflexivity].
    destruct (Net.body _); simpl; [|reflexivity].
    now destruct (Tokens.OAuthTokensSchema_parse _).
  - destruct (Js.has_length scopes); reflexivity.
  - destruct (Js.has_length scopes); reflexivity.
  - destruct (Net.ok _); simpl; [|reflexivity].
    destruct (Net.body _); simpl; [|reflexivity].
    now destruct (Tokens.OAuthTokensSchema_parse _).
Qed.

(** The exchange of the test suite: the token response comes back as the
    token set it describes. *)
Lemma exchange_outcomes_witness :
  fst (Proxy.exchangeAuthorizationCode (Proxy.new test_options) test_client "test-code"
         (Proxy.start (answers 200 (Some test_token_response))))
  = Net.Resolved (Tokens.mk "new-access-token" "Bearer" (Some 3600%N)
                    (Some "new-refresh-token")).
Proof.
  destruct (exchange_outcomes (Proxy.new test_options) test_client "test-code" "refresh" None
              "https://auth.example.com/token"
              (Proxy.start (answers 200 (Some test_token_response)))
              eq_refl ltac:(discriminate)) as (_ & _ & _ & H & _).
  exact H.
Defined.

(** X7. With a registration URL configured, [registerClient] POSTs the
    client as JSON (a client without a secret sends no [client_secret]
    property) and resolves exactly when the answer is 2xx with a JSON body,
    with that body as it came: whatever the server assigned or changed is
    handed on unchecked. *)
Theorem registerClient_outcomes
    (options : Proxy.ProxyOptions) (client : Client.OAuthClientInformationFull)
    (url : string) (w : Net.World unit) :
  Proxy.registrationUrl (Proxy.endpoints options) = Some url -> url <> "" ->
  exists register,
    Proxy.registerClient (Proxy.clientsStore (Proxy.new options)) = Some register
    /\ Net.sent (snd (register client w))
       = (Net.sent w ++ [Net.post_json url (Client.to_json client)])%list
    /\ (forall registered,
          fst (register client w) = Net.Resolved registered
          <-> Net.ok (Net.upstream w (Net.post_json url (Client.to_json client))) = true
              /\ Net.body (Net.upstream w (Net.post_json url (Client.to_json client)))
                 = Some registered)
    /\ (Client.client_secret client = None ->
        Js.get_field "client_secret" (Client.to_json client) = None).
Proof.
  intros E N. simpl. rewrite E. simpl.
  apply String.eqb_neq in N as N'. rewrite N'. simpl.
  eexists. split; [reflexivity|].
  unfold Proxy.registerClient_body. run_async.
  set (response := Net.upstream w (Net.post_json url (Client.to_json client))).
  split; [|split].
  - destruct (Net.ok response); [|reflexivity]. now destruct (Net.body response).
  - intros registered. destruct (Net.ok response); simpl.
    + destruct (Net.body response) as [j|]; simpl.
      * split; [intros [= <-]; now split | intros (_ & [= <-]); reflexivity].
      * split; [discriminate | intros (_ & D); discriminate].
    + split; [discriminate | intros (D & _); discriminate].
  - intros S. unfold Client.to_json. rewrite S. reflexivity.
Qed.

(** The registration of the test suite: the new client has no secret, and
    the answer of the server is what the caller gets. *)
Lemma registerClient_outcomes_witness :
  let new_client := Client.mk "new-client" None ["https://new-client.com/callback"] in
  exists register,
    Proxy.registerClient (Proxy.clientsStore (Proxy.new test_options)) = Some register
    /\ fst (register new_client
              (Proxy.start (answers 200 (Some (Client.to_json new_client)))))
       = Net.Resolved (Client.to_json new_client).
Proof.
  intros new_client.
  destruct (registerClient_outcomes test_options new_client "https://auth.example.com/register"
              (Proxy.start (answers 200 (Some (Client.to_json new_client))))
              eq_refl ltac:(discriminate)) as (register & E & _ & H & _).
  exists register. split; [exact E|]. apply H. split; reflexivity.
Defined.

(** X8. With a revocation URL configured, [revokeToken] sends the fields
    [token], [client_id] and [client_secret], and [token_type_hint] exactly
    when a non-empty hint was given; it resolves exactly when the answer is
    2xx, without reading the body. *)
Theorem revokeToken_outcomes
    (endpoints : Proxy.ProxyEndpoints) (client : Client.OAuthClientInformationFull)
    (request : Revocation.OAuthTokenRevocationRequest) (url : string) (w : Net.World unit) :
  Proxy.revocationUrl endpoints = Some url -> url <> "" ->
  exists sent_request,
    Net.sent (snd (Proxy.revokeToken_body endpoints client request w))
    = (Net.sent w ++ [sent_request])%list
    /\ Net.req_url sent_request = url
    /\ form_names sent_request
       = (["token"; "client_id"; "client_secret"]
          ++ if Js.truthy (Revocation.token_type_hint request)
             then ["token_type_hint"] else [])%list
    /\ form_field "token" sent_request = Some (Revocation.token request)
    /\ form_field "token_type_hint" sent_request
       = (if Js.truthy (Revocation.token_type_hint request)
          then Revocation.token_type_hint request else None)
    /\ (fst (Proxy.revokeToken_body endpoints client request w) = Net.Resolved tt
        <-> Net.ok (Net.upstream w sent_request) = true).
Proof.
  intros E N.
  assert (T : Js.truthy (Proxy.revocationUrl endpoints) = true)
    by (apply truthy_spec; eauto).
  unfold Proxy.revokeToken_body, Net.bind.
  rewrite require_present by assumption. rewrite E. run_async.
  eexists. split; [|split; [|split; [|split; [|split]]]].
  - now destruct (Net.ok _).
  - reflexivity.
  - now destruct (Js.truthy (Revocation.token_type_hint request)).
  - now destruct (Js.truthy (Revocation.token_type_hint request)).
  - destruct (Revocation.token_type_hint request) as [hint|]; simpl; [|reflexivity].
    now destruct (hint =? "").
  - destruct (Net.ok _); simpl; split; intros H; try reflexivity; discriminate.
Qed.

(** The revocation of the test suite without a hint: three fields, and a
    2xx answer without a body is a success. *)
Lemma revokeToken_outcomes_witness :
  fst (Proxy.revokeToken_body (Proxy.endpoints test_options) test_client
         (Revocation.mk "invalid-token" None) (Proxy.start (answers 204 None)))
  = Net.Resolved tt.
Proof.
  destruct (revokeToken_outcomes (Proxy.endpoints test_options) test_client
              (Revocation.mk "invalid-token" None) "https://auth.example.com/revoke"
              (Proxy.start (answers 204 None)) eq_refl ltac:(discriminate))
    as (r & _ & _ & _ & _ & _ & H).
  now apply H.
Defined.

(* ================================================================== *)
(** * The scope parameter *)




(** A scope that holds a space does not survive: it arrives as two. *)
Example scope_with_space_is_split :
  Url.split_on " " (Js.join " " ["read write"]) = ["read"; "write"].
Proof. reflexivity. Qed.

(* ================================================================== *)
(** * The lazy provider: the metadata cache *)

Lemma getMetadata_hit this (w : Net.World (option Js.Json)) :
  Js.truthy (LazyProxy._metadataUrl this) = true ->
  LazyProxy.truthy_metadata (Net.heap w) = true ->
  LazyProxy.getMetadata this w = (Net.Resolved (Net.heap w), w).
Proof.
  intros U C. unfold LazyProxy.getMetadata. rewrite U. run_async. now rewrite C.
Qed.

Lemma getMetadata_miss this (w : Net.World (option Js.Json)) :
  Js.truthy (LazyProxy._metadataUrl this) = true ->
  LazyProxy.truthy_metadata (Net.heap w) = false ->
  let response := Net.upstream w (metadata_request this) in
  LazyProxy.getMetadata this w
  = match Net.ok response, Net.body response with
    | true, Some document =>
        (Net.Resolved (Some document),
         after_request w (metadata_request this) (Some document))
    | _, _ =>
        (Net.Rejected (metadata_failure response),
         after_request w (metadata_request this) (Net.heap w))
    end.
Proof.
  intros U C response. unfold LazyProxy.getMetadata, metadata_failure. rewrite U.
  run_async. rewrite C. simpl. fold (metadata_request this). fold response.
  destruct (Net.ok response); simpl; [|reflexivity].
  now destruct (Net.body response).
Qed.

Lemma getMetadata_off this (w : Net.World (option Js.Json)) :
  Js.truthy (LazyProxy._metadataUrl this) = false ->
  LazyProxy.getMetadata this w = (Net.Resolved None, w).
Proof. intros U. unfold LazyProxy.getMetadata. now rewrite U. Qed.

(** X10. The metadata cache between calls that do not overlap. A usable
    cached document is returned without a request and is never replaced. A
    fetch that fails (non-2xx, or a body that is not JSON) leaves the cache
    as it was, so the next call tries again. A fetched document is stored,
    but only a truthy one stops later fetches: when the server answers
    [null], [false], [0] or the empty text, every call fetches again. *)
Theorem metadata_cache_between_calls
    (this : LazyProxy.ProxyOAuthServerProvider) (w : Net.World (option Js.Json)) :
  Js.truthy (LazyProxy._metadataUrl this) = true ->
  let response := Net.upstream w (metadata_request this) in
  (LazyProxy.truthy_metadata (Net.heap w) = true ->
   LazyProxy.getMetadata this w = (Net.Resolved (Net.heap w), w)
   /\ getMetadata_twice this w = (Net.Resolved (Net.heap w), w))
  /\ (LazyProxy.truthy_metadata (Net.heap w) = false ->
      (Net.ok response = false \/ Net.body response = None ->
       LazyProxy.getMetadata this w
       = (Net.Rejected (metadata_failure response),
          after_request w (metadata_request this) (Net.heap w)))
      /\ (forall document,
            Net.ok response = true -> Net.body response = Some document ->
            LazyProxy.getMetadata this w
            = (Net.Resolved (Some document),
               after_request w (metadata_request this) (Some document))
            /\ Net.sent (snd (getMetadata_twice this w))
               = (if LazyProxy.truthy_json document
                  then Net.sent w ++ [metadata_request this]
                  else Net.sent w ++ [metadata_request this; metadata_request this])%list)).
Proof.
  intros U response. split.
  - intros C. split; [now apply getMetadata_hit|].
    unfold getMetadata_twice, Net.bind. now rewrite !getMetadata_hit.
  - intros C. pose proof (getMetadata_miss this w U C) as M. fold response in M. cbv zeta in M.
    split.
    + intros [O|B]; rewrite M.
      * now rewrite O.
      * rewrite B. now destruct (Net.ok response).
    + intros document O B. rewrite O, B in M. split; [exact M|].
      unfold getMetadata_twice, Net.bind. rewrite M.
      destruct (LazyProxy.truthy_json document) eqn:T.
      * now rewrite getMetadata_hit.
      * rewrite getMetadata_miss by assumption. simpl.
        fold response. rewrite O, B. simpl. now rewrite <- app_assoc.
Qed.

(** The metadata server answers [null]: two calls, two requests. *)
Lemma metadata_cache_between_calls_witness :
  Net.sent (snd (getMetadata_twice lazy_only_metadata
                   (LazyProxy.start (answers 200 (Some Js.JNull)))))
  = [Net.get "https://up.example/.well-known/oauth-authorization-server";
     Net.get "https://up.example/.well-known/oauth-authorization-server"]
  /\ Net.sent (snd (getMetadata_twice lazy_only_metadata (LazyProxy.start metadata_server)))
     = [Net.get "https://up.example/.well-known/oauth-authorization-server"].
Proof.
  split.
  - destruct (metadata_cache_between_calls lazy_only_metadata
                (LazyProxy.start (answers 200 (Some Js.JNull))) eq_refl) as (_ & H).
    destruct (H eq_refl) as (_ & H').
    exact (proj2 (H' Js.JNull eq_refl eq_refl)).
  - destruct (metadata_cache_between_calls lazy_only_metadata
                (LazyProxy.start metadata_server) eq_refl) as (_ & H).
    destruct (H eq_refl) as (_ & H').
    exact (proj2 (H' _ eq_refl eq_refl)).
Defined.

(* ================================================================== *)
(** * The lazy provider: construction and endpoint resolution *)

(** X11. The lazy provider refuses to be built exactly when it is given
    neither a metadata URL nor an endpoints object. An endpoints object is
    enough even when it is empty: the provider is built, and then
    [authorize], both exchanges, [revokeToken] and [registerClient] all
    fail without sending anything. *)
Theorem lazy_constructor_guard
    (options : LazyProxy.ProxyOptions) (client : Client.OAuthClientInformationFull)
    (params : AuthorizationParams.AuthorizationParams) (code refreshToken : string)
    (scopes : option (list string)) (request : Revocation.OAuthTokenRevocationRequest)
    (w : Net.World (option Js.Json)) :
  (LazyProxy.new options
   = Net.Rejected (Errors.JsError "Either metadataUrl or at least one endpoint must be provided")
   <-> Js.truthy (LazyProxy.metadataUrl options) = false
       /\ LazyProxy.endpoints options = None)
  /\ (Js.truthy (LazyProxy.metadataUrl options) = true
      \/ LazyProxy.endpoints options <> None ->
      LazyProxy.new options
      = Net.Resolved
          (LazyProxy.mkProvider (LazyProxy.metadataUrl options)
             (match LazyProxy.endpoints options with
              | Some e => e | None => LazyProxy.no_endpoints end)
             (LazyProxy.verifyToken options)))
  /\ (Js.truthy (LazyProxy.metadataUrl options) = false ->
      LazyProxy.endpoints options = Some LazyProxy.no_endpoints ->
      exists this,
        LazyProxy.new options = Net.Resolved this
        /\ LazyProxy.authorize this client params w
           = (Net.Rejected (Errors.JsError "No authorization endpoint configured"), w)
        /\ LazyProxy.exchangeAuthorizationCode this client code w
           = (Net.Rejected (Errors.JsError "No token endpoint configured"), w)
        /\ LazyProxy.exchangeRefreshToken this client refreshToken scopes w
           = (Net.Rejected (Errors.JsError "No token endpoint configured"), w)
        /\ LazyProxy.revokeToken this client request w
           = (Net.Rejected (Errors.JsError "No revocation endpoint configured"), w)
        /\ LazyProxy.registerClient this client w
           = (Net.Rejected (Errors.JsError "Client registration not supported"), w)).
Proof.
  unfold LazyProxy.new. split; [|split].
  - destruct (Js.truthy (LazyProxy.metadataUrl options)), (LazyProxy.endpoints options);
      simpl; split; intros H; try discriminate; try (split; reflexivity); try reflexivity;
      destruct H as [H1 H2]; discriminate.
  - destruct (Js.truthy (LazyProxy.metadataUrl options)), (LazyProxy.endpoints options);
      simpl; intros [H|H]; try reflexivity; try discriminate; now destruct H.
  - intros U E. rewrite U, E. simpl. eexists. split; [reflexivity|].
    unfold LazyProxy.authorize, LazyProxy.exchangeAuthorizationCode,
      LazyProxy.exchangeRefreshToken, LazyProxy.revokeToken, LazyProxy.registerClient,
      Net.bind.
    rewrite getMetadata_off by assumption. repeat split.
Qed.

(** Built from [{endpoints: {}}], the provider cannot even register. *)
Lemma lazy_constructor_guard_witness :
  exists this,
    LazyProxy.new (LazyProxy.mkOptions None (Some LazyProxy.no_endpoints) test_verifier)
    = Net.Resolved this
    /\ LazyProxy.registerClient this test_client (LazyProxy.start (answers 200 None))
       = (Net.Rejected (Errors.JsError "Client registration not supported"),
          LazyProxy.start (answers 200 None)).
Proof.
  destruct (lazy_constructor_guard
              (LazyProxy.mkOptions None (Some LazyProxy.no_endpoints) test_verifier)
              test_client scenario_params "code" "refresh" None (Revocation.mk "t" None)
              (LazyProxy.start (answers 200 None))) as (_ & _ & H).
  destruct (H eq_refl eq_refl) as (this & E & _ & _ & _ & _ & R).
  exists this. split; assumption.
Defined.

(** An operation of the lazy provider that stops at a failed metadata
    fetch. *)
Lemma metadata_outage this (w : Net.World (option Js.Json)) :
  Js.truthy (LazyProxy._metadataUrl this) = true ->
  LazyProxy.truthy_metadata (Net.heap w) = false ->
  Net.ok (Net.upstream w (metadata_request this)) = false
  \/ Net.body (Net.upstream w (metadata_request this)) = None ->
  LazyProxy.getMetadata this w
  = (Net.Rejected (metadata_failure (Net.upstream w (metadata_request this))),
     after_request w (metadata_request this) (Net.heap w)).
Proof.
  intros U C F. rewrite getMetadata_miss by assumption. cbv zeta.
  destruct F as [O|B].
  - now rewrite O.
  - rewrite B. now destruct (Net.ok _).
Qed.

(** X12. A metadata URL makes every operation of the lazy provider depend
    on the metadata server, even an operation whose endpoint is configured.
    While nothing usable is cached and the metadata fetch fails, [authorize],
    both exchanges, [revokeToken] and [registerClient] reject with the
    metadata error (a [ServerError] with the status for a non-2xx answer)
    and the only request sent is the metadata request. *)
Theorem metadata_outage_blocks_everything
    (this : LazyProxy.ProxyOAuthServerProvider) (client : Client.OAuthClientInformationFull)
    (params : AuthorizationParams.AuthorizationParams) (code refreshToken : string)
    (scopes : option (list string)) (request : Revocation.OAuthTokenRevocationRequest)
    (w : Net.World (option Js.Json)) :
  Js.truthy (LazyProxy._metadataUrl this) = true ->
  LazyProxy.truthy_metadata (Net.heap w) = false ->
  Net.ok (Net.upstream w (metadata_request this)) = false
  \/ Net.body (Net.upstream w (metadata_request this)) = None ->
  let failure := metadata_failure (Net.upstream w (metadata_request this)) in
  let w' := after_request w (metadata_request this) (Net.heap w) in
  LazyProxy.authorize this client params w = (Net.Rejected failure, w')
  /\ LazyProxy.exchangeAuthorizationCode this client code w = (Net.Rejected failure, w')
  /\ LazyProxy.exchangeRefreshToken this client refreshToken scopes w
     = (Net.Rejected failure, w')
  /\ LazyProxy.revokeToken this client request w = (Net.Rejected failure, w')
  /\ LazyProxy.registerClient this client w = (Net.Rejected failure, w')
  /\ (Net.ok (Net.upstream w (metadata_request this)) = false ->
      failure = Errors.ServerError
                  ("Failed to fetch OAuth metadata: "
                   ++ Js.string_of_N (Net.status (Net.upstream w (metadata_request this))))).
Proof.
  intros U C F failure w'. pose proof (metadata_outage this w U C F) as M.
  fold failure in M. fold w' in M.
  unfold LazyProxy.authorize, LazyProxy.exchangeAuthorizationCode,
    LazyProxy.exchangeRefreshToken, LazyProxy.revokeToken, LazyProxy.registerClient, Net.bind.
  rewrite M. repeat split. intros O. subst failure. unfold metadata_failure. now rewrite O.
Qed.

(** A lazy provider with its own token endpoint and a metadata URL, while
    the metadata server answers 503: the exchange fails on the metadata. *)
Lemma metadata_outage_blocks_everything_witness :
  let this := LazyProxy.mkProvider
                (Some "https://up.example/.well-known/oauth-authorization-server")
                (LazyProxy.mkEndpoints None (Some "https://auth.example.com/token") None None)
                test_verifier in
  LazyProxy.exchangeAuthorizationCode this test_client "code"
    (LazyProxy.start (answers 503 None))
  = (Net.Rejected (Errors.ServerError "Failed to fetch OAuth metadata: 503"),
     Net.mkWorld (answers 503 None)
       [Net.get "https://up.example/.well-known/oauth-authorization-server"] None).
Proof.
  intros this.
  destruct (metadata_outage_blocks_everything this test_client scenario_params "code"
              "refresh" None (Revocation.mk "t" None) (LazyProxy.start (answers 503 None))
              eq_refl eq_refl (or_introl eq_refl)) as (_ & H & _).
  exact H.
Defined.



(* ================================================================== *)
(** * The middleware: what decides the answer *)

(** The header either never reaches the verification function, or it is
    well formed. *)
Lemma attempt_cases verifyToken required authHeader :
  (exists e, Errors.instanceof_InvalidTokenError e = true
             /\ Bearer.attempt verifyToken required authHeader = ([], Net.Rejected e))
  \/ exists header token, authHeader = Some header /\ well_formed header token.
Proof.
  unfold Bearer.attempt.
  destruct (Js.truthy authHeader) eqn:T; cbn [negb];
    [|left; eexists; split; [|reflexivity]; reflexivity].
  apply truthy_spec in T as (header & -> & N).
  change (Js.or_empty (Some header)) with header.
  destruct (Bearer.toLowerCase (nth 0 (Url.split_on " " header) "") =? "bearer") eqn:L;
    cbn [negb orb]; [|left; eexists; split; [|reflexivity]; reflexivity].
  destruct (Js.truthy (nth_error (Url.split_on " " header) 1)) eqn:K;
    cbn [negb]; [|left; eexists; split; [|reflexivity]; reflexivity].
  right. apply truthy_spec in K as (token & K & NT).
  exists header, token. split; [reflexivity|].
  destruct (Url.split_on " " header) as [|type [|second rest]] eqn:S; try discriminate K.
  simpl in K, L. injection K as ->. apply String.eqb_eq in L.
  exists type, rest. repeat split; auto.
Qed.

(** X14. The answer of the middleware depends on the header only through
    the token: two headers with the same non-empty second segment and the
    scheme in whatever letter case get the same treatment, whatever follows
    the token. *)
Theorem answer_depends_on_token_only
    (options : Bearer.BearerAuthMiddlewareOptions) (header header' token : string) :
  well_formed header token -> well_formed header' token ->
  Bearer.requireBearerAuth options (Some header)
  = Bearer.requireBearerAuth options (Some header').
Proof.
  intros W W'.
  now rewrite !requireBearerAuth_unfold, (attempt_well_formed _ _ _ _ W),
    (attempt_well_formed _ _ _ _ W').
Qed.

(** Upper case scheme and a trailing segment change nothing. *)
Lemma answer_depends_on_token_only_witness :
  Bearer.requireBearerAuth test_middleware (Some "BEARER valid-token")
  = Bearer.requireBearerAuth test_middleware (Some "Bearer valid-token and more").
Proof.
  apply (answer_depends_on_token_only test_middleware _ _ "valid-token").
  - exists "BEARER", []. repeat split. discriminate.
  - exists "Bearer", ["and"; "more"]. repeat split. discriminate.
Defined.

(** X15. Whatever the header and whatever the verification function does,
    a request the middleware answers itself is answered from the error
    raised in the [try] block: the header error, the rejection of the
    verification function or the scope error. An OAuth error is answered
    with its own body; any other error is replaced by a [ServerError]
    "Internal Server Error", so its message never reaches the answer. The
    status is 401 or 403 with a [WWW-Authenticate] challenge for the error
    answered, or 400 or 500 without one. *)
Theorem answers_are_oauth_errors
    (options : Bearer.BearerAuthMiddlewareOptions) (authHeader : option string)
    (response : Bearer.HttpResponse) :
  Bearer.outcome (Bearer.requireBearerAuth options authHeader) = Bearer.Respond response ->
  exists raised,
    raised_by options authHeader raised
    /\ let e := if Errors.instanceof_OAuthError raised then raised
                else Errors.ServerError "Internal Server Error" in
       Errors.instanceof_OAuthError e = true
       /\ Bearer.http_body response = Errors.toResponseObject e
       /\ ((Bearer.www_authenticate response = Some (Bearer.challenge e)
            /\ (Bearer.http_status response = 401%N \/ Bearer.http_status response = 403%N))
           \/ (Bearer.www_authenticate response = None
               /\ (Bearer.http_status response = 400%N
                   \/ Bearer.http_status response = 500%N)))
       /\ (Bearer.http_status response = 401%N
           <-> Errors.instanceof_InvalidTokenError e = true)
       /\ (Bearer.http_status response = 403%N
           <-> Errors.instanceof_InsufficientScopeError e = true).
Proof.
  rewrite requireBearerAuth_unfold.
  assert (M : forall raised,
    let e := if Errors.instanceof_OAuthError raised then raised
             else Errors.ServerError "Internal Server Error" in
    Errors.instanceof_OAuthError e = true
    /\ Bearer.http_body (Bearer.recover raised) = Errors.toResponseObject e
    /\ ((Bearer.www_authenticate (Bearer.recover raised) = Some (Bearer.challenge e)
         /\ (Bearer.http_status (Bearer.recover raised) = 401%N
             \/ Bearer.http_status (Bearer.recover raised) = 403%N))
        \/ (Bearer.www_authenticate (Bearer.recover raised) = None
            /\ (Bearer.http_status (Bearer.recover raised) = 400%N
                \/ Bearer.http_status (Bearer.recover raised) = 500%N)))
    /\ (Bearer.http_status (Bearer.recover raised) = 401%N
        <-> Errors.instanceof_InvalidTokenError e = true)
    /\ (Bearer.http_status (Bearer.recover raised) = 403%N
        <-> Errors.instanceof_InsufficientScopeError e = true)).
  { intros raised. destruct raised; simpl;
      repeat split; auto; try discriminate; intros; discriminate. }
  unfold Bearer.attempt.
  destruct (Js.truthy authHeader) eqn:T; cbn [negb].
  2:{ simpl. intros [= <-]. exists missing. split; [|apply (M missing)].
      left. split; [reflexivity | exact T]. }
  apply truthy_spec in T as (header & -> & N).
  change (Js.or_empty (Some header)) with header.
  destruct (Bearer.toLowerCase (nth 0 (Url.split_on " " header) "") =? "bearer") eqn:L;
    cbn [negb orb].
  2:{ simpl. intros [= <-]. exists malformed. split; [|apply (M malformed)].
      right; left. split; [reflexivity|]. exists header. split; [reflexivity|].
      intros token (type & rest & S & B & _). rewrite S in L. simpl in L.
      rewrite B in L. discriminate L. }
  destruct (Js.truthy (nth_error (Url.split_on " " header) 1)) eqn:K; cbn [negb].
  2:{ simpl. intros [= <-]. exists malformed. split; [|apply (M malformed)].
      right; left. split; [reflexivity|]. exists header. split; [reflexivity|].
      intros token (type & rest & S & _ & NT). rewrite S in K. simpl in K.
      apply String.eqb_neq in NT. rewrite NT in K. discriminate K. }
  apply truthy_spec in K as (token & K & NT).
  assert (W : well_formed header token).
  { destruct (Url.split_on " " header) as [|type [|second rest]] eqn:S; try discriminate K.
    simpl in K, L. injection K as ->. apply String.eqb_eq in L.
    exists type, rest. repeat split; auto. }
  rewrite K. change (Js.or_empty (Some token)) with token.
  destruct (effective_verifyToken options token) as [auth|raised] eqn:V.
  - destruct (effective_requiredScopes options) as [|r required] eqn:R;
      [simpl; discriminate|].
    change (Nat.ltb 0 (List.length (r :: required))) with true. cbv iota.
    destruct (forallb _ (r :: required)) eqn:A; simpl; [discriminate|].
    intros [= <-]. exists (Errors.InsufficientScopeError "Insufficient scope").
    split; [|apply (M (Errors.InsufficientScopeError "Insufficient scope"))].
    right; right. exists header, token. split; [reflexivity|]. split; [exact W|].
    right. exists auth. rewrite R. repeat split; auto.
  - simpl. intros [= <-]. exists raised. split; [|apply (M raised)].
    right; right. exists header, token. split; [reflexivity|]. split; [exact W|].
    now left.
Qed.

(** The verification function of the test suite throws a plain error with
    its own message, "Invalid token"; the answer carries "Internal Server
    Error". *)
Lemma answers_are_oauth_errors_witness :
  exists raised,
    raised_by test_middleware (Some "Bearer invalid-token") raised
    /\ Js.JObject [("error", Js.JString "server_error");
                   ("error_description", Js.JString "Internal Server Error")]
       = Errors.toResponseObject
           (if Errors.instanceof_OAuthError raised then raised
            else Errors.ServerError "Internal Server Error").
Proof.
  destruct (answers_are_oauth_errors test_middleware (Some "Bearer invalid-token")
              (Bearer.mkHttp 500 None
                 (Js.JObject [("error", Js.JString "server_error");
                              ("error_description", Js.JString "Internal Server Error")]))
              eq_refl) as (raised & O & _ & B & _).
  exists raised. split; [exact O | exact B].
Defined.

(** X16. The middleware lets a request through only on the strength of a
    successful verification: when it calls the downstream handler, the
    header was well formed, the verification function was called once, with
    the token of the header, it resolved with the very identity that is
    attached to the request, and every required scope is among that
    identity's scopes. In no case is the verification function called more
    than once. *)
Theorem next_only_after_verification
    (options : Bearer.BearerAuthMiddlewareOptions) (authHeader : option string) :
  (forall auth,
     Bearer.outcome (Bearer.requireBearerAuth options authHeader) = Bearer.Next auth ->
     exists header token,
       authHeader = Some header
       /\ well_formed header token
       /\ Bearer.verified (Bearer.requireBearerAuth options authHeader) = [token]
       /\ effective_verifyToken options token = Net.Resolved auth
       /\ incl (effective_requiredScopes options) (AuthInfo.scopes auth))
  /\ List.length (Bearer.verified (Bearer.requireBearerAuth options authHeader)) <= 1.
Proof.
  rewrite requireBearerAuth_unfold.
  destruct (attempt_cases (effective_verifyToken options) (effective_requiredScopes options)
              authHeader) as [(e & _ & A) | (header & token & -> & W)].
  - rewrite A. simpl. split; [discriminate | lia].
  - rewrite (attempt_well_formed _ _ _ _ W).
    destruct (effective_verifyToken options token) as [auth|e] eqn:V; simpl.
    + destruct (forallb _ _) eqn:S; simpl.
      * split; [|lia]. intros a [= <-]. exists header, token.
        repeat split; try assumption. now apply hasAllScopes_incl.
      * split; [discriminate | lia].
    + split; [discriminate | lia].
Qed.

(** The valid token of the test suite gets through with its identity. *)
Lemma next_only_after_verification_witness :
  exists header token,
    Some "Bearer valid-token" = Some header
    /\ well_formed header token
    /\ test_verifyToken token
       = Net.Resolved (AuthInfo.mk "valid-token" "test-client" ["read"; "write"] None).
Proof.
  destruct (next_only_after_verification test_middleware (Some "Bearer valid-token"))
    as (H & _).
  destruct (H (AuthInfo.mk "valid-token" "test-client" ["read"; "write"] None) eq_refl)
    as (header & token & E & W & _ & V & _).
  exists header, token. repeat split; assumption.
Defined.

(* ================================================================== *)
(** * The assemblers of the metadata document *)

(** X17. The three assemblers of the document agree where they can: the
    router that assembles it itself produces, for every provider, the
    document of the proxy-aware handler; the handler written against the
    provider contract produces the same document for every provider that is
    not a proxy, and for a proxy that exposes no URL. *)
Theorem assemblers_agree
    (provider : Metadata.OAuthServerProvider) (issuer : Url.URL)
    (documentation : option Url.URL) :
  RouterMetadata.metadata provider issuer documentation
  = Metadata.metadataHandler provider issuer documentation
  /\ (Js.truthy (Metadata.authorizationUrl provider) = false ->
      Js.truthy (Metadata.tokenUrl provider) = false ->
      Js.truthy (Metadata.revocationUrl provider) = false ->
      Js.truthy (Metadata.registrationUrl provider) = false ->
      LocalMetadata.metadataHandler provider issuer documentation
      = Metadata.metadataHandler provider issuer documentation)
  /\ (Metadata.isProxy provider = false ->
      LocalMetadata.metadataHandler provider issuer documentation
      = Metadata.metadataHandler provider issuer documentation).
Proof.
  split; [apply router_metadata_agrees|].
  assert (A : Js.truthy (Metadata.authorizationUrl provider) = false ->
              Js.truthy (Metadata.tokenUrl provider) = false ->
              Js.truthy (Metadata.revocationUrl provider) = false ->
              Js.truthy (Metadata.registrationUrl provider) = false ->
              LocalMetadata.metadataHandler provider issuer documentation
              = Metadata.metadataHandler provider issuer documentation).
  { intros A T V G.
    unfold LocalMetadata.metadataHandler, Metadata.metadataHandler.
    rewrite A, T, V, G, !andb_false_r.
    pose proof (href_nonempty (Url.URL_resolve Router.DEFAULT_REVOCATION_ENDPOINT issuer)) as N.
    apply String.eqb_neq in N.
    destruct (Metadata.has_revokeToken provider); simpl; now rewrite ?N. }
  split; [exact A|].
  intros P. destruct provider; [discriminate|]. now apply A.
Qed.

(** A provider that is not a proxy, with revocation and without
    registration: one document, whoever assembles it. *)
Lemma assemblers_agree_witness :
  LocalMetadata.metadataHandler (Metadata.OtherProvider true false) local_issuer None
  = RouterMetadata.metadata (Metadata.OtherProvider true false) local_issuer None.
Proof.
  destruct (assemblers_agree (Metadata.OtherProvider true false) local_issuer None)
    as (R & _ & L).
  rewrite R. now apply L.
Defined.

(** X18. For a proxy provider built by its constructor the proxy-aware
    document never names a local [/revoke] or [/register] URL: the
    capability exists only together with an upstream URL, so the document
    names that URL or leaves the endpoint out. The router still mounts the
    local [/revoke] route, which the document does not advertise. *)
Theorem proxy_document_points_upstream
    (options : Proxy.ProxyOptions) (issuer : Url.URL) (documentation : option Url.URL) :
  let provider := Metadata.ProxyInstance (Proxy.new options) in
  let m := Metadata.metadataHandler provider issuer documentation in
  Metadata.revocation_endpoint m
  = (if Js.truthy (Proxy.revocationUrl (Proxy.endpoints options))
     then Proxy.revocationUrl (Proxy.endpoints options) else None)
  /\ Metadata.registration_endpoint m
     = (if Js.truthy (Proxy.registrationUrl (Proxy.endpoints options))
        then Proxy.registrationUrl (Proxy.endpoints options) else None)
  /\ (forall url routes,
        Proxy.revocationUrl (Proxy.endpoints options) = Some url -> url <> "" ->
        InlineRouter.mcpAuthRouter (AuthRouter.mkOptions provider issuer documentation)
        = Net.Resolved routes ->
        mounted "/revoke" routes
        /\ exists served_document,
             served routes = Some served_document
             /\ Metadata.revocation_endpoint served_document = Some url).
Proof.
  intros provider m.
  destruct (metadataHandler_fields provider issuer documentation) as (_ & _ & M3 & _ & M5).
  fold m in M3, M5.
  destruct (proxy_capabilities options) as [V G]. fold provider in V, G.
  assert (R : Metadata.revocation_endpoint m
              = (if Js.truthy (Proxy.revocationUrl (Proxy.endpoints options))
                 then Proxy.revocationUrl (Proxy.endpoints options) else None)).
  { rewrite M3, V. subst provider. simpl.
    destruct (Proxy.revocationUrl (Proxy.endpoints options)) as [url|]; simpl; [|reflexivity].
    unfold advertised. now destruct (url =? ""). }
  split; [exact R|]. split.
  { rewrite M5, G. subst provider. simpl.
    destruct (Proxy.registrationUrl (Proxy.endpoints options)) as [url|]; simpl; [|reflexivity].
    unfold advertised. now destruct (url =? ""). }
  intros url routes E N I.
  assert (T : Js.truthy (Proxy.revocationUrl (Proxy.endpoints options)) = true)
    by (apply truthy_spec; eauto).
  rewrite inline_router_agrees, auth_router_unfold in I.
  destruct (AuthRouter.check_issuer _); [discriminate|].
  cbn [AuthRouter.provider AuthRouter.issuerUrl AuthRouter.serviceDocumentationUrl] in I.
  rewrite V, T in I. injection I as <-. split.
  - unfold mounted. apply in_map_iff. exists ("/revoke", AuthRouter.RevocationHandler).
    split; [reflexivity|]. simpl. do 3 right. apply in_or_app. right. now left.
  - exists m. split; [reflexivity|]. now rewrite R, T.
Qed.

(** The provider of the test suite behind the router: [/revoke] is mounted
    locally, the document names the upstream revocation endpoint. *)
Lemma proxy_document_points_upstream_witness :
  exists routes served_document,
    InlineRouter.mcpAuthRouter (router_options_for test_options local_issuer)
    = Net.Resolved routes
    /\ mounted "/revoke" routes
    /\ served routes = Some served_document
    /\ Metadata.revocation_endpoint served_document = Some "https://auth.example.com/revoke".
Proof.
  pose (routes :=
          match InlineRouter.mcpAuthRouter (router_options_for test_options local_issuer) with
          | Net.Resolved r => r
          | Net.Rejected _ => []
          end).
  assert (E : InlineRouter.mcpAuthRouter (router_options_for test_options local_issuer)
              = Net.Resolved routes) by reflexivity.
  destruct (proxy_document_points_upstream test_options local_issuer None) as (_ & _ & H).
  destruct (H "https://auth.example.com/revoke" routes eq_refl ltac:(discriminate) E)
    as (M & d & S & R).
  exists routes, d. repeat split; assumption.
Defined.

(* ================================================================== *)
(** * Interleavings: what every schedule keeps *)

Lemma length_replace {A : Type} (i : nat) (a : A) (l : list A) :
  List.length (Interleaving.replace i a l) = List.length l.
Proof.
  revert i. induction l as [|x l IH]; intros [|i]; simpl; try reflexivity.
  now rewrite IH.
Qed.

Lemma awaiting_fetch_app (l : list Interleaving.Pc) (pc : Interleaving.Pc) :
  awaiting_fetch (l ++ [pc])
  = awaiting_fetch l + match pc with Interleaving.AwaitingFetch => 1 | _ => 0 end.
Proof.
  unfold awaiting_fetch. rewrite filter_app, length_app. simpl. now destruct pc.
Qed.

Lemma awaiting_fetch_replace (i : nat) (old new : Interleaving.Pc) (l : list Interleaving.Pc) :
  nth_error l i = Some old ->
  awaiting_fetch (Interleaving.replace i new l)
  + match old with Interleaving.AwaitingFetch => 1 | _ => 0 end
  = awaiting_fetch l
    + match new with Interleaving.AwaitingFetch => 1 | _ => 0 end.
Proof.
  unfold awaiting_fetch. revert i.
  induction l as [|x l IH]; intros [|i] E; simpl in E; try discriminate.
  - injection E as ->. simpl. destruct old, new; simpl; lia.
  - specialize (IH i E). simpl. destruct x; simpl; lia.
Qed.

Lemma step_keeps_counters this server (s : Interleaving.System) (e : Interleaving.Event) :
  counters_consistent s -> counters_consistent (Interleaving.step this server s e).
Proof.
  unfold counters_consistent. intros (F & I & L).
  destruct e as [|i]; simpl.
  - destruct (Js.truthy (LazyProxy._metadataUrl this)); simpl.
    + destruct (LazyProxy.truthy_metadata (Interleaving._metadata s)); simpl;
        rewrite awaiting_fetch_app, length_app; simpl; lia.
    + rewrite awaiting_fetch_app, length_app; simpl; lia.
  - destruct (nth_error (Interleaving.calls s) i) as [[|response|result]|] eqn:E;
      [| |repeat split; assumption|repeat split; assumption].
    + destruct (Net.ok _); simpl; rewrite length_replace;
        match goal with
        | |- context [Interleaving.replace i ?new _] =>
            pose proof (awaiting_fetch_replace i _ new _ E) as R
        end; simpl in R; lia.
    + destruct (Net.body response); simpl; rewrite length_replace;
        match goal with
        | |- context [Interleaving.replace i ?new _] =>
            pose proof (awaiting_fetch_replace i _ new _ E) as R
        end; simpl in R; lia.
Qed.

Lemma step_calls this server (s : Interleaving.System) (e : Interleaving.Event) :
  List.length (Interleaving.calls (Interleaving.step this server s e))
  = List.length (Interleaving.calls s)
    + match e with Interleaving.Invoke => 1 | _ => 0 end.
Proof.
  destruct e as [|i]; simpl.
  - destruct (Js.truthy _); [destruct (LazyProxy.truthy_metadata _)|]; simpl;
      now rewrite length_app.
  - destruct (nth_error (Interleaving.calls s) i) as [[|response|result]|];
      [destruct (Net.ok _)|destruct (Net.body response)| |]; simpl;
      rewrite ?length_replace; lia.
Qed.

Lemma step_without_url this server (s : Interleaving.System) (e : Interleaving.Event) :
  Js.truthy (LazyProxy._metadataUrl this) = false ->
  Interleaving.issued (Interleaving.step this server s e) = Interleaving.issued s.
Proof.
  intros U. destruct e as [|i]; simpl.
  - now rewrite U.
  - destruct (nth_error (Interleaving.calls s) i) as [[|response|result]|];
      [destruct (Net.ok _)|destruct (Net.body response)| |]; reflexivity.
Qed.

Lemma run_keeps this server schedule (s : Interleaving.System) :
  counters_consistent s ->
  counters_consistent (Interleaving.run this server schedule s)
  /\ List.length (Interleaving.calls (Interleaving.run this server schedule s))
     = List.length (Interleaving.calls s) + invocations schedule
  /\ (Js.truthy (LazyProxy._metadataUrl this) = false ->
      Interleaving.issued (Interleaving.run this server schedule s) = Interleaving.issued s).
Proof.
  unfold Interleaving.run. revert s.
  induction schedule as [|e schedule IH]; intros s C; simpl.
  - split; [exact C|]. split; [unfold invocations; simpl; lia | reflexivity].
  - destruct (IH _ (step_keeps_counters this server s e C)) as (K & N & U).
    split; [exact K|]. split.
    + rewrite N, step_calls. unfold invocations. destruct e; simpl; lia.
    + intros T. now rewrite U, step_without_url.
Qed.

(** X19. However the calls of [getMetadata] and the arrivals of the answers
    are interleaved on a fresh provider, the number of unanswered metadata
    requests is the number of calls suspended at [fetch], no call has sent
    more than one request (the requests sent never exceed the calls made),
    there are as many calls as invocations, and a provider without a
    metadata URL sends nothing. *)
Theorem schedules_keep_counters
    (this : LazyProxy.ProxyOAuthServerProvider) (server : Net.Request -> Net.Response)
    (schedule : list Interleaving.Event) :
  let s := Interleaving.run this server schedule Interleaving.cold in
  Interleaving.in_flight s = awaiting_fetch (Interleaving.calls s)
  /\ Interleaving.in_flight s <= Interleaving.issued s
  /\ Interleaving.issued s <= List.length (Interleaving.calls s)
  /\ List.length (Interleaving.calls s) = invocations schedule
  /\ (Js.truthy (LazyProxy._metadataUrl this) = false -> Interleaving.issued s = 0).
Proof.
  intros s.
  assert (C : counters_consistent Interleaving.cold) by (repeat split; simpl; lia).
  destruct (run_keeps this server schedule Interleaving.cold C) as ((F & I & L) & N & U).
  fold s in F, I, L, N, U. repeat split; try assumption.
Qed.

(** A provider with endpoints of its own and no metadata URL: three calls,
    no request. *)
Lemma schedules_keep_counters_witness :
  Interleaving.issued
    (Interleaving.run lazy_with_token_endpoint metadata_server
       [Interleaving.Invoke; Interleaving.Invoke; Interleaving.Deliver 0; Interleaving.Invoke]
       Interleaving.cold) = 0.
Proof.
  destruct (schedules_keep_counters lazy_with_token_endpoint metadata_server
              [Interleaving.Invoke; Interleaving.Invoke; Interleaving.Deliver 0;
               Interleaving.Invoke]) as (_ & _ & _ & _ & H).
  exact (H eq_refl).
Defined.

(* ================================================================== *)
(** * The lazy provider: non-2xx answers *)


